(** * TaskFlow: the storage gateway and the entity services

    A shallow embedding of the client-side data layer of the TaskFlow
    application: [StorageService] (server / localStorage dual path), the
    route handler that serves it, and the Todo, Project, Notes and
    Notification services that rewrite whole collections through it.

    Conventions of the embedding.
    - A TypeScript interface is a record in a module of its own, so that
      fields keep their source names ([Todo.id], [Project.todoIds]).
      An optional field [f?: T] is an [option T]; [None] is [undefined].
      A string is a sequence of code units, one [ascii] each.
    - A JavaScript [number] is an IEEE-754 binary64 value, [number] below,
      with the operations of the standard library's [SpecFloat].
    - An [async] function is a state transformer over [World.t] that
      either returns or throws; [await] is sequencing.  [console.*] output
      is not part of the state.
    - The state holds the two stores of the gateway, the files behind the
      route handler and [localStorage], both as finite maps.  What they
      hold is typed by the interfaces above ([Value]).  In
      [StorageService.write] the [localStorage] takes every write; a
      [localStorage] that can refuse one (a full store) is
      [StorageService.write_quota].
    - The clock, the identifier generators and [Date] parsing belong to
      the environment ([Env.t]); the state counts the readings taken. *)

From Stdlib Require Import ZArith String Ascii List Bool Lia.
From Stdlib Require SpecFloat.
From stdpp Require Import gmap strings list pretty.

Local Open Scope string_scope.
Local Open Scope Z_scope.

(* ===================================================================== *)
(** * JavaScript primitives *)
(* ===================================================================== *)

Module JS.

(** ** Numbers: binary64 *)

Definition number : Type := SpecFloat.spec_float.

Definition prec : Z := 53.
Definition emax : Z := 1024.

Definition NaN : number := SpecFloat.S754_nan.

(** The Number value of a mathematical integer (round to nearest even). *)
Definition num_of_Z (z : Z) : number :=
  SpecFloat.binary_normalize prec emax z 0 false.

Definition num_of_nat (n : nat) : number := num_of_Z (Z.of_nat n).

Definition num_add : number -> number -> number := SpecFloat.SFadd prec emax.
Definition num_mul : number -> number -> number := SpecFloat.SFmul prec emax.
Definition num_div : number -> number -> number := SpecFloat.SFdiv prec emax.

(** [a <= b] and [a >= b]; both are [false] as soon as one side is NaN. *)
Definition num_le (a b : number) : bool := SpecFloat.SFleb a b.
Definition num_ge (a b : number) : bool := SpecFloat.SFleb b a.

(** [Math.round]: the integer closest to [x], ties towards +infinity;
    NaN, the infinities and integers are returned as they are. *)
Definition Math_round (x : number) : number :=
  match x with
  | SpecFloat.S754_finite s m e =>
      if 0 <=? e then x
      else
        let d := 2 ^ (- e) in
        let n := if s then Z.neg m else Z.pos m in
        let q := (2 * n + d) / (2 * d) in
        if q =? 0 then SpecFloat.S754_zero s else num_of_Z q
  | _ => x
  end.

(** Truthiness of a number ([0], [-0] and [NaN] are falsy). *)
Definition num_truthy (x : number) : bool :=
  match x with
  | SpecFloat.S754_zero _ | SpecFloat.S754_nan => false
  | _ => true
  end.

(** ** Strings *)

(** Truthiness of a string: only the empty string is falsy. *)
Definition str_truthy (s : string) : bool :=
  match s with
  | EmptyString => false
  | String _ _ => true
  end.

(** Truthiness of an optional string ([undefined] is falsy). *)
Definition opt_truthy (o : option string) : bool :=
  match o with
  | Some s => str_truthy s
  | None => false
  end.

(** White space, as far as one-byte characters go: TAB, LF, VT, FF, CR,
    SP and NBSP. *)
Definition is_white_space (c : ascii) : bool :=
  let n := nat_of_ascii c in
  ((9 <=? n) && (n <=? 13))%nat || (n =? 32)%nat || (n =? 160)%nat.

Fixpoint skip_white_space (s : string) : string :=
  match s with
  | String c r => if is_white_space c then skip_white_space r else s
  | EmptyString => EmptyString
  end.

(** [s.trim().length === 0]: trimming both ends leaves nothing exactly
    when every character is white space. *)
Fixpoint is_blank (s : string) : bool :=
  match s with
  | EmptyString => true
  | String c r => is_white_space c && is_blank r
  end.

(** [s.split(sep)] for a one-character separator. The result is never
    empty: [""] splits into [[""]]. *)
Fixpoint split (sep : ascii) (s : string) : list string :=
  match s with
  | EmptyString => [EmptyString]
  | String c r =>
      if Ascii.eqb c sep then EmptyString :: split sep r
      else match split sep r with
           | p :: ps => String c p :: ps
           | [] => [String c EmptyString]
           end
  end.

Definition digit_value (c : ascii) : option Z :=
  let n := nat_of_ascii c in
  if ((48 <=? n) && (n <=? 57))%nat then Some (Z.of_nat n - 48) else None.

(** The longest prefix of decimal digits, as an integer; [None] when the
    string does not start with a digit. *)
Fixpoint leading_digits (s : string) (acc : option Z) : option Z :=
  match s with
  | EmptyString => acc
  | String c r =>
      match digit_value c with
      | Some d => leading_digits r (Some (10 * default 0 acc + d))
      | None => acc
      end
  end.

(** [parseInt(s, 10)]: leading white space is skipped, one sign is
    accepted, then the longest run of digits is read; no digit gives NaN. *)
Definition parseInt (s : string) : number :=
  let s1 := skip_white_space s in
  let '(neg, s2) :=
    match s1 with
    | String c r =>
        if Ascii.eqb c "-" then (true, r)
        else if Ascii.eqb c "+" then (false, r)
        else (false, s1)
    | EmptyString => (false, s1)
    end in
  match leading_digits s2 None with
  | None => NaN
  | Some z =>
      if neg then (if z =? 0 then SpecFloat.S754_zero true else num_of_Z (- z))
      else num_of_Z z
  end.

(** [a || b] on an optional string. *)
Definition str_or (a : option string) (b : string) : string :=
  match a with
  | Some s => if str_truthy s then s else b
  | None => b
  end.

(** [c.toLowerCase()] for a one-byte character: the letters A-Z and the
    capital letters of Latin-1 (U+00C0 to U+00DE, without the
    multiplication sign U+00D7) move up by 32. *)
Definition lower_char (c : ascii) : ascii :=
  let n := nat_of_ascii c in
  if (((65 <=? n) && (n <=? 90))
      || ((192 <=? n) && (n <=? 222) && negb (n =? 215)))%nat
  then ascii_of_nat (n + 32) else c.

Fixpoint toLowerCase (s : string) : string :=
  match s with
  | EmptyString => EmptyString
  | String c r => String (lower_char c) (toLowerCase r)
  end.

(** [s.includes(q)] on strings: [q] occurs in [s]. *)
Fixpoint str_includes (s q : string) : bool :=
  String.prefix q s
  || match s with
     | EmptyString => false
     | String _ r => str_includes r q
     end.

(** [s.replace(/:/g, "-")] *)
Fixpoint replace_colons (s : string) : string :=
  match s with
  | EmptyString => EmptyString
  | String c r =>
      String (if Ascii.eqb c ":" then "-"%char else c) (replace_colons r)
  end.

(** ** Exceptions and completion records *)

Inductive Exn : Type :=
| Error (message : string)
| TypeError (message : string)
| SyntaxError (message : string).

Inductive Outcome (A : Type) : Type :=
| Returns (a : A)
| Throws (e : Exn).

Arguments Returns {A} a.
Arguments Throws {A} e.

Definition returned {A} (o : Outcome A) : bool :=
  match o with
  | Returns _ => true
  | Throws _ => false
  end.

End JS.

Export JS.


(* ===================================================================== *)
(** * The data model (src/types/index.ts) *)
(* ===================================================================== *)

Inductive TodoStatus : Type := Pending | InProgress | Completed.
Inductive Priority : Type := Low | Medium | High.

Definition TodoStatus_eqb (a b : TodoStatus) : bool :=
  match a, b with
  | Pending, Pending | InProgress, InProgress | Completed, Completed => true
  | _, _ => false
  end.

Module SubTask.
Record t : Type := mk {
  id : string;
  title : string;
  completed : bool;
  createdAt : string;
  completedAt : option string
}.
End SubTask.

(** [TodoImage] and [NoteImage] are the same interface. *)
Module Image.
Record t : Type := mk {
  id : string;
  url : string;
  thumbnail : option string;
  name : string;
  type : string;
  size : number;
  createdAt : string
}.
End Image.

Module Todo.
Record t : Type := mk {
  id : string;
  title : string;
  description : option string;
  status : TodoStatus;
  priority : Priority;
  dueDate : option string;
  createdAt : string;
  updatedAt : string;
  projectId : option string;
  images : option (list Image.t);
  tags : option (list string);
  subtasks : option (list SubTask.t);
  progress : option number;
  startDate : option string;
  completedAt : option string;
  category : option string;
  dependsOn : option (list string)
}.
End Todo.

(** [Omit<Todo, "id" | "createdAt" | "updatedAt">], the argument of
    [createTodo]. *)
Module TodoData.
Record t : Type := mk {
  title : string;
  description : option string;
  status : TodoStatus;
  priority : Priority;
  dueDate : option string;
  projectId : option string;
  images : option (list Image.t);
  tags : option (list string);
  subtasks : option (list SubTask.t);
  progress : option number;
  startDate : option string;
  completedAt : option string;
  category : option string;
  dependsOn : option (list string)
}.
End TodoData.

(** [Partial<Omit<Todo, "id" | "createdAt">>], the argument of
    [updateTodo]. [None] is a key that the patch does not have.  A key of
    an optional field may be present with the value [undefined]
    ([Some None]), as in [{ projectId: undefined }]; a required field that
    the patch has carries a value. *)
Module TodoPatch.
Record t : Type := mk {
  title : option string;
  description : option (option string);
  status : option TodoStatus;
  priority : option Priority;
  dueDate : option (option string);
  updatedAt : option string;
  projectId : option (option string);
  images : option (option (list Image.t));
  tags : option (option (list string));
  subtasks : option (option (list SubTask.t));
  progress : option (option number);
  startDate : option (option string);
  completedAt : option (option string);
  category : option (option string);
  dependsOn : option (option (list string))
}.

(** The patch [{}]. *)
Definition empty : t :=
  mk None None None None None None None None None None None None None None None.
End TodoPatch.

Inductive ProjectStatus : Type :=
| Planning | Active | OnHold | ProjectCompleted | Archived.

Module Milestone.
Record t : Type := mk {
  id : string;
  title : string;
  description : option string;
  dueDate : string;
  completed : bool;
  completedAt : option string;
  todoIds : list string;
  createdAt : string;
  updatedAt : string
}.
End Milestone.

Inductive ResourceType : Type := ResFile | ResLink | ResNote.

Module ProjectResource.
Record t : Type := mk {
  id : string;
  name : string;
  type : ResourceType;
  url : string;
  createdAt : string;
  updatedAt : string
}.
End ProjectResource.

Inductive RiskStatus : Type :=
| Identified | Mitigated | Occurred | Resolved.

Module ProjectRisk.
Record t : Type := mk {
  id : string;
  title : string;
  description : option string;
  impact : Priority;
  probability : Priority;
  status : RiskStatus;
  createdAt : string;
  updatedAt : string
}.
End ProjectRisk.

Module Project.
Record t : Type := mk {
  id : string;
  name : string;
  description : option string;
  status : ProjectStatus;
  createdAt : string;
  updatedAt : string;
  startDate : option string;
  dueDate : option string;
  completedAt : option string;
  color : option string;
  progress : number;
  todoIds : list string;
  milestones : list Milestone.t;
  resources : option (list ProjectResource.t);
  tags : option (list string);
  owner : option string;
  risks : option (list ProjectRisk.t);
  velocity : option number;
  timeSpent : option number
}.
End Project.

(** [Partial<Project>], the argument of [updateProject]; same reading of
    [None] and [Some None] as for [TodoPatch]. *)
Module ProjectPatch.
Record t : Type := mk {
  id : option string;
  name : option string;
  description : option (option string);
  status : option ProjectStatus;
  createdAt : option string;
  updatedAt : option string;
  startDate : option (option string);
  dueDate : option (option string);
  completedAt : option (option string);
  color : option (option string);
  progress : option number;
  todoIds : option (list string);
  milestones : option (list Milestone.t);
  resources : option (option (list ProjectResource.t));
  tags : option (option (list string));
  owner : option (option string);
  risks : option (option (list ProjectRisk.t));
  velocity : option (option number);
  timeSpent : option (option number)
}.

Definition empty : t :=
  mk None None None None None None None None None None
     None None None None None None None None None.

(** The patches [{ progress }] and [{ todoIds }]. *)
Definition of_progress (p : number) : t :=
  mk None None None None None None None None None None
     (Some p) None None None None None None None None.

Definition of_todoIds (l : list string) : t :=
  mk None None None None None None None None None None
     None (Some l) None None None None None None None.

(** The patches [{ milestones }], [{ resources }] and [{ risks }]. *)
Definition of_milestones (l : list Milestone.t) : t :=
  mk None None None None None None None None None None
     None None (Some l) None None None None None None.

Definition of_resources (l : list ProjectResource.t) : t :=
  mk None None None None None None None None None None
     None None None (Some (Some l)) None None None None None.

Definition of_risks (l : list ProjectRisk.t) : t :=
  mk None None None None None None None None None None
     None None None None None None (Some (Some l)) None None.
End ProjectPatch.

Inductive ContentType : Type := Markdown | RichText.

Module Note.
Record t : Type := mk {
  id : string;
  title : string;
  content : string;
  createdAt : string;
  updatedAt : string;
  images : option (list Image.t);
  projectId : option string;
  todoId : option string;
  tags : option (list string);
  folder : option string;
  isFavorite : option bool;
  lastEditedAt : string;
  contentType : ContentType;
  relatedNotes : option (list string);
  relatedTodos : option (list string);
  version : option number;
  collaborators : option (list string);
  color : option string
}.
End Note.

(** [Partial<Omit<Note, "id" | "createdAt">>], the argument of
    [updateNote]. *)
Module NotePatch.
Record t : Type := mk {
  title : option string;
  content : option string;
  updatedAt : option string;
  images : option (option (list Image.t));
  projectId : option (option string);
  todoId : option (option string);
  tags : option (option (list string));
  folder : option (option string);
  isFavorite : option (option bool);
  lastEditedAt : option string;
  contentType : option ContentType;
  relatedNotes : option (option (list string));
  relatedTodos : option (option (list string));
  version : option (option number);
  collaborators : option (option (list string));
  color : option (option string)
}.

Definition empty : t :=
  mk None None None None None None None None
     None None None None None None None None.

(** The patch [{ content }]. *)
Definition of_content (c : string) : t :=
  mk None (Some c) None None None None None None
     None None None None None None None None.
End NotePatch.

(** [Omit<Note, "id" | "createdAt" | "updatedAt" | "lastEditedAt" |
    "version">], the argument of [createNote]. The source reads
    [note.contentType || "markdown"], so the field may be missing at run
    time. *)
Module NoteData.
Record t : Type := mk {
  title : string;
  content : string;
  images : option (list Image.t);
  projectId : option string;
  todoId : option string;
  tags : option (list string);
  folder : option string;
  isFavorite : option bool;
  contentType : option ContentType;
  relatedNotes : option (list string);
  relatedTodos : option (list string);
  collaborators : option (list string);
  color : option string
}.
End NoteData.

Module NoteVersion.
Record t : Type := mk {
  id : string;
  noteId : string;
  content : string;
  timestamp : string;
  author : option string
}.
End NoteVersion.

Inductive NotificationType : Type := NInfo | NWarning | NSuccess | NError.
Inductive NotificationCategory : Type :=
| CatTodo | CatProject | CatNote | CatSystem.
Inductive NotificationSource : Type :=
| SrcDueDate | SrcProgress | SrcMention | SrcSystem | SrcReminder.
Inductive ActionKind : Type :=
| ActView | ActComplete | ActDismiss | ActSnooze | ActCustom.

Module NotificationAction.
Record t : Type := mk {
  id : string;
  label : string;
  action : ActionKind;
  url : option string;
  payload : option (list (string * string))
}.
End NotificationAction.

Module NotificationData.
Record t : Type := mk {
  id : string;
  title : string;
  message : string;
  type : NotificationType;
  timestamp : string;
  read : bool;
  todoId : option string;
  projectId : option string;
  noteId : option string;
  priority : Priority;
  actions : option (list NotificationAction.t);
  expiresAt : option string;
  category : option NotificationCategory;
  source : option NotificationSource
}.
End NotificationData.

Inductive Channel : Type := Browser | Email | System.

Module Categories.
Record t : Type := mk { todo : bool; project : bool; note : bool; system : bool }.
End Categories.

Module Priorities.
Record t : Type := mk { low : bool; medium : bool; high : bool }.
End Priorities.

Module NotificationPreference.
Record t : Type := mk {
  enabled : bool;
  channels : list Channel;
  quietHoursStart : option string;
  quietHoursEnd : option string;
  categories : Categories.t;
  priorities : Priorities.t
}.
End NotificationPreference.

Inductive Theme : Type := Light | Dark | SystemTheme.

Module WorkingHours.
Record t : Type := mk { start : string; end_ : string }.
End WorkingHours.

Module AppSettings.
Record t : Type := mk {
  theme : Theme;
  notifications : bool;
  completionGoal : number;
  workingHours : WorkingHours.t;
  useServerStorage : option bool
}.
End AppSettings.

(** ** Arguments of the other service methods *)

(** An element of [initialMilestones]. *)
Module InitialMilestone.
Record t : Type := mk {
  title : string;
  description : option string;
  dueDate : option string
}.
End InitialMilestone.

(** The argument of [createProject]: [Omit<Project, "id" | "createdAt" |
    "updatedAt" | "todoIds" | "progress" | "milestones">] with
    [initialMilestones?]. The source reads [data.status || "planning"], so
    the field may be missing at run time. *)
Module ProjectData.
Record t : Type := mk {
  name : string;
  description : option string;
  status : option ProjectStatus;
  startDate : option string;
  dueDate : option string;
  completedAt : option string;
  color : option string;
  resources : option (list ProjectResource.t);
  tags : option (list string);
  owner : option string;
  risks : option (list ProjectRisk.t);
  velocity : option number;
  timeSpent : option number;
  initialMilestones : option (list InitialMilestone.t)
}.
End ProjectData.

(** [Omit<Milestone, "id" | "createdAt" | "updatedAt">] *)
Module MilestoneData.
Record t : Type := mk {
  title : string;
  description : option string;
  dueDate : string;
  completed : bool;
  completedAt : option string;
  todoIds : list string
}.
End MilestoneData.

(** [Partial<Omit<Milestone, "id" | "createdAt">>] *)
Module MilestonePatch.
Record t : Type := mk {
  title : option string;
  description : option (option string);
  dueDate : option string;
  completed : option bool;
  completedAt : option (option string);
  todoIds : option (list string);
  updatedAt : option string
}.

Definition empty : t := mk None None None None None None None.
End MilestonePatch.

(** [Omit<ProjectResource, "id" | "createdAt" | "updatedAt">] *)
Module ResourceData.
Record t : Type := mk {
  name : string;
  type : ResourceType;
  url : string
}.
End ResourceData.

(** [Omit<ProjectRisk, "id" | "createdAt" | "updatedAt">] *)
Module RiskData.
Record t : Type := mk {
  title : string;
  description : option string;
  impact : Priority;
  probability : Priority;
  status : RiskStatus
}.
End RiskData.

(** [Partial<Omit<ProjectRisk, "id" | "createdAt">>] *)
Module RiskPatch.
Record t : Type := mk {
  title : option string;
  description : option (option string);
  impact : option Priority;
  probability : option Priority;
  status : option RiskStatus;
  updatedAt : option string
}.

Definition empty : t := mk None None None None None None.
End RiskPatch.

(** [Omit<NotificationData, "id" | "timestamp" | "read">] *)
Module NotificationInput.
Record t : Type := mk {
  title : string;
  message : string;
  type : NotificationType;
  todoId : option string;
  projectId : option string;
  noteId : option string;
  priority : Priority;
  actions : option (list NotificationAction.t);
  expiresAt : option string;
  category : option NotificationCategory;
  source : option NotificationSource
}.
End NotificationInput.

(* ===================================================================== *)
(** * What is stored, and where *)
(* ===================================================================== *)

(** A value as it travels through the gateway ([T] of [read<T>] and
    [write<T>]): one of the collections, one of the two singleton objects,
    or a plain object ([{}], the metadata record, a server reply). *)
Inductive Value : Type :=
| VTodos (l : list Todo.t)
| VProjects (l : list Project.t)
| VNotes (l : list Note.t)
| VNoteVersions (l : list NoteVersion.t)
| VNotifications (l : list NotificationData.t)
| VSettings (s : AppSettings.t)
| VPreferences (p : NotificationPreference.t)
| VObject (fields : list (string * string)).

(** The empty plain object [{}]. *)
Definition empty_object : Value := VObject [].

Definition is_array (v : Value) : bool :=
  match v with
  | VTodos _ | VProjects _ | VNotes _ | VNoteVersions _ | VNotifications _ => true
  | _ => false
  end.

(** A string held by [localStorage]: the JSON text of a value, or a string
    that [JSON.parse] rejects (the empty string among them). *)
Inductive Text : Type :=
| JsonText (v : Value)
| RawText (s : string).

(** [JSON.stringify] and [JSON.parse].  The JSON text of a value is
    represented by the value, so that parsing what was written gives the
    value back.  JavaScript does so for the values whose numbers are
    finite and not [-0] and whose plain objects have distinct keys that
    are not array indices; it writes [NaN] and the infinities as [null]
    and [-0] as [0], and lists index keys first.  The statements about a
    value read back after a write are therefore about such values. *)
Definition JSON_stringify (v : Value) : Text := JsonText v.

Definition JSON_parse (t : Text) : Outcome Value :=
  match t with
  | JsonText v => Returns v
  | RawText _ => Throws (SyntaxError "Unexpected token in JSON")
  end.

Definition text_truthy (t : Text) : bool :=
  match t with
  | JsonText _ => true
  | RawText s => str_truthy s
  end.

Inductive ToastVariant : Type := VariantDefault | VariantWarning | VariantDestructive.

Module Toast.
Record t : Type := mk {
  title : string;
  description : string;
  variant : ToastVariant
}.
End Toast.

Module StorageConfig.
Record t : Type := mk {
  useServerStorage : bool;
  apiBasePath : string;
  fallbackToLocalStorage : bool
}.
End StorageConfig.

(** What [fetch] resolves to. [json] is [None] when [response.json()]
    rejects. *)
Module Response.
Record t : Type := mk {
  status : Z;
  json : option Value
}.

Definition ok (r : t) : bool := (200 <=? status r) && (status r <=? 299).
End Response.

(** The environment of the services: the clock behind [new Date()], the
    two identifier generators and [Date] parsing.  [clock n] is the
    ISO-8601 string of the [n]-th reading of the clock; [generateId n] and
    [uuidv4 n] are the [n]-th identifiers handed out; [parseDate s] is
    [new Date(s).getTime()], with [None] for an invalid date. *)
Module Env.
Record t : Type := mk {
  clock : nat -> string;
  generateId : nat -> string;
  uuidv4 : nat -> string;
  parseDate : string -> option Z
}.
End Env.

(** The state the services run in. [files] is the server's data directory
    (one JSON document per entity), [online] tells whether requests reach
    the server, [detached] counts the metadata updates that [write] has
    started without awaiting them. *)
Module World.
Record t : Type := mk {
  isClient : bool;
  config : StorageConfig.t;
  online : bool;
  files : gmap string Value;
  localStorage : gmap string Text;
  toasts : list Toast.t;
  detached : nat;
  ticks : nat;
  generated : nat;
  uuids : nat;
  env : Env.t
}.

Definition set_files (f : gmap string Value) (w : t) : t :=
  mk (isClient w) (config w) (online w) f (localStorage w) (toasts w)
     (detached w) (ticks w) (generated w) (uuids w) (env w).

Definition set_localStorage (l : gmap string Text) (w : t) : t :=
  mk (isClient w) (config w) (online w) (files w) l (toasts w)
     (detached w) (ticks w) (generated w) (uuids w) (env w).

Definition add_toast (x : Toast.t) (w : t) : t :=
  mk (isClient w) (config w) (online w) (files w) (localStorage w)
     (toasts w ++ [x])%list (detached w) (ticks w) (generated w) (uuids w) (env w).

Definition set_detached (n : nat) (w : t) : t :=
  mk (isClient w) (config w) (online w) (files w) (localStorage w) (toasts w)
     n (ticks w) (generated w) (uuids w) (env w).

Definition set_ticks (n : nat) (w : t) : t :=
  mk (isClient w) (config w) (online w) (files w) (localStorage w) (toasts w)
     (detached w) n (generated w) (uuids w) (env w).

Definition set_generated (n : nat) (w : t) : t :=
  mk (isClient w) (config w) (online w) (files w) (localStorage w) (toasts w)
     (detached w) (ticks w) n (uuids w) (env w).

Definition set_uuids (n : nat) (w : t) : t :=
  mk (isClient w) (config w) (online w) (files w) (localStorage w) (toasts w)
     (detached w) (ticks w) (generated w) n (env w).

Definition set_config (c : StorageConfig.t) (w : t) : t :=
  mk (isClient w) c (online w) (files w) (localStorage w) (toasts w)
     (detached w) (ticks w) (generated w) (uuids w) (env w).
End World.

(** ** The monad of [async] functions *)

Definition M (A : Type) : Type := World.t -> Outcome A * World.t.

Definition ret {A} (a : A) : M A := fun w => (Returns a, w).

Definition throw {A} (e : Exn) : M A := fun w => (Throws e, w).

Definition bind {A B} (m : M A) (k : A -> M B) : M B :=
  fun w =>
    match m w with
    | (Returns a, w') => k a w'
    | (Throws e, w') => (Throws e, w')
    end.

(** [try { m } catch (error) { h error }] *)
Definition try_catch {A} (m : M A) (h : Exn -> M A) : M A :=
  fun w =>
    match m w with
    | (Returns a, w') => (Returns a, w')
    | (Throws e, w') => h e w'
    end.

(** A computation that only looks at the state. *)
Definition gets {A} (f : World.t -> A) : M A := fun w => (Returns (f w), w).

(** A synchronous result raised into [M]. *)
Definition lift {A} (o : Outcome A) : M A := fun w => (o, w).

(** A computation that only changes the state. *)
Definition modify (f : World.t -> World.t) : M unit := fun w => (Returns tt, f w).

Notation "'let!' x ':=' m 'in' k" := (bind m (fun x => k))
  (at level 10, x name, m at level 100, k at level 200).
Notation "'do!' m 'in' k" := (bind m (fun _ => k))
  (at level 10, m at level 100, k at level 200).

(** [new Date().toISOString()] *)
Definition now : M string :=
  fun w => (Returns (Env.clock (World.env w) (World.ticks w)),
            World.set_ticks (S (World.ticks w)) w).

(** [generateId()] of [@/lib/utils] and [uuidv4()] of [uuid]: the next
    identifier of the environment. *)
Definition generateId : M string :=
  fun w => (Returns (Env.generateId (World.env w) (World.generated w)),
            World.set_generated (S (World.generated w)) w).

Definition uuidv4 : M string :=
  fun w => (Returns (Env.uuidv4 (World.env w) (World.uuids w)),
            World.set_uuids (S (World.uuids w)) w).

(* ===================================================================== *)
(** * The route handler (src/app/api/storage/[entity]/route.ts) *)
(* ===================================================================== *)

Module Route.

(** The characters that [entity.replace(/[^a-zA-Z0-9_-]/g, "")] keeps. *)
Definition is_safe_char (c : ascii) : bool :=
  let n := nat_of_ascii c in
  (((48 <=? n) && (n <=? 57)) || ((65 <=? n) && (n <=? 90))
   || ((97 <=? n) && (n <=? 122)) || (n =? 95) || (n =? 45))%nat.

Fixpoint sanitize (entity : string) : string :=
  match entity with
  | EmptyString => EmptyString
  | String c r => if is_safe_char c then String c (sanitize r) else sanitize r
  end.

Definition error_body (msg : string) : option Value :=
  Some (VObject [("error", msg)]).

(** [GET], operation "read". *)
Definition GET (files : gmap string Value) (entity : string) : Response.t :=
  let sanitizedEntity := sanitize entity in
  if negb (String.eqb sanitizedEntity entity) then
    Response.mk 400 (error_body "Invalid entity name")
  else
    match files !! sanitizedEntity with
    | None => Response.mk 404 (error_body ("No data found for " ++ sanitizedEntity))
    | Some data => Response.mk 200 (Some data)
    end.

(** [POST], operation "write": the reply and the files afterwards. *)
Definition POST (files : gmap string Value) (entity : string) (data : Value)
  : Response.t * gmap string Value :=
  let sanitizedEntity := sanitize entity in
  if negb (String.eqb sanitizedEntity entity) then
    (Response.mk 400 (error_body "Invalid entity name"), files)
  else
    (Response.mk 200 (Some (VObject [("success", "true")])),
     <[sanitizedEntity := data]> files).

End Route.

(* ===================================================================== *)
(** * StorageService (src/services/storage/storageService.ts) *)
(* ===================================================================== *)

Module StorageService.

(** [this.basePath] *)
Definition basePath (w : World.t) : string :=
  if World.isClient w then "taskflow_data" else "".

Definition getStorageKey (w : World.t) (entity : string) (filename : option string)
  : string :=
  if String.eqb entity "metadata" then basePath w ++ "_metadata"
  else
    let entityKey := basePath w ++ "_" ++ entity in
    match filename with
    | Some f => if str_truthy f then entityKey ++ "_" ++ f else entityKey
    | None => entityKey
    end.

Definition default_settings : AppSettings.t :=
  AppSettings.mk SystemTheme true (num_of_Z 5)
    (WorkingHours.mk "09:00" "17:00") (Some true).

Definition default_preferences : NotificationPreference.t :=
  NotificationPreference.mk true [Browser] None None
    (Categories.mk true true true true) (Priorities.mk true true true).

(** The literal [[]] is the empty collection of the entity that is asked
    for. *)
Definition getEmptyDataByEntityType (entity : string) : Value :=
  if String.eqb entity "todos" then VTodos []
  else if String.eqb entity "projects" then VProjects []
  else if String.eqb entity "notes" then VNotes []
  else if String.eqb entity "notifications" then VNotifications []
  else if String.eqb entity "settings" then VSettings default_settings
  else if String.eqb entity "notification_preferences" then
    VPreferences default_preferences
  else empty_object.

Definition status_error (r : Response.t) : Exn :=
  Error ("Server returned status " ++ pretty (Response.status r)).

(** [read], given what the [fetch] of its server branch settles to (the
    request is made only when server storage is enabled). *)
Definition read_with (resp : Outcome Response.t) (w : World.t)
    (entity : string) (filename : option string) : Outcome Value :=
  let cfg := World.config w in
  let body : Outcome Value :=
    if negb (World.isClient w) then Returns (getEmptyDataByEntityType entity)
    else
      (* [Some v]: the server branch returned [v]; [None]: go on to
         localStorage *)
      let server : Outcome (option Value) :=
        if StorageConfig.useServerStorage cfg then
          let attempt : Outcome Value :=
            match resp with
            | Throws e => Throws e
            | Returns response =>
                if Response.ok response then
                  match Response.json response with
                  | Some data => Returns data
                  | None => Throws (SyntaxError "Unexpected end of JSON input")
                  end
                else if Response.status response =? 404 then
                  Returns (getEmptyDataByEntityType entity)
                else Throws (status_error response)
            end in
          match attempt with
          | Returns v => Returns (Some v)
          | Throws error =>
              if negb (StorageConfig.fallbackToLocalStorage cfg) then Throws error
              else Returns None
          end
        else Returns None in
      match server with
      | Throws e => Throws e
      | Returns (Some v) => Returns v
      | Returns None =>
          let storageKey := getStorageKey w entity filename in
          match World.localStorage w !! storageKey with
          | None => Returns (getEmptyDataByEntityType entity)
          | Some rawData =>
              if negb (text_truthy rawData) then
                Returns (getEmptyDataByEntityType entity)
              else JSON_parse rawData
          end
      end in
  match body with
  | Returns v => Returns v
  | Throws _ => Returns (getEmptyDataByEntityType entity)
  end.

Definition storage_warning : Toast.t :=
  Toast.mk "Storage Warning"
    "Could not save to server. Data saved locally only." VariantWarning.

(** The localStorage branch of [write]: back up what is there, then store. *)
Definition write_local (w : World.t) (storageKey : string) (jsonData : Text)
  : World.t :=
  let ls := World.localStorage w in
  let ls1 :=
    match ls !! storageKey with
    | Some existingData =>
        if text_truthy existingData
        then <[storageKey ++ "_backup" := existingData]> ls
        else ls
    | None => ls
    end in
  World.set_localStorage (<[storageKey := jsonData]> ls1) w.

(** [this.updateMetadata()] is called and not awaited: [write] only starts
    it. What it does once it runs is [updateMetadata] below. *)
Definition start_updateMetadata (w : World.t) : World.t :=
  World.set_detached (S (World.detached w)) w.

(** [write], given what the [fetch] of its server branch settles to; [w]
    is the state after the request. *)
Definition write_with (resp : Outcome Response.t) (w : World.t)
    (entity : string) (data : Value) (filename : option string)
  : Outcome unit * World.t :=
  let cfg := World.config w in
  if negb (World.isClient w) then (Returns tt, w)
  else
    let jsonData := JSON_stringify data in
    (* the server branch: [serverWriteSuccessful], or the error that
       leaves it *)
    let caught (error : Exn) : Outcome bool * World.t :=
      let w' := World.add_toast storage_warning w in
      if negb (StorageConfig.fallbackToLocalStorage cfg) then (Throws error, w')
      else (Returns false, w') in
    let '(server, w1) :=
      if StorageConfig.useServerStorage cfg then
        match resp with
        | Returns response =>
            if Response.ok response then (Returns true, w)
            else caught (status_error response)
        | Throws e => caught e
        end
      else (Returns false, w) in
    match server with
    | Throws _ => (Throws (Error ("Failed to save " ++ entity ++ " data")), w1)
    | Returns serverWriteSuccessful =>
        let w2 :=
          if negb serverWriteSuccessful
             && (StorageConfig.fallbackToLocalStorage cfg
                 || negb (StorageConfig.useServerStorage cfg))
          then write_local w1 (getStorageKey w1 entity filename) jsonData
          else w1 in
        let w3 :=
          if negb (String.eqb entity "metadata") then start_updateMetadata w2
          else w2 in
        (Returns tt, w3)
    end.

(** ** [write] on a localStorage that can refuse *)






(** ** The gateway against the route handler *)

Definition fetch_failed : Exn := TypeError "Failed to fetch".

(** [fetch(`${apiBasePath}/${entity}`)] *)
Definition fetch_get (w : World.t) (entity : string) : Outcome Response.t :=
  if World.online w then Returns (Route.GET (World.files w) entity)
  else Throws fetch_failed.

(** [fetch(`${apiBasePath}/${entity}`, { method: "POST", body })] *)
Definition fetch_post (w : World.t) (entity : string) (data : Value)
  : Outcome Response.t * World.t :=
  if World.online w then
    let '(r, files') := Route.POST (World.files w) entity data in
    (Returns r, World.set_files files' w)
  else (Throws fetch_failed, w).

(** [storageService.read<T>(entity)] *)
Definition read (entity : string) : M Value :=
  fun w => (read_with (fetch_get w entity) w entity None, w).

(** [storageService.write(entity, data)] *)
Definition write (entity : string) (data : Value) : M unit :=
  fun w =>
    if World.isClient w && StorageConfig.useServerStorage (World.config w) then
      let '(resp, w1) := fetch_post w entity data in
      write_with resp w1 entity data None
    else write_with (Throws fetch_failed) w entity data None.


(** [metadata.lastSync = ...] on what [read("metadata")] gave. *)
Fixpoint set_field (k v : string) (fields : list (string * string))
  : list (string * string) :=
  match fields with
  | [] => [(k, v)]
  | (k', v') :: r =>
      if String.eqb k' k then (k, v) :: r else (k', v') :: set_field k v r
  end.

Definition set_lastSync (ts : string) (metadata : Value) : Value :=
  match metadata with
  | VObject fields => VObject (set_field "lastSync" ts fields)
  | other => other
  end.

(** The body of [updateMetadata]; every error is caught and logged. *)
Definition updateMetadata : M unit :=
  try_catch
    (let! metadata := try_catch (read "metadata")
                        (fun _ => ret (VObject [("lastSync", "null")])) in
     let! ts := now in
     write "metadata" (set_lastSync ts metadata))
    (fun _ => ret tt).

(** One detached metadata update runs to its end. *)
Definition run_detached : M unit :=
  fun w =>
    match World.detached w with
    | O => (Returns tt, w)
    | S n => updateMetadata (World.set_detached n w)
    end.

(** [setUseServerStorage] *)
Definition setUseServerStorage (useServer : bool) : M unit :=
  fun w =>
    let c := World.config w in
    (Returns tt,
     World.set_config
       (StorageConfig.mk useServer (StorageConfig.apiBasePath c)
          (StorageConfig.fallbackToLocalStorage c)) w).


(** ** [exists], [createBackup] and [restoreFromBackup]

    Their requests go to [/exists], [/backup] and [/restore] below the
    entity; the handler of these paths is not among the sources, so what
    the [fetch] settles to is a parameter and the files stay as they
    are. *)

(** [data.key] on what [response.json()] gave, for the keys [exists] and
    [backupId]: the text of the scalar under [key] of a plain object;
    [None] is [undefined] (no interface of the data model has these
    keys). *)
Definition member (key : string) (data : Value) : option string :=
  match data with
  | VObject fields =>
      match List.find (fun kv => String.eqb (fst kv) key) fields with
      | Some kv => Some (snd kv)
      | None => None
      end
  | _ => None
  end.

(** What [exists] resolves to: a boolean of its own, or the [exists]
    member of the server's reply, passed on as it is. *)
Inductive Existence : Type :=
| Known (b : bool)
| Reported (member : option string).

(** [exists(entity, filename)]; it reads the state and never throws. *)
Definition exists_with (resp : Outcome Response.t) (w : World.t)
    (entity : string) (filename : option string) : Existence :=
  let cfg := World.config w in
  if negb (World.isClient w) then Known false
  else
    (* [Some r]: the server branch returned [r]; [None]: go on to
       localStorage *)
    let server : option Existence :=
      if StorageConfig.useServerStorage cfg then
        let attempt : Outcome (option Existence) :=
          match resp with
          | Throws e => Throws e
          | Returns response =>
              if Response.ok response then
                match Response.json response with
                | Some data => Returns (Some (Reported (member "exists" data)))
                | None => Throws (SyntaxError "Unexpected end of JSON input")
                end
              else Returns None
          end in
        match attempt with
        | Returns r => r
        | Throws _ =>
            if negb (StorageConfig.fallbackToLocalStorage cfg) then Some (Known false)
            else None
        end
      else None in
    match server with
    | Some r => r
    | None =>
        let storageKey := getStorageKey w entity filename in
        (* [localStorage.getItem(storageKey) !== null] *)
        Known (match World.localStorage w !! storageKey with
               | Some _ => true
               | None => false
               end)
    end.

(** The server branch of [createBackup] and [restoreFromBackup]: the
    reply is read by [on_ok]; an error leaves through the [catch], which
    rethrows it unless fallback is enabled.  [None]: go on to
    localStorage. *)
Definition server_branch {A} (resp : Outcome Response.t)
    (on_ok : Response.t -> Outcome A) : M (option A) :=
  let! cfg := gets World.config in
  if StorageConfig.useServerStorage cfg then
    try_catch
      (let! response := lift resp in
       if Response.ok response then
         let! a := lift (on_ok response) in
         ret (Some a)
       else throw (status_error response))
      (fun error =>
         if negb (StorageConfig.fallbackToLocalStorage cfg) then throw error
         else ret None)
  else ret None.

(** [createBackup(entity, filename)]; [None] is a reply without
    [backupId]. *)
Definition createBackup_with (resp : Outcome Response.t)
    (entity : string) (filename : option string) : M (option string) :=
  let! isClient := gets World.isClient in
  if negb isClient then
    throw (Error "StorageService: createBackup() called on server side.")
  else
    let! iso := now in
    let timestamp := replace_colons iso in
    let! server :=
      server_branch resp
        (fun response =>
           match Response.json response with
           | Some data => Returns (member "backupId" data)
           | None => Throws (SyntaxError "Unexpected end of JSON input")
           end) in
    match server with
    | Some backupId => ret backupId
    | None =>
        let! storageKey := gets (fun w => getStorageKey w entity filename) in
        let backupKey := storageKey ++ "_" ++ timestamp ++ "_backup" in
        let! data := gets (fun w => World.localStorage w !! storageKey) in
        match data with
        | Some d =>
            if text_truthy d then
              do! modify (fun w =>
                    World.set_localStorage
                      (<[backupKey := d]> (World.localStorage w)) w) in
              ret (Some backupKey)
            else throw (Error (entity ++ " data does not exist in localStorage"))
        | None => throw (Error (entity ++ " data does not exist in localStorage"))
        end
    end.

(** [restoreFromBackup(entity, backupId)] *)
Definition restoreFromBackup_with (resp : Outcome Response.t)
    (entity : string) (backupId : string) : M unit :=
  let! isClient := gets World.isClient in
  if negb isClient then
    throw (Error "StorageService: restoreFromBackup() called on server side.")
  else
    let! server := server_branch resp (fun _ => Returns tt) in
    match server with
    | Some _ => ret tt
    | None =>
        let! data := gets (fun w => World.localStorage w !! backupId) in
        match data with
        | Some d =>
            if text_truthy d then
              let! storageKey := gets (fun w => getStorageKey w entity None) in
              modify (fun w =>
                World.set_localStorage
                  (<[storageKey := d]> (World.localStorage w)) w)
            else throw (Error "Backup data does not exist in localStorage")
        | None => throw (Error "Backup data does not exist in localStorage")
        end
    end.

End StorageService.

(* ===================================================================== *)
(** * Array helpers shared by the services *)
(* ===================================================================== *)

(** [l.findIndex(f)]; [None] is [-1]. *)
Fixpoint findIndex {A} (f : A -> bool) (l : list A) : option nat :=
  match l with
  | [] => None
  | x :: r => if f x then Some O else option_map S (findIndex f r)
  end.

(** [l.includes(x)] on strings. *)
Definition includes (l : list string) (x : string) : bool :=
  existsb (String.eqb x) l.

(** [{ ...old, ...patch }] for one key. *)
Definition patched {A} (p : option A) (old : A) : A :=
  match p with
  | Some v => v
  | None => old
  end.

(** The unchecked casts [as Todo[]], ...: the services call array methods
    ([find], [findIndex], [filter], [push], spread) on what [read]
    resolved to, and these throw a [TypeError] on a value that is not the
    expected array. *)
Definition not_an_array : Exn := TypeError "value is not an array".

Definition as_todos (v : Value) : Outcome (list Todo.t) :=
  match v with VTodos l => Returns l | _ => Throws not_an_array end.

Definition as_projects (v : Value) : Outcome (list Project.t) :=
  match v with VProjects l => Returns l | _ => Throws not_an_array end.

Definition as_notes (v : Value) : Outcome (list Note.t) :=
  match v with VNotes l => Returns l | _ => Throws not_an_array end.

Definition as_versions (v : Value) : Outcome (list NoteVersion.t) :=
  match v with VNoteVersions l => Returns l | _ => Throws not_an_array end.

Definition as_notifications (v : Value) : Outcome (list NotificationData.t) :=
  match v with VNotifications l => Returns l | _ => Throws not_an_array end.

(** [isNaN(new Date(s).getTime())] *)
Definition invalid_date (parseDate : string -> option Z) (s : string) : bool :=
  match parseDate s with
  | Some _ => false
  | None => true
  end.

(** [s.length > n] *)
Definition longer_than (n : nat) (s : string) : bool :=
  (n <? String.length s)%nat.

(* ===================================================================== *)
(** * TodoService (src/services/todo/todoService.ts) *)
(* ===================================================================== *)

Module TodoService.

Definition getTodos : M Value :=
  try_catch (StorageService.read "todos") (fun _ => ret (VTodos [])).

Definition getTodoById (id : string) : M (option Todo.t) :=
  try_catch
    (let! v := getTodos in
     let! todos := lift (as_todos v) in
     ret (List.find (fun todo => String.eqb (Todo.id todo) id) todos))
    (fun _ => ret None).

(** [validateTodo]. The checks on [subtasks], [tags], [images], [status]
    and [priority] hold by the types of the fields. *)
Definition validateTodo (parseDate : string -> option Z)
    (title : string) (description dueDate : option string) : Outcome unit :=
  if negb (str_truthy title) || is_blank title then
    Throws (Error "Todo title is required")
  else if longer_than 100 title then
    Throws (Error "Todo title must be 100 characters or less")
  else if match description with
          | Some d => str_truthy d && longer_than 500 d
          | None => false
          end then
    Throws (Error "Todo description must be 500 characters or less")
  else if match dueDate with
          | Some d => str_truthy d && invalid_date parseDate d
          | None => false
          end then
    Throws (Error "Invalid due date")
  else Returns tt.

Definition validate (title : string) (description dueDate : option string)
  : M unit :=
  let! env := gets World.env in
  lift (validateTodo (Env.parseDate env) title description dueDate).

Definition not_found (id : string) : Exn :=
  Error ("Todo with id " ++ id ++ " not found").

Definition createTodo (todoData : TodoData.t) : M Todo.t :=
  try_catch
    (do! validate (TodoData.title todoData) (TodoData.description todoData)
                  (TodoData.dueDate todoData) in
     let! v := getTodos in
     let! id := generateId in
     let! createdAt := now in
     let! updatedAt := now in
     let newTodo :=
       Todo.mk id
         (TodoData.title todoData) (TodoData.description todoData)
         (TodoData.status todoData) (TodoData.priority todoData)
         (TodoData.dueDate todoData)
         createdAt updatedAt
         (TodoData.projectId todoData) (TodoData.images todoData)
         (TodoData.tags todoData) (TodoData.subtasks todoData)
         (TodoData.progress todoData) (TodoData.startDate todoData)
         (TodoData.completedAt todoData) (TodoData.category todoData)
         (TodoData.dependsOn todoData) in
     let! todos := lift (as_todos v) in
     do! StorageService.write "todos" (VTodos (todos ++ [newTodo])%list) in
     ret newTodo)
    (fun error => throw error).

(** [{ ...todo, ...todoData, updatedAt }] *)
Definition apply_patch (todo : Todo.t) (todoData : TodoPatch.t)
    (updatedAt : string) : Todo.t :=
  Todo.mk (Todo.id todo)
    (patched (TodoPatch.title todoData) (Todo.title todo))
    (patched (TodoPatch.description todoData) (Todo.description todo))
    (patched (TodoPatch.status todoData) (Todo.status todo))
    (patched (TodoPatch.priority todoData) (Todo.priority todo))
    (patched (TodoPatch.dueDate todoData) (Todo.dueDate todo))
    (Todo.createdAt todo)
    updatedAt
    (patched (TodoPatch.projectId todoData) (Todo.projectId todo))
    (patched (TodoPatch.images todoData) (Todo.images todo))
    (patched (TodoPatch.tags todoData) (Todo.tags todo))
    (patched (TodoPatch.subtasks todoData) (Todo.subtasks todo))
    (patched (TodoPatch.progress todoData) (Todo.progress todo))
    (patched (TodoPatch.startDate todoData) (Todo.startDate todo))
    (patched (TodoPatch.completedAt todoData) (Todo.completedAt todo))
    (patched (TodoPatch.category todoData) (Todo.category todo))
    (patched (TodoPatch.dependsOn todoData) (Todo.dependsOn todo)).

Definition updateTodo (id : string) (todoData : TodoPatch.t) : M Todo.t :=
  try_catch
    (let! v := getTodos in
     let! todos := lift (as_todos v) in
     match findIndex (fun todo => String.eqb (Todo.id todo) id) todos with
     | None => throw (not_found id)
     | Some index =>
         match todos !! index with
         | None => throw not_an_array
         | Some current =>
             let! updatedAt := now in
             let updatedTodo := apply_patch current todoData updatedAt in
             do! validate (Todo.title updatedTodo) (Todo.description updatedTodo)
                          (Todo.dueDate updatedTodo) in
             do! StorageService.write "todos"
                   (VTodos (<[index := updatedTodo]> todos)) in
             ret updatedTodo
         end
     end)
    (fun error => throw error).

Definition deleteTodo (id : string) : M bool :=
  try_catch
    (let! v := getTodos in
     let! todos := lift (as_todos v) in
     let filteredTodos :=
       List.filter (fun todo => negb (String.eqb (Todo.id todo) id)) todos in
     if (length filteredTodos =? length todos)%nat then throw (not_found id)
     else
       do! StorageService.write "todos" (VTodos filteredTodos) in
       ret true)
    (fun error => throw error).

(** The patch [{ status }]. *)
Definition status_patch (status : TodoStatus) : TodoPatch.t :=
  TodoPatch.mk None None (Some status) None None None None None None None
    None None None None None.

Definition updateTodoStatus (id : string) (status : TodoStatus) : M Todo.t :=
  updateTodo id (status_patch status).

Definition getTodosByProject (projectId : string) : M (list Todo.t) :=
  try_catch
    (let! v := getTodos in
     let! todos := lift (as_todos v) in
     ret (List.filter
            (fun todo =>
               match Todo.projectId todo with
               | Some p => String.eqb p projectId
               | None => false
               end) todos))
    (fun _ => ret []).

Definition getTodosByStatus (status : TodoStatus) : M (list Todo.t) :=
  try_catch
    (let! v := getTodos in
     let! todos := lift (as_todos v) in
     ret (List.filter (fun todo => TodoStatus_eqb (Todo.status todo) status) todos))
    (fun _ => ret []).


(** [dueDate < now] on two [Date] objects: the time values are compared,
    and an invalid date compares [false]. *)
Definition date_before (parseDate : string -> option Z) (a b : string) : bool :=
  match parseDate a, parseDate b with
  | Some x, Some y => x <? y
  | _, _ => false
  end.

(** The callback of the filter of [getOverdueTodos]; [now] is the reading
    of the clock, by its ISO string, and its time value is what [Date]
    parsing gives for that string. *)
Definition overdue (parseDate : string -> option Z) (now : string)
    (todo : Todo.t) : bool :=
  if negb (opt_truthy (Todo.dueDate todo))
     || TodoStatus_eqb (Todo.status todo) Completed
  then false
  else
    match Todo.dueDate todo with
    | Some dueDate => date_before parseDate dueDate now
    | None => false
    end.

Definition getOverdueTodos : M (list Todo.t) :=
  try_catch
    (let! v := getTodos in
     let! now := now in
     let! env := gets World.env in
     let! todos := lift (as_todos v) in
     ret (List.filter (overdue (Env.parseDate env) now) todos))
    (fun _ => ret []).

End TodoService.

(* ===================================================================== *)
(** * ProjectService (projectService.ts) *)
(* ===================================================================== *)

Module ProjectService.

Definition getProjects : M Value :=
  try_catch (StorageService.read "projects") (fun _ => ret (VProjects [])).

Definition getProjectById (id : string) : M (option Project.t) :=
  try_catch
    (let! v := getProjects in
     let! projects := lift (as_projects v) in
     ret (List.find (fun project => String.eqb (Project.id project) id) projects))
    (fun _ => ret None).

(** [startDate > dueDate] on two [Date] objects. *)
Definition starts_after_due (parseDate : string -> option Z) (s d : string) : bool :=
  match parseDate s, parseDate d with
  | Some a, Some b => b <? a
  | _, _ => false
  end.

(** [validateProject]; the status check holds by the type of the field. *)
Definition validateProject (parseDate : string -> option Z) (project : Project.t)
  : Outcome unit :=
  let name := Project.name project in
  if negb (str_truthy name) || is_blank name then
    Throws (Error "Project name is required")
  else if longer_than 100 name then
    Throws (Error "Project name must be 100 characters or less")
  else if match Project.description project with
          | Some d => str_truthy d && longer_than 500 d
          | None => false
          end then
    Throws (Error "Project description must be 500 characters or less")
  else if match Project.dueDate project with
          | Some d => str_truthy d && invalid_date parseDate d
          | None => false
          end then
    Throws (Error "Invalid due date")
  else if match Project.startDate project with
          | Some s => str_truthy s && invalid_date parseDate s
          | None => false
          end then
    Throws (Error "Invalid start date")
  else if match Project.startDate project, Project.dueDate project with
          | Some s, Some d =>
              str_truthy s && str_truthy d && starts_after_due parseDate s d
          | _, _ => false
          end then
    Throws (Error "Start date must be before due date")
  else Returns tt.

Definition validate (project : Project.t) : M unit :=
  let! env := gets World.env in
  lift (validateProject (Env.parseDate env) project).

Definition not_found (id : string) : Exn :=
  Error ("Project with id " ++ id ++ " not found").

(** [{ ...project, ...projectData, id, createdAt: project.createdAt,
    updatedAt }] *)
Definition apply_patch (project : Project.t) (projectData : ProjectPatch.t)
    (id updatedAt : string) : Project.t :=
  Project.mk id
    (patched (ProjectPatch.name projectData) (Project.name project))
    (patched (ProjectPatch.description projectData) (Project.description project))
    (patched (ProjectPatch.status projectData) (Project.status project))
    (Project.createdAt project)
    updatedAt
    (patched (ProjectPatch.startDate projectData) (Project.startDate project))
    (patched (ProjectPatch.dueDate projectData) (Project.dueDate project))
    (patched (ProjectPatch.completedAt projectData) (Project.completedAt project))
    (patched (ProjectPatch.color projectData) (Project.color project))
    (patched (ProjectPatch.progress projectData) (Project.progress project))
    (patched (ProjectPatch.todoIds projectData) (Project.todoIds project))
    (patched (ProjectPatch.milestones projectData) (Project.milestones project))
    (patched (ProjectPatch.resources projectData) (Project.resources project))
    (patched (ProjectPatch.tags projectData) (Project.tags project))
    (patched (ProjectPatch.owner projectData) (Project.owner project))
    (patched (ProjectPatch.risks projectData) (Project.risks project))
    (patched (ProjectPatch.velocity projectData) (Project.velocity project))
    (patched (ProjectPatch.timeSpent projectData) (Project.timeSpent project)).

Definition updateProject (id : string) (projectData : ProjectPatch.t)
  : M Project.t :=
  try_catch
    (let! v := getProjects in
     let! projects := lift (as_projects v) in
     match findIndex (fun project => String.eqb (Project.id project) id) projects with
     | None => throw (not_found id)
     | Some index =>
         match projects !! index with
         | None => throw not_an_array
         | Some current =>
             let! updatedAt := now in
             let updatedProject := apply_patch current projectData id updatedAt in
             do! validate updatedProject in
             do! StorageService.write "projects"
                   (VProjects (<[index := updatedProject]> projects)) in
             ret updatedProject
         end
     end)
    (fun error => throw error).

Definition deleteProject (id : string) : M bool :=
  try_catch
    (let! v := getProjects in
     let! projects := lift (as_projects v) in
     let filteredProjects :=
       List.filter (fun project => negb (String.eqb (Project.id project) id))
         projects in
     if (length filteredProjects =? length projects)%nat then throw (not_found id)
     else
       do! StorageService.write "projects" (VProjects filteredProjects) in
       ret true)
    (fun error => throw error).

(** The patches [{ projectId }] and [{ projectId: undefined }]. *)
Definition link_patch (projectId : option string) : TodoPatch.t :=
  TodoPatch.mk None None None None None None (Some projectId) None None None
    None None None None None.

(** [Math.round((completedTodos / project.todoIds.length) * 100)] *)
Definition percentage (completedTodos total : nat) : number :=
  Math_round (num_mul (num_div (num_of_nat completedTodos) (num_of_nat total))
                      (num_of_Z 100)).

Definition count_completed (todos : list Todo.t) : nat :=
  length (List.filter (fun todo => TodoStatus_eqb (Todo.status todo) Completed) todos).

Definition updateProjectProgress (projectId : string) : M number :=
  try_catch
    (let! found := getProjectById projectId in
     match found with
     | None => throw (not_found projectId)
     | Some project =>
         if (length (Project.todoIds project) =? 0)%nat then
           do! updateProject projectId (ProjectPatch.of_progress (num_of_Z 0)) in
           ret (num_of_Z 0)
         else
           let! projectTodos := TodoService.getTodosByProject projectId in
           let completedTodos := count_completed projectTodos in
           let progress :=
             percentage completedTodos (length (Project.todoIds project)) in
           do! updateProject projectId (ProjectPatch.of_progress progress) in
           ret progress
     end)
    (fun error => throw error).

Definition addTodoToProject (projectId todoId : string) : M Project.t :=
  try_catch
    (let! found := getProjectById projectId in
     match found with
     | None => throw (not_found projectId)
     | Some project =>
         let! todo := TodoService.getTodoById todoId in
         match todo with
         | None => throw (TodoService.not_found todoId)
         | Some _ =>
             if includes (Project.todoIds project) todoId then ret project
             else
               let updatedTodoIds := (Project.todoIds project ++ [todoId])%list in
               do! TodoService.updateTodo todoId (link_patch (Some projectId)) in
               do! updateProjectProgress projectId in
               updateProject projectId (ProjectPatch.of_todoIds updatedTodoIds)
         end
     end)
    (fun error => throw error).

Definition removeTodoFromProject (projectId todoId : string) : M Project.t :=
  try_catch
    (let! found := getProjectById projectId in
     match found with
     | None => throw (not_found projectId)
     | Some project =>
         if negb (includes (Project.todoIds project) todoId) then ret project
         else
           let updatedTodoIds :=
             List.filter (fun id => negb (String.eqb id todoId))
               (Project.todoIds project) in
           let! todo := TodoService.getTodoById todoId in
           do! match todo with
               | Some t =>
                   match Todo.projectId t with
                   | Some p =>
                       if String.eqb p projectId then
                         do! TodoService.updateTodo todoId (link_patch None) in
                         ret tt
                       else ret tt
                   | None => ret tt
                   end
               | None => ret tt
               end in
           do! updateProjectProgress projectId in
           updateProject projectId (ProjectPatch.of_todoIds updatedTodoIds)
     end)
    (fun error => throw error).

Definition getProjectTodos (projectId : string) : M (list Todo.t) :=
  try_catch (TodoService.getTodosByProject projectId) (fun _ => ret []).


(** ** Creating a project *)

(** [if (x) newProject.f = x]: the key is set for a truthy value only. *)
Definition when_truthy (x : option string) : option string :=
  match x with
  | Some s => if str_truthy s then Some s else None
  | None => None
  end.

(** The milestone that [createProject] builds from an element of
    [initialMilestones]. *)
Definition initial_milestone (now id : string) (milestoneData : InitialMilestone.t)
  : Milestone.t :=
  Milestone.mk id
    (InitialMilestone.title milestoneData)
    (Some (str_or (InitialMilestone.description milestoneData) ""))
    (str_or (InitialMilestone.dueDate milestoneData) "")
    false None [] now now.

(** [initialMilestones.forEach(...)]: one [generateId()] for each element,
    in order. *)
Fixpoint initial_milestones (now : string) (l : list InitialMilestone.t)
  : M (list Milestone.t) :=
  match l with
  | [] => ret []
  | milestoneData :: r =>
      let! id := generateId in
      let! rest := initial_milestones now r in
      ret (initial_milestone now id milestoneData :: rest)
  end.

(** [newProject] before the milestones are pushed.  Only the keys that
    the source copies are taken from [data]. *)
Definition new_project (now id : string) (data : ProjectData.t) : Project.t :=
  Project.mk id
    (ProjectData.name data)
    (Some (str_or (ProjectData.description data) ""))
    (default Planning (ProjectData.status data))
    now now
    (Some (str_or (ProjectData.startDate data) now))
    (when_truthy (ProjectData.dueDate data))
    None
    (Some (str_or (ProjectData.color data) "#3b82f6"))
    (num_of_Z 0)
    []
    []
    None
    (ProjectData.tags data)
    (when_truthy (ProjectData.owner data))
    None None None.

(** [newProject.milestones.push(milestone)], for all of them. *)
Definition with_milestones (project : Project.t) (l : list Milestone.t)
  : Project.t :=
  Project.mk (Project.id project) (Project.name project)
    (Project.description project) (Project.status project)
    (Project.createdAt project) (Project.updatedAt project)
    (Project.startDate project) (Project.dueDate project)
    (Project.completedAt project) (Project.color project)
    (Project.progress project) (Project.todoIds project)
    (Project.milestones project ++ l)%list
    (Project.resources project) (Project.tags project) (Project.owner project)
    (Project.risks project) (Project.velocity project) (Project.timeSpent project).

Definition createProject (projectData : ProjectData.t) : M Project.t :=
  try_catch
    (let! now := now in
     let! id := generateId in
     let newProject := new_project now id projectData in
     do! validate newProject in
     let! milestones :=
       match ProjectData.initialMilestones projectData with
       | Some initialMilestones => initial_milestones now initialMilestones
       | None => ret []
       end in
     let newProject := with_milestones newProject milestones in
     let! v := getProjects in
     let! projects := lift (as_projects v) in
     do! StorageService.write "projects" (VProjects (projects ++ [newProject])%list) in
     (* the check that the project was saved only logs; its [find] needs
        an array *)
     let! updatedProjects := getProjects in
     do! lift (as_projects updatedProjects) in
     ret newProject)
    (fun error => throw error).

(** ** Milestones, resources and risks *)

Definition milestone_not_found (milestoneId : string) : Exn :=
  Error ("Milestone with id " ++ milestoneId ++ " not found").

Definition addMilestone (projectId : string) (milestoneData : MilestoneData.t)
  : M Project.t :=
  try_catch
    (let! found := getProjectById projectId in
     match found with
     | None => throw (not_found projectId)
     | Some project =>
         let! id := generateId in
         let! createdAt := now in
         let! updatedAt := now in
         let newMilestone :=
           Milestone.mk id
             (MilestoneData.title milestoneData)
             (MilestoneData.description milestoneData)
             (MilestoneData.dueDate milestoneData)
             (MilestoneData.completed milestoneData)
             (MilestoneData.completedAt milestoneData)
             (MilestoneData.todoIds milestoneData)
             createdAt updatedAt in
         let updatedMilestones := (Project.milestones project ++ [newMilestone])%list in
         updateProject projectId (ProjectPatch.of_milestones updatedMilestones)
     end)
    (fun error => throw error).

(** [{ ...milestone, ...milestoneData, updatedAt }] *)
Definition patch_milestone (milestone : Milestone.t)
    (milestoneData : MilestonePatch.t) (updatedAt : string) : Milestone.t :=
  Milestone.mk (Milestone.id milestone)
    (patched (MilestonePatch.title milestoneData) (Milestone.title milestone))
    (patched (MilestonePatch.description milestoneData) (Milestone.description milestone))
    (patched (MilestonePatch.dueDate milestoneData) (Milestone.dueDate milestone))
    (patched (MilestonePatch.completed milestoneData) (Milestone.completed milestone))
    (patched (MilestonePatch.completedAt milestoneData) (Milestone.completedAt milestone))
    (patched (MilestonePatch.todoIds milestoneData) (Milestone.todoIds milestone))
    (Milestone.createdAt milestone)
    updatedAt.

Definition updateMilestone (projectId milestoneId : string)
    (milestoneData : MilestonePatch.t) : M Project.t :=
  try_catch
    (let! found := getProjectById projectId in
     match found with
     | None => throw (not_found projectId)
     | Some project =>
         match findIndex (fun m => String.eqb (Milestone.id m) milestoneId)
                 (Project.milestones project) with
         | None => throw (milestone_not_found milestoneId)
         | Some milestoneIndex =>
             match Project.milestones project !! milestoneIndex with
             | None => throw not_an_array
             | Some current =>
                 let! updatedAt := now in
                 let updatedMilestone := patch_milestone current milestoneData updatedAt in
                 let updatedMilestones :=
                   <[milestoneIndex := updatedMilestone]> (Project.milestones project) in
                 updateProject projectId (ProjectPatch.of_milestones updatedMilestones)
             end
         end
     end)
    (fun error => throw error).

Definition deleteMilestone (projectId milestoneId : string) : M Project.t :=
  try_catch
    (let! found := getProjectById projectId in
     match found with
     | None => throw (not_found projectId)
     | Some project =>
         let updatedMilestones :=
           List.filter (fun m => negb (String.eqb (Milestone.id m) milestoneId))
             (Project.milestones project) in
         if (length updatedMilestones =? length (Project.milestones project))%nat then
           throw (milestone_not_found milestoneId)
         else updateProject projectId (ProjectPatch.of_milestones updatedMilestones)
     end)
    (fun error => throw error).

Definition addProjectResource (projectId : string) (resourceData : ResourceData.t)
  : M Project.t :=
  try_catch
    (let! found := getProjectById projectId in
     match found with
     | None => throw (not_found projectId)
     | Some project =>
         let! id := generateId in
         let! createdAt := now in
         let! updatedAt := now in
         let newResource :=
           ProjectResource.mk id
             (ResourceData.name resourceData) (ResourceData.type resourceData)
             (ResourceData.url resourceData) createdAt updatedAt in
         let resources := default [] (Project.resources project) in
         let updatedResources := (resources ++ [newResource])%list in
         updateProject projectId (ProjectPatch.of_resources updatedResources)
     end)
    (fun error => throw error).

Definition no_resources (projectId : string) : Exn :=
  Error ("Project with id " ++ projectId ++ " not found or has no resources").

Definition resource_not_found (resourceId : string) : Exn :=
  Error ("Resource with id " ++ resourceId ++ " not found").

Definition deleteProjectResource (projectId resourceId : string) : M Project.t :=
  try_catch
    (let! found := getProjectById projectId in
     match found with
     | None => throw (no_resources projectId)
     | Some project =>
         match Project.resources project with
         | None => throw (no_resources projectId)
         | Some resources =>
             let updatedResources :=
               List.filter (fun r => negb (String.eqb (ProjectResource.id r) resourceId))
                 resources in
             if (length updatedResources =? length resources)%nat then
               throw (resource_not_found resourceId)
             else updateProject projectId (ProjectPatch.of_resources updatedResources)
         end
     end)
    (fun error => throw error).

Definition addProjectRisk (projectId : string) (riskData : RiskData.t)
  : M Project.t :=
  try_catch
    (let! found := getProjectById projectId in
     match found with
     | None => throw (not_found projectId)
     | Some project =>
         let! id := generateId in
         let! createdAt := now in
         let! updatedAt := now in
         let newRisk :=
           ProjectRisk.mk id
             (RiskData.title riskData) (RiskData.description riskData)
             (RiskData.impact riskData) (RiskData.probability riskData)
             (RiskData.status riskData) createdAt updatedAt in
         let risks := default [] (Project.risks project) in
         let updatedRisks := (risks ++ [newRisk])%list in
         updateProject projectId (ProjectPatch.of_risks updatedRisks)
     end)
    (fun error => throw error).

Definition no_risks (projectId : string) : Exn :=
  Error ("Project with id " ++ projectId ++ " not found or has no risks").

Definition risk_not_found (riskId : string) : Exn :=
  Error ("Risk with id " ++ riskId ++ " not found").

(** [{ ...risk, ...riskData, updatedAt }] *)
Definition patch_risk (risk : ProjectRisk.t) (riskData : RiskPatch.t)
    (updatedAt : string) : ProjectRisk.t :=
  ProjectRisk.mk (ProjectRisk.id risk)
    (patched (RiskPatch.title riskData) (ProjectRisk.title risk))
    (patched (RiskPatch.description riskData) (ProjectRisk.description risk))
    (patched (RiskPatch.impact riskData) (ProjectRisk.impact risk))
    (patched (RiskPatch.probability riskData) (ProjectRisk.probability risk))
    (patched (RiskPatch.status riskData) (ProjectRisk.status risk))
    (ProjectRisk.createdAt risk)
    updatedAt.

Definition updateProjectRisk (projectId riskId : string) (riskData : RiskPatch.t)
  : M Project.t :=
  try_catch
    (let! found := getProjectById projectId in
     match found with
     | None => throw (no_risks projectId)
     | Some project =>
         match Project.risks project with
         | None => throw (no_risks projectId)
         | Some risks =>
             match findIndex (fun r => String.eqb (ProjectRisk.id r) riskId) risks with
             | None => throw (risk_not_found riskId)
             | Some riskIndex =>
                 match risks !! riskIndex with
                 | None => throw not_an_array
                 | Some current =>
                     let! updatedAt := now in
                     let updatedRisk := patch_risk current riskData updatedAt in
                     let updatedRisks := <[riskIndex := updatedRisk]> risks in
                     updateProject projectId (ProjectPatch.of_risks updatedRisks)
                 end
             end
         end
     end)
    (fun error => throw error).

End ProjectService.

(* ===================================================================== *)
(** * NotesService (src/services/notes/notesService.ts) *)
(* ===================================================================== *)

Module NotesService.

Definition getNotes : M Value :=
  try_catch (StorageService.read "notes")
    (fun _ => throw (Error "Failed to retrieve notes")).

Definition versions_entity (noteId : string) : string :=
  "note_versions_" ++ noteId.

(** [read(...).catch(() => [])]: the handler runs only if [read] rejects. *)
Definition getNoteVersions (noteId : string) : M Value :=
  try_catch
    (try_catch (StorageService.read (versions_entity noteId))
       (fun _ => ret (VNoteVersions [])))
    (fun _ => throw (Error "Failed to retrieve note versions")).

(** [version: Omit<NoteVersion, "id">] is given by its fields. *)
Definition createNoteVersion (noteId content timestamp : string)
    (author : option string) : M NoteVersion.t :=
  try_catch
    (let! versions := getNoteVersions noteId in
     let! id := uuidv4 in
     let newVersion := NoteVersion.mk id noteId content timestamp author in
     (* [[...versions, newVersion]] *)
     let! spread := lift (as_versions versions) in
     do! StorageService.write (versions_entity noteId)
           (VNoteVersions (spread ++ [newVersion])%list) in
     ret newVersion)
    (fun _ => throw (Error "Failed to create note version")).

Definition deleteAllNoteVersions (noteId : string) : M unit :=
  try_catch
    (StorageService.write (versions_entity noteId) (VNoteVersions []))
    (fun _ => throw (Error "Failed to delete note versions")).

Definition createNote (note : NoteData.t) : M Note.t :=
  try_catch
    (let! v := getNotes in
     let! timestamp := now in
     let! id := uuidv4 in
     let newNote :=
       Note.mk id (NoteData.title note) (NoteData.content note)
         timestamp timestamp
         (NoteData.images note) (NoteData.projectId note) (NoteData.todoId note)
         (NoteData.tags note) (NoteData.folder note) (NoteData.isFavorite note)
         timestamp
         (default Markdown (NoteData.contentType note))
         (NoteData.relatedNotes note) (NoteData.relatedTodos note)
         (Some (num_of_Z 1))
         (NoteData.collaborators note) (NoteData.color note) in
     let! notes := lift (as_notes v) in
     do! StorageService.write "notes" (VNotes (notes ++ [newNote])%list) in
     ret newNote)
    (fun _ => throw (Error "Failed to create note")).

(** [note.version || 1] *)
Definition currentVersion (note : Note.t) : number :=
  match Note.version note with
  | Some v => if num_truthy v then v else num_of_Z 1
  | None => num_of_Z 1
  end.

(** [{ ...current, ...note, updatedAt: timestamp, lastEditedAt: timestamp,
    version }] *)
Definition apply_patch (current : Note.t) (note : NotePatch.t)
    (timestamp : string) (version : number) : Note.t :=
  Note.mk (Note.id current)
    (patched (NotePatch.title note) (Note.title current))
    (patched (NotePatch.content note) (Note.content current))
    (Note.createdAt current)
    timestamp
    (patched (NotePatch.images note) (Note.images current))
    (patched (NotePatch.projectId note) (Note.projectId current))
    (patched (NotePatch.todoId note) (Note.todoId current))
    (patched (NotePatch.tags note) (Note.tags current))
    (patched (NotePatch.folder note) (Note.folder current))
    (patched (NotePatch.isFavorite note) (Note.isFavorite current))
    timestamp
    (patched (NotePatch.contentType note) (Note.contentType current))
    (patched (NotePatch.relatedNotes note) (Note.relatedNotes current))
    (patched (NotePatch.relatedTodos note) (Note.relatedTodos current))
    (Some version)
    (patched (NotePatch.collaborators note) (Note.collaborators current))
    (patched (NotePatch.color note) (Note.color current)).

(** [current.lastEditedAt || current.updatedAt] *)
Definition snapshot_timestamp (current : Note.t) : string :=
  if str_truthy (Note.lastEditedAt current) then Note.lastEditedAt current
  else Note.updatedAt current.

Definition updateNote (id : string) (note : NotePatch.t) : M Note.t :=
  try_catch
    (let! v := getNotes in
     let! notes := lift (as_notes v) in
     match findIndex (fun n => String.eqb (Note.id n) id) notes with
     | None => throw (Error ("Note with id " ++ id ++ " not found"))
     | Some noteIndex =>
         match notes !! noteIndex with
         | None => throw not_an_array
         | Some current =>
             let! timestamp := now in
             let updatedNote :=
               apply_patch current note timestamp
                 (num_add (currentVersion current) (num_of_Z 1)) in
             do! createNoteVersion id (Note.content current)
                   (snapshot_timestamp current) None in
             do! StorageService.write "notes"
                   (VNotes (<[noteIndex := updatedNote]> notes)) in
             ret updatedNote
         end
     end)
    (fun _ => throw (Error "Failed to update note")).

Definition deleteNote (id : string) : M unit :=
  try_catch
    (let! v := getNotes in
     let! notes := lift (as_notes v) in
     let filteredNotes :=
       List.filter (fun note => negb (String.eqb (Note.id note) id)) notes in
     if (length notes =? length filteredNotes)%nat then
       throw (Error ("Note with id " ++ id ++ " not found"))
     else
       do! deleteAllNoteVersions id in
       StorageService.write "notes" (VNotes filteredNotes))
    (fun _ => throw (Error "Failed to delete note")).


(** ** Queries *)

(** [note.tags?.includes(tag)] *)
Definition has_tag (tag : string) (note : Note.t) : bool :=
  match Note.tags note with
  | Some tags => includes tags tag
  | None => false
  end.

Definition getNotesByTag (tag : string) : M (list Note.t) :=
  try_catch
    (let! v := getNotes in
     let! notes := lift (as_notes v) in
     ret (List.filter (has_tag tag) notes))
    (fun _ => throw (Error "Failed to retrieve notes by tag")).

(** The callback of the filter of [searchNotes]. *)
Definition matches (lowerCaseQuery : string) (note : Note.t) : bool :=
  str_includes (toLowerCase (Note.title note)) lowerCaseQuery
  || str_includes (toLowerCase (Note.content note)) lowerCaseQuery
  || match Note.tags note with
     | Some tags =>
         existsb (fun tag => str_includes (toLowerCase tag) lowerCaseQuery) tags
     | None => false
     end.

Definition searchNotes (query : string) : M (list Note.t) :=
  try_catch
    (let! v := getNotes in
     let lowerCaseQuery := toLowerCase query in
     let! notes := lift (as_notes v) in
     ret (List.filter (matches lowerCaseQuery) notes))
    (fun _ => throw (Error "Failed to search notes")).

(** ** Updates of one field

    Each of them rewrites the note in place with a new [updatedAt]; none
    of them touches [version], [lastEditedAt] or the version history. *)

Definition note_not_found (noteId : string) : Exn :=
  Error ("Note with id " ++ noteId ++ " not found").

(** [{ ...note, tags, updatedAt }] and its like for the other keys. *)
Definition with_tags (note : Note.t) (tags : list string)
    (updatedAt : string) : Note.t :=
  Note.mk (Note.id note) (Note.title note) (Note.content note)
    (Note.createdAt note) updatedAt (Note.images note)
    (Note.projectId note) (Note.todoId note) (Some tags) (Note.folder note)
    (Note.isFavorite note) (Note.lastEditedAt note) (Note.contentType note)
    (Note.relatedNotes note) (Note.relatedTodos note) (Note.version note)
    (Note.collaborators note) (Note.color note).

Definition with_relatedNotes (note : Note.t) (relatedNotes : list string)
    (updatedAt : string) : Note.t :=
  Note.mk (Note.id note) (Note.title note) (Note.content note)
    (Note.createdAt note) updatedAt (Note.images note)
    (Note.projectId note) (Note.todoId note) (Note.tags note) (Note.folder note)
    (Note.isFavorite note) (Note.lastEditedAt note) (Note.contentType note)
    (Some relatedNotes) (Note.relatedTodos note) (Note.version note)
    (Note.collaborators note) (Note.color note).

Definition with_isFavorite (note : Note.t) (isFavorite : bool)
    (updatedAt : string) : Note.t :=
  Note.mk (Note.id note) (Note.title note) (Note.content note)
    (Note.createdAt note) updatedAt (Note.images note)
    (Note.projectId note) (Note.todoId note) (Note.tags note) (Note.folder note)
    (Some isFavorite) (Note.lastEditedAt note) (Note.contentType note)
    (Note.relatedNotes note) (Note.relatedTodos note) (Note.version note)
    (Note.collaborators note) (Note.color note).

Definition addTagToNote (noteId tag : string) : M Note.t :=
  try_catch
    (let! v := getNotes in
     let! notes := lift (as_notes v) in
     match findIndex (fun n => String.eqb (Note.id n) noteId) notes with
     | None => throw (note_not_found noteId)
     | Some noteIndex =>
         match notes !! noteIndex with
         | None => throw not_an_array
         | Some current =>
             let currentTags := default [] (Note.tags current) in
             if includes currentTags tag then ret current
             else
               let! updatedAt := now in
               let updatedNote :=
                 with_tags current (currentTags ++ [tag])%list updatedAt in
               do! StorageService.write "notes"
                     (VNotes (<[noteIndex := updatedNote]> notes)) in
               ret updatedNote
         end
     end)
    (fun _ => throw (Error "Failed to add tag to note")).

Definition removeTagFromNote (noteId tag : string) : M Note.t :=
  try_catch
    (let! v := getNotes in
     let! notes := lift (as_notes v) in
     match findIndex (fun n => String.eqb (Note.id n) noteId) notes with
     | None => throw (note_not_found noteId)
     | Some noteIndex =>
         match notes !! noteIndex with
         | None => throw not_an_array
         | Some current =>
             let tags :=
               List.filter (fun t => negb (String.eqb t tag))
                 (default [] (Note.tags current)) in
             let! updatedAt := now in
             let updatedNote := with_tags current tags updatedAt in
             do! StorageService.write "notes"
                   (VNotes (<[noteIndex := updatedNote]> notes)) in
             ret updatedNote
         end
     end)
    (fun _ => throw (Error "Failed to remove tag from note")).

Definition related_not_found (relatedNoteId : string) : Exn :=
  Error ("Related note with id " ++ relatedNoteId ++ " not found").

Definition linkNotes (noteId relatedNoteId : string) : M Note.t :=
  try_catch
    (let! v := getNotes in
     let! notes := lift (as_notes v) in
     match findIndex (fun n => String.eqb (Note.id n) noteId) notes with
     | None => throw (note_not_found noteId)
     | Some noteIndex =>
         if negb (existsb (fun n => String.eqb (Note.id n) relatedNoteId) notes) then
           throw (related_not_found relatedNoteId)
         else
           match notes !! noteIndex with
           | None => throw not_an_array
           | Some current =>
               let relatedNotes := default [] (Note.relatedNotes current) in
               if includes relatedNotes relatedNoteId then ret current
               else
                 let! updatedAt := now in
                 let updatedNote :=
                   with_relatedNotes current
                     (relatedNotes ++ [relatedNoteId])%list updatedAt in
                 do! StorageService.write "notes"
                       (VNotes (<[noteIndex := updatedNote]> notes)) in
                 ret updatedNote
           end
     end)
    (fun _ => throw (Error "Failed to link notes")).

Definition unlinkNotes (noteId relatedNoteId : string) : M Note.t :=
  try_catch
    (let! v := getNotes in
     let! notes := lift (as_notes v) in
     match findIndex (fun n => String.eqb (Note.id n) noteId) notes with
     | None => throw (note_not_found noteId)
     | Some noteIndex =>
         match notes !! noteIndex with
         | None => throw not_an_array
         | Some current =>
             let relatedNotes :=
               List.filter (fun id => negb (String.eqb id relatedNoteId))
                 (default [] (Note.relatedNotes current)) in
             let! updatedAt := now in
             let updatedNote := with_relatedNotes current relatedNotes updatedAt in
             do! StorageService.write "notes"
                   (VNotes (<[noteIndex := updatedNote]> notes)) in
             ret updatedNote
         end
     end)
    (fun _ => throw (Error "Failed to unlink notes")).

(** [!note.isFavorite] *)
Definition not_favorite (note : Note.t) : bool :=
  negb (default false (Note.isFavorite note)).

Definition toggleFavorite (noteId : string) : M Note.t :=
  try_catch
    (let! v := getNotes in
     let! notes := lift (as_notes v) in
     match findIndex (fun n => String.eqb (Note.id n) noteId) notes with
     | None => throw (note_not_found noteId)
     | Some noteIndex =>
         match notes !! noteIndex with
         | None => throw not_an_array
         | Some current =>
             let! updatedAt := now in
             let updatedNote := with_isFavorite current (not_favorite current) updatedAt in
             do! StorageService.write "notes"
                   (VNotes (<[noteIndex := updatedNote]> notes)) in
             ret updatedNote
         end
     end)
    (fun _ => throw (Error "Failed to toggle favorite status")).

End NotesService.

(* ===================================================================== *)
(** * NotificationService (notificationService.ts) *)
(* ===================================================================== *)

Module NotificationService.

Definition getNotifications : M Value :=
  try_catch (StorageService.read "notifications")
    (fun _ => ret (VNotifications [])).

Definition deleteNotification (id : string) : M unit :=
  try_catch
    (let! v := getNotifications in
     let! notifications := lift (as_notifications v) in
     let filteredNotifications :=
       List.filter (fun n => negb (String.eqb (NotificationData.id n) id))
         notifications in
     if (length notifications =? length filteredNotifications)%nat then
       throw (Error ("Notification with id " ++ id ++ " not found"))
     else StorageService.write "notifications" (VNotifications filteredNotifications))
    (fun _ => throw (Error "Failed to delete notification")).

Definition getDefaultPreferences : NotificationPreference.t :=
  NotificationPreference.mk true [Browser] None None
    (Categories.mk true true true true) (Priorities.mk true true true).

(** What [new Date()] shows of the local time: [getHours()] and
    [getMinutes()]. *)
Record LocalTime : Type := mkLocalTime { getHours : Z; getMinutes : Z }.

Definition isInQuietHours (now : LocalTime)
    (preferences : NotificationPreference.t) : bool :=
  match NotificationPreference.quietHoursStart preferences,
        NotificationPreference.quietHoursEnd preferences with
  | Some quietHoursStart, Some quietHoursEnd =>
      if negb (str_truthy quietHoursStart) || negb (str_truthy quietHoursEnd)
      then false
      else
        let currentHour := num_of_Z (getHours now) in
        let currentMinute := num_of_Z (getMinutes now) in
        let startParts := split ":" quietHoursStart in
        let endParts := split ":" quietHoursEnd in
        if negb (length startParts =? 2)%nat || negb (length endParts =? 2)%nat
        then false
        else
          let startHour := parseInt (nth 0 startParts "") in
          let startMinute := parseInt (nth 1 startParts "") in
          let endHour := parseInt (nth 0 endParts "") in
          let endMinute := parseInt (nth 1 endParts "") in
          let nowMinutes := num_add (num_mul currentHour (num_of_Z 60)) currentMinute in
          let startMinutes := num_add (num_mul startHour (num_of_Z 60)) startMinute in
          let endMinutes := num_add (num_mul endHour (num_of_Z 60)) endMinute in
          if num_le startMinutes endMinutes then
            num_ge nowMinutes startMinutes && num_le nowMinutes endMinutes
          else
            num_ge nowMinutes startMinutes || num_le nowMinutes endMinutes
  | _, _ => false
  end.


(** ** Creating and reading notifications *)

(** [{ ...n, read: true }] *)
Definition as_read (n : NotificationData.t) : NotificationData.t :=
  NotificationData.mk (NotificationData.id n) (NotificationData.title n)
    (NotificationData.message n) (NotificationData.type n)
    (NotificationData.timestamp n) true
    (NotificationData.todoId n) (NotificationData.projectId n)
    (NotificationData.noteId n) (NotificationData.priority n)
    (NotificationData.actions n) (NotificationData.expiresAt n)
    (NotificationData.category n) (NotificationData.source n).

Definition notification_not_found (id : string) : Exn :=
  Error ("Notification with id " ++ id ++ " not found").

Definition markAsRead (id : string) : M NotificationData.t :=
  try_catch
    (let! v := getNotifications in
     let! notifications := lift (as_notifications v) in
     match findIndex (fun n => String.eqb (NotificationData.id n) id) notifications with
     | None => throw (notification_not_found id)
     | Some index =>
         match notifications !! index with
         | None => throw not_an_array
         | Some current =>
             let updatedNotification := as_read current in
             do! StorageService.write "notifications"
                   (VNotifications (<[index := updatedNotification]> notifications)) in
             ret updatedNotification
         end
     end)
    (fun _ => throw (Error "Failed to mark notification as read")).

Definition markAllAsRead : M unit :=
  try_catch
    (let! v := getNotifications in
     let! notifications := lift (as_notifications v) in
     let updatedNotifications := List.map as_read notifications in
     StorageService.write "notifications" (VNotifications updatedNotifications))
    (fun _ => throw (Error "Failed to mark all notifications as read")).

(** [getPreferences]: what the gateway holds, as it is; the [catch] stores
    the defaults and returns them. *)
Definition getPreferences : M Value :=
  try_catch (StorageService.read "notification_preferences")
    (fun _ =>
       let defaults := VPreferences getDefaultPreferences in
       do! StorageService.write "notification_preferences" defaults in
       ret defaults).

(** ** Browser notifications *)

Inductive NotificationPermission : Type :=
| Granted | Denied | DefaultPermission.

(** The two fields of the service object. *)
Record Service : Type := mkService {
  browserNotificationsSupported : bool;
  browserNotificationsPermission : NotificationPermission
}.

(** What [new Notification(title, { body, icon, tag })] is built from. *)
Record BrowserNotification : Type := mkBrowserNotification {
  title : string;
  body : string;
  icon : string;
  tag : string
}.

Definition areBrowserNotificationsAllowed (this : Service) : bool :=
  browserNotificationsSupported this
  && match browserNotificationsPermission this with
     | Granted => true
     | _ => false
     end.

(** [getPreferencesSync]: the preferences as [localStorage] has them
    under its fixed key, whatever the gateway is set to. *)
Definition getPreferencesSync (w : World.t) : Value :=
  if negb (World.isClient w) then VPreferences getDefaultPreferences
  else
    match World.localStorage w !! "taskflow_data_notification_preferences" with
    | None => VPreferences getDefaultPreferences
    | Some data =>
        if negb (text_truthy data) then VPreferences getDefaultPreferences
        else
          match JSON_parse data with
          | Returns v => v
          | Throws _ => VPreferences getDefaultPreferences
          end
    end.

(** [preferences.categories[category]] and [preferences.priorities[priority]] *)
Definition category_enabled (c : Categories.t) (category : NotificationCategory)
  : bool :=
  match category with
  | CatTodo => Categories.todo c
  | CatProject => Categories.project c
  | CatNote => Categories.note c
  | CatSystem => Categories.system c
  end.

Definition priority_enabled (p : Priorities.t) (priority : Priority) : bool :=
  match priority with
  | Low => Priorities.low p
  | Medium => Priorities.medium p
  | High => Priorities.high p
  end.

(** [triggerBrowserNotification]: the notification that is constructed,
    if one is.  [localNow] is what the [new Date()] of [isInQuietHours]
    shows.
    When [localStorage] holds something else than preferences, either
    [enabled] is missing and the method returns, or [priorities] is missing
    and reading it throws into the [catch]: nothing is shown. *)
Definition triggerBrowserNotification (this : Service) (localNow : LocalTime)
    (w : World.t) (notification : NotificationData.t)
  : option BrowserNotification :=
  if negb (areBrowserNotificationsAllowed this) then None
  else
    match getPreferencesSync w with
    | VPreferences preferences =>
        if negb (NotificationPreference.enabled preferences) then None
        else if match NotificationData.category notification with
                | Some category =>
                    negb (category_enabled
                            (NotificationPreference.categories preferences) category)
                | None => false
                end then None
        else if negb (priority_enabled
                        (NotificationPreference.priorities preferences)
                        (NotificationData.priority notification)) then None
        else if isInQuietHours localNow preferences then None
        else
          Some (mkBrowserNotification
                  (NotificationData.title notification)
                  (NotificationData.message notification)
                  "/favicon.ico"
                  (NotificationData.id notification))
    | _ => None
    end.

(** [createNotification]; beside the stored notification, the browser
    notification that was triggered, if one was. *)
Definition createNotification (this : Service) (localNow : LocalTime)
    (notification : NotificationInput.t)
  : M (NotificationData.t * option BrowserNotification) :=
  try_catch
    (let! v := getNotifications in
     let! id := uuidv4 in
     let! timestamp := now in
     let newNotification :=
       NotificationData.mk id
         (NotificationInput.title notification)
         (NotificationInput.message notification)
         (NotificationInput.type notification)
         timestamp false
         (NotificationInput.todoId notification)
         (NotificationInput.projectId notification)
         (NotificationInput.noteId notification)
         (NotificationInput.priority notification)
         (NotificationInput.actions notification)
         (NotificationInput.expiresAt notification)
         (NotificationInput.category notification)
         (NotificationInput.source notification) in
     let! notifications := lift (as_notifications v) in
     do! StorageService.write "notifications"
           (VNotifications (notifications ++ [newNotification])%list) in
     let! shown :=
       gets (fun w => triggerBrowserNotification this localNow w newNotification) in
     ret (newNotification, shown))
    (fun _ => throw (Error "Failed to create notification")).

End NotificationService.

(* ===================================================================== *)
(** * Vocabulary of the statements *)
(* ===================================================================== *)

(** What the gateway answers for an entity in a state: the persisted
    value as the services see it. *)
Definition stored (entity : string) (w : World.t) : Outcome Value :=
  fst (StorageService.read entity w).

(** The route handler accepts the entity name. *)
Definition safe_name (entity : string) : bool :=
  String.eqb (Route.sanitize entity) entity.

(** The server branch of [write] did not succeed: the request was
    rejected, or the reply is not [ok]. *)
Definition server_write_failed (resp : Outcome Response.t) : Prop :=
  match resp with
  | Returns response => Response.ok response = false
  | Throws _ => True
  end.

(** Two states that differ at most in what no service reads back: the
    counters of the clock and of the identifier generators, the toasts and
    the count of detached metadata updates. *)
Definition same_storage (w w' : World.t) : Prop :=
  World.isClient w' = World.isClient w
  /\ World.config w' = World.config w
  /\ World.online w' = World.online w
  /\ World.files w' = World.files w
  /\ World.localStorage w' = World.localStorage w
  /\ World.env w' = World.env w.

(** Where the gateway takes an entity in a state: to the server (client
    side, server storage on, server reachable, name accepted), to
    localStorage (server storage off, or the server branch failed and
    fallback is on), or nowhere. *)
Inductive Backend : Type := ToServer | ToLocal | NoBackend.

Definition backend (w : World.t) (entity : string) : Backend :=
  if negb (World.isClient w) then NoBackend
  else if StorageConfig.useServerStorage (World.config w) then
    if World.online w && safe_name entity then ToServer
    else if StorageConfig.fallbackToLocalStorage (World.config w) then ToLocal
    else NoBackend
  else ToLocal.

(** What a read of localStorage gives for an entity on the client. *)
Definition local_value (w : World.t) (entity : string) : Value :=
  match World.localStorage w !! ("taskflow_data_" ++ entity) with
  | Some (JsonText v) => v
  | _ => StorageService.getEmptyDataByEntityType entity
  end.

Definition server_value (w : World.t) (entity : string) : Value :=
  default (StorageService.getEmptyDataByEntityType entity) (World.files w !! entity).

(** The toast of a failed server branch, if there is a server branch. *)
Definition warned (w : World.t) : World.t :=
  if StorageConfig.useServerStorage (World.config w)
  then World.add_toast StorageService.storage_warning w else w.

Definition started (entity : string) (w : World.t) : World.t :=
  if negb (String.eqb entity "metadata") then StorageService.start_updateMetadata w
  else w.

(** A not-found error: the message that the services build for a missing
    id. *)
Definition not_found_error (kind id : string) : Exn :=
  Error (kind ++ " with id " ++ id ++ " not found").

(** ** Sample states *)

(** Three decimal digits, for the milliseconds of a timestamp. *)
Definition three_digits (n : nat) : string :=
  String (ascii_of_nat (48 + n / 100 mod 10))
    (String (ascii_of_nat (48 + n / 10 mod 10))
       (String (ascii_of_nat (48 + n mod 10)) "")).

(** A clock that advances by one millisecond between two readings. *)
Definition sample_env : Env.t :=
  Env.mk (fun n => "2025-01-01T00:00:00." ++ three_digits n ++ "Z")
         (fun n => "id-" ++ pretty n)
         (fun n => "uuid-" ++ pretty n)
         (fun s => if str_truthy s then Some 0 else None).

Definition default_config : StorageConfig.t :=
  StorageConfig.mk true "/api/storage" true.

(** The client with the default configuration, the server reachable and
    holding the given files, and an empty localStorage. *)
Definition client (files : gmap string Value) : World.t :=
  World.mk true default_config true files ∅ [] 0 0 0 0 sample_env.

Definition sample_todo (id : string) (status : TodoStatus)
    (projectId : option string) : Todo.t :=
  Todo.mk id "Write the report" None status Medium None
    "2024-12-01T09:00:00.000Z" "2024-12-01T09:00:00.000Z" projectId
    None None None None None None None None.

Definition sample_project (id : string) (todoIds : list string)
    (progress : number) : Project.t :=
  Project.mk id "Launch" None Active
    "2024-12-01T09:00:00.000Z" "2024-12-01T09:00:00.000Z"
    None None None None progress todoIds [] None None None None None None.

Definition sample_note (id content : string) : Note.t :=
  Note.mk id "Minutes" content
    "2024-12-01T09:00:00.000Z" "2024-12-01T09:00:00.000Z"
    None None None None None None "2024-12-01T09:00:00.000Z" Markdown
    None None (Some (num_of_Z 1)) None None.

(** A state with no data at all. *)
Definition empty_world : World.t := client ∅.

(** ** Times of day *)

(** Leibniz equality on numbers, as a test. *)
Definition number_eqb (a b : number) : bool :=
  match a, b with
  | SpecFloat.S754_zero s, SpecFloat.S754_zero s' => Bool.eqb s s'
  | SpecFloat.S754_infinity s, SpecFloat.S754_infinity s' => Bool.eqb s s'
  | SpecFloat.S754_nan, SpecFloat.S754_nan => true
  | SpecFloat.S754_finite s m e, SpecFloat.S754_finite s' m' e' =>
      Bool.eqb s s' && Pos.eqb m m' && Z.eqb e e'
  | _, _ => false
  end.

Definition two_digits (n : nat) : string :=
  String (ascii_of_nat (48 + n / 10)) (String (ascii_of_nat (48 + n mod 10)) "").

(** The string "HH:MM" of an hour and a minute. *)
Definition hhmm (h m : nat) : string := two_digits h ++ ":" ++ two_digits m.

(** Preferences with the given quiet hours, everything else default. *)
Definition quiet (quietHoursStart quietHoursEnd : option string)
  : NotificationPreference.t :=
  NotificationPreference.mk true [Browser] quietHoursStart quietHoursEnd
    (Categories.mk true true true true) (Priorities.mk true true true).

Definition at_time (h m : nat) : NotificationService.LocalTime :=
  NotificationService.mkLocalTime (Z.of_nat h) (Z.of_nat m).

(** Containment of minute [n] of the day in the quiet interval from
    minute [s] to minute [e], both ends included; [s > e] is an interval
    that spans midnight. *)
Definition in_quiet_interval (s e n : nat) : bool :=
  if (s <=? e)%nat then (s <=? n)%nat && (n <=? e)%nat
  else (s <=? n)%nat || (n <=? e)%nat.

(** The minutes-of-day that the source computes from the two parts of a
    time string. *)
Definition minutes_of_parts (parts : list string) : number :=
  num_add (num_mul (parseInt (nth 0 parts "")) (num_of_Z 60))
          (parseInt (nth 1 parts "")).

(** The checks behind the statements on times of day, over all hours and
    minutes. *)
Definition all_times (f : nat -> nat -> bool) : bool :=
  forallb (fun h => forallb (fun m => f h m) (seq 0 60)) (seq 0 24).

Definition parse_ok (h m : nat) : bool :=
  let parts := split ":" (hhmm h m) in
  (length parts =? 2)%nat
  && str_truthy (hhmm h m)
  && number_eqb (minutes_of_parts parts) (num_of_nat (60 * h + m))
  && number_eqb (num_add (num_mul (num_of_Z (Z.of_nat h)) (num_of_Z 60))
                         (num_of_Z (Z.of_nat m)))
                (num_of_nat (60 * h + m)).

Definition minutes_table : list (Z * number) :=
  map (fun n => (Z.of_nat n, num_of_nat n)) (seq 0 1440).

Definition compare_ok (a b : Z * number) : bool :=
  Bool.eqb (num_le (snd a) (snd b)) (fst a <=? fst b).

(** ** What the services find in a state *)

(** The stored project and the stored todo with a given id (the first, if
    the collection has several), and the todos whose back-reference
    [projectId] names a project. *)
Definition find_project (id : string) (w : World.t) : option Project.t :=
  match stored "projects" w with
  | Returns (VProjects l) => List.find (fun p => String.eqb (Project.id p) id) l
  | _ => None
  end.

Definition find_todo (id : string) (w : World.t) : option Todo.t :=
  match stored "todos" w with
  | Returns (VTodos l) => List.find (fun t => String.eqb (Todo.id t) id) l
  | _ => None
  end.

Definition linked_todos (projectId : string) (w : World.t) : list Todo.t :=
  match stored "todos" w with
  | Returns (VTodos l) =>
      List.filter (fun t => match Todo.projectId t with
                            | Some p => String.eqb p projectId
                            | None => false
                            end) l
  | _ => []
  end.

(** The progress that [updateProjectProgress] computes for a project with
    [total] entries in [todoIds], [completed] of whose linked todos are
    completed. *)
Definition computed_progress (completed total : nat) : number :=
  if (total =? 0)%nat then num_of_Z 0
  else ProjectService.percentage completed total.

(** [round(100 * completed / total)] in exact arithmetic, ties upwards. *)
Definition exact_percentage (completed total : nat) : Z :=
  (2 * (100 * Z.of_nat completed) + Z.of_nat total) / (2 * Z.of_nat total).

(** The same with ties to the even integer. *)
Definition exact_percentage_even (completed total : nat) : Z :=
  let a := 100 * Z.of_nat completed in
  let b := Z.of_nat total in
  let q := a / b in
  let r := a mod b in
  if 2 * r <? b then q
  else if b <? 2 * r then q + 1
  else if Z.even q then q else q + 1.

(** The clock reading that the next [new Date()] returns. *)
Definition next_timestamp (w : World.t) : string :=
  Env.clock (World.env w) (World.ticks w).

Definition tick (w : World.t) : World.t :=
  World.set_ticks (S (World.ticks w)) w.

(** ** Sample projects *)

Definition todo_ids (n : nat) : list string :=
  map (fun i => "t" ++ pretty i) (seq 0 n).

(** [n] todos linked to [projectId], the first [c] of them completed. *)
Definition project_todos (projectId : string) (n c : nat) : list Todo.t :=
  map (fun i => sample_todo ("t" ++ pretty i)
                  (if (i <? c)%nat then Completed else Pending) (Some projectId))
      (seq 0 n).

(** The project "p1" with [n] todos, [c] of them completed, and a stored
    progress of 0. *)
Definition project_world (n c : nat) : World.t :=
  client (<["todos" := VTodos (project_todos "p1" n c)]>
          (<["projects" := VProjects [sample_project "p1" (todo_ids n) (num_of_Z 0)]]>
           ∅)).

(** The computed percentage is the exact one, for every count of
    completed todos up to [total]. *)
Definition percentage_exact (total : nat) : bool :=
  forallb (fun c => number_eqb (ProjectService.percentage c total)
                      (num_of_Z (exact_percentage c total)))
          (seq 0 (S total)).

(** ** The progress invariant *)

(** [progress = round(100 * completed / todoIds.length)], with 0 for an
    empty [todoIds], for a project in a state; the completed todos are
    counted among those linked to the project.  The rounding is the one of
    the code itself, [computed_progress]. *)
Definition progress_invariant (w : World.t) (p : Project.t) : Prop :=
  Project.progress p
  = computed_progress
      (ProjectService.count_completed (linked_todos (Project.id p) w))
      (length (Project.todoIds p)).

(** What the idempotence of [addTodoToProject] is about. *)
Definition membership (projectId : string) (w : World.t)
  : option (list string * number) :=
  option_map (fun p => (Project.todoIds p, Project.progress p))
             (find_project projectId w).

(** The fields of a todo that [validateTodo] reads. *)
Definition todo_valid (w : World.t) (t : Todo.t) : Outcome unit :=
  TodoService.validateTodo (Env.parseDate (World.env w))
    (Todo.title t) (Todo.description t) (Todo.dueDate t).

Definition project_valid (w : World.t) (p : Project.t) : Outcome unit :=
  ProjectService.validateProject (Env.parseDate (World.env w)) p.

(** How often an id occurs in a list of ids. *)
Definition occurrences (id : string) (l : list string) : nat :=
  count_occ String.string_dec l id.

(** The project "p1" that lists the todo "t1" twice. *)
Definition duplicated_world : World.t :=
  client (<["todos" := VTodos [sample_todo "t1" Pending (Some "p1")]]>
          (<["projects" := VProjects [sample_project "p1" ["t1"; "t1"] (num_of_Z 0)]]>
           ∅)).

(** ** Sample states of the claims on projects, notes and todos *)

(** The project "p1" without todos, and the completed todo "t1" that is
    not linked to it; the stored progress, 0, is the one of the invariant. *)
Definition unlinked_world : World.t :=
  client (<["todos" := VTodos [sample_todo "t1" Completed None]]>
          (<["projects" := VProjects [sample_project "p1" [] (num_of_Z 0)]]> ∅)).

(** The project "p1" with the completed todo "t1" and the pending todo
    "t2"; the stored progress, 50, is the one of the invariant. *)
Definition half_done_world : World.t :=
  client (<["todos" := VTodos [sample_todo "t1" Completed (Some "p1");
                               sample_todo "t2" Pending (Some "p1")]]>
          (<["projects" := VProjects [sample_project "p1" ["t1"; "t2"] (num_of_Z 50)]]>
           ∅)).

(** One note, "n1", whose version history has never been written. *)
Definition one_note_world : World.t :=
  client (<["notes" := VNotes [sample_note "n1" "first draft"]]> ∅).

Definition sample_todo_data : TodoData.t :=
  TodoData.mk "Write the report" None Pending Medium None None
    None None None None None None None None.

(** The version number [k] is truthy and is incremented exactly by
    [+ 1] in binary64. *)
Definition increment_ok (k : nat) : bool :=
  num_truthy (num_of_nat k)
  && number_eqb (num_add (num_of_nat k) (num_of_Z 1)) (num_of_nat (S k)).

(** Two todos, "t1" and "t2", and nothing else. *)
Definition two_todos : list Todo.t :=
  [sample_todo "t1" Pending None; sample_todo "t2" Pending None].

Definition two_todos_world : World.t :=
  client (<["todos" := VTodos two_todos]> ∅).


(** ** Counting the completed todos of a project *)

(** How many of the todos are completed and carry the project in their
    [projectId].  The project's [todoIds] plays no part, so the count can
    exceed its length. *)
Fixpoint count_completed_linked (projectId : string) (todos : list Todo.t) : nat :=
  match todos with
  | [] => 0%nat
  | todo :: rest =>
      match Todo.projectId todo, Todo.status todo with
      | Some p, Completed =>
          if String.eqb p projectId
          then S (count_completed_linked projectId rest)
          else count_completed_linked projectId rest
      | _, _ => count_completed_linked projectId rest
      end
  end.

Definition completed_linked (projectId : string) (w : World.t) : nat :=
  match stored "todos" w with
  | Returns (VTodos l) => count_completed_linked projectId l
  | _ => 0%nat
  end.

(** [Math.round((completed / total) * 100)] in binary64, the division
    first; 0 when there is nothing to divide by. *)
Definition rounded_percentage (completed total : nat) : number :=
  if (total =? 0)%nat then num_of_Z 0
  else Math_round (num_mul (num_div (num_of_nat completed) (num_of_nat total))
                           (num_of_Z 100)).

(** The rounded percentage is the exact one, for every count of completed
    todos up to [most]. *)
Definition rounding_exact (most total : nat) : bool :=
  forallb (fun c => number_eqb (rounded_percentage c total)
                      (num_of_Z (exact_percentage c total)))
          (seq 0 (S most)).

(** The project "p1" with one entry in [todoIds] and three completed todos
    that name it in their [projectId]. *)
Definition overlinked_world : World.t :=
  client (<["todos" := VTodos (project_todos "p1" 3 3)]>
          (<["projects" := VProjects [sample_project "p1" (todo_ids 1) (num_of_Z 0)]]>
           ∅)).

(** ** The localStorage key of an entity *)






(* ===================================================================== *)
(** * Vocabulary of the further properties *)
(* ===================================================================== *)

(** The server branch of [read] did not give a value: the request was
    rejected, the reply is [ok] without a JSON body, or it is an error
    other than 404. *)
Definition server_read_failed (resp : Outcome Response.t) : Prop :=
  match resp with
  | Returns response =>
      if Response.ok response then Response.json response = None
      else Response.status response <> 404
  | Throws _ => True
  end.

(** What [localStorage] holds under a key, read as the entity: the parsed
    value, or the entity's empty value when the key is absent, empty or
    not JSON. *)
Definition held_locally (w : World.t) (storageKey entity : string) : Value :=
  match World.localStorage w !! storageKey with
  | Some (JsonText v) => v
  | _ => StorageService.getEmptyDataByEntityType entity
  end.


(** The value under a key of a plain object. *)
Definition field (key : string) (v : Value) : option string :=
  match v with
  | VObject fields =>
      option_map snd (List.find (fun kv => String.eqb (fst kv) key) fields)
  | _ => None
  end.

(** The state after the metadata update that a write has started has
    run. *)
Definition settled (w : World.t) : World.t :=
  snd (StorageService.run_detached w).

(** The record that [createTodo] builds in a state: the next identifier
    and the next two readings of the clock. *)
Definition created_todo (w : World.t) (todoData : TodoData.t) : Todo.t :=
  Todo.mk (Env.generateId (World.env w) (World.generated w))
    (TodoData.title todoData) (TodoData.description todoData)
    (TodoData.status todoData) (TodoData.priority todoData)
    (TodoData.dueDate todoData)
    (Env.clock (World.env w) (World.ticks w))
    (Env.clock (World.env w) (S (World.ticks w)))
    (TodoData.projectId todoData) (TodoData.images todoData)
    (TodoData.tags todoData) (TodoData.subtasks todoData)
    (TodoData.progress todoData) (TodoData.startDate todoData)
    (TodoData.completedAt todoData) (TodoData.category todoData)
    (TodoData.dependsOn todoData).

(** [validateTodo] on the argument of [createTodo]. *)
Definition data_valid (w : World.t) (todoData : TodoData.t) : Outcome unit :=
  TodoService.validateTodo (Env.parseDate (World.env w))
    (TodoData.title todoData) (TodoData.description todoData)
    (TodoData.dueDate todoData).

(** The id is not the id of any todo of the list. *)
Definition unused_id (id : string) (todos : list Todo.t) : Prop :=
  forall x, In x todos -> Todo.id x <> id.

(** The milestones that [createProject] builds when the next identifier
    is the [n]-th one. *)
Fixpoint milestones_from (env : Env.t) (now : string) (n : nat)
    (l : list InitialMilestone.t) : list Milestone.t :=
  match l with
  | [] => []
  | milestoneData :: r =>
      ProjectService.initial_milestone now (Env.generateId env n) milestoneData
      :: milestones_from env now (S n) r
  end.

Definition initial_list (projectData : ProjectData.t) : list InitialMilestone.t :=
  default [] (ProjectData.initialMilestones projectData).

(** The project that [createProject] validates in a state, and the one it
    stores. *)
Definition drafted_project (w : World.t) (projectData : ProjectData.t) : Project.t :=
  ProjectService.new_project (next_timestamp w)
    (Env.generateId (World.env w) (World.generated w)) projectData.

Definition created_project (w : World.t) (projectData : ProjectData.t) : Project.t :=
  ProjectService.with_milestones (drafted_project w projectData)
    (milestones_from (World.env w) (next_timestamp w) (S (World.generated w))
       (initial_list projectData)).

(** The state after the clock has been read once and [n] identifiers have
    been drawn. *)
Definition drawn (n : nat) (w : World.t) : World.t :=
  World.set_generated (n + World.generated w) (tick w).

(** The todo is stored and its [projectId] is the project. *)
Definition linked_to (projectId todoId : string) (w : World.t) : bool :=
  match find_todo todoId w with
  | Some t =>
      match Todo.projectId t with
      | Some p => String.eqb p projectId
      | None => false
      end
  | None => false
  end.

(** The stored note with an id: the first one, as [findIndex] takes it. *)
Definition find_note (id : string) (w : World.t) : option Note.t :=
  match stored "notes" w with
  | Returns (VNotes l) => List.find (fun n => String.eqb (Note.id n) id) l
  | _ => None
  end.

(** JavaScript's reading of an optional boolean in a condition. *)
Definition favorite (note : Note.t) : bool :=
  default false (Note.isFavorite note).

(** The notification that [createNotification] builds in a state: the
    next uuid, the next reading of the clock, unread. *)
Definition created_notification (w : World.t) (notification : NotificationInput.t)
  : NotificationData.t :=
  NotificationData.mk (Env.uuidv4 (World.env w) (World.uuids w))
    (NotificationInput.title notification)
    (NotificationInput.message notification)
    (NotificationInput.type notification)
    (next_timestamp w) false
    (NotificationInput.todoId notification)
    (NotificationInput.projectId notification)
    (NotificationInput.noteId notification)
    (NotificationInput.priority notification)
    (NotificationInput.actions notification)
    (NotificationInput.expiresAt notification)
    (NotificationInput.category notification)
    (NotificationInput.source notification).

(** ** Sample states of the further properties *)

(** The client whose server cannot be reached, with two todos in
    [localStorage]. *)
Definition offline_local_world : World.t :=
  World.mk true default_config false ∅
    (<["taskflow_data_todos" := JsonText (VTodos two_todos)]> ∅)
    [] 0 0 0 0 sample_env.

(** The client whose server cannot be reached and whose fallback is
    disabled. *)
Definition strict_offline_world : World.t :=
  World.mk true (StorageConfig.mk true "/api/storage" false) false ∅ ∅
    [] 0 0 0 0 sample_env.

(** The client that keeps its data in [localStorage] only, with two todos
    there. *)
Definition local_world : World.t :=
  World.mk true (StorageConfig.mk false "/api/storage" true) true ∅
    (<["taskflow_data_todos" := JsonText (VTodos two_todos)]> ∅)
    [] 0 0 0 0 sample_env.

(** The same client with an empty text under the key of the todos. *)
Definition empty_text_world : World.t :=
  World.mk true (StorageConfig.mk false "/api/storage" true) true ∅
    (<["taskflow_data_todos" := RawText ""]> ∅)
    [] 0 0 0 0 sample_env.

(** The server side. *)
Definition server_side_world : World.t :=
  World.mk false default_config true ∅ ∅ [] 0 0 0 0 sample_env.

(** An environment whose dates are ordered by their year. *)
Definition dated_env : Env.t :=
  Env.mk (Env.clock sample_env) (Env.generateId sample_env) (Env.uuidv4 sample_env)
         (fun s => leading_digits s None).

Definition dated (w : World.t) : World.t :=
  World.mk (World.isClient w) (World.config w) (World.online w) (World.files w)
    (World.localStorage w) (World.toasts w) (World.detached w) (World.ticks w)
    (World.generated w) (World.uuids w) dated_env.

(** A todo that was due in 2024, one due in 2026, and a completed one
    that was due in 2024. *)
Definition due_todo (id : string) (status : TodoStatus) (dueDate : string) : Todo.t :=
  Todo.mk id "Write the report" None status Medium (Some dueDate)
    "2024-12-01T09:00:00.000Z" "2024-12-01T09:00:00.000Z" None
    None None None None None None None None.

Definition due_todos : list Todo.t :=
  [due_todo "t1" Pending "2024-06-30"; due_todo "t2" Pending "2026-06-30";
   due_todo "t3" Completed "2024-06-30"].

Definition due_world : World.t :=
  dated (client (<["todos" := VTodos due_todos]> ∅)).

Definition blank_todo_data : TodoData.t :=
  TodoData.mk "   " None Pending Medium None None
    None None None None None None None None.

Definition sample_project_data (dueDate : option string)
    (initialMilestones : option (list InitialMilestone.t)) : ProjectData.t :=
  ProjectData.mk "Launch" None None None dueDate None None None None None None
    None None initialMilestones.

Definition sample_milestone (id : string) : Milestone.t :=
  Milestone.mk id "Beta" None "2025-03-01" false None []
    "2024-12-01T09:00:00.000Z" "2024-12-01T09:00:00.000Z".

(** The project "p1" with the milestone "m1". *)
Definition milestone_project : Project.t :=
  Project.mk "p1" "Launch" None Active
    "2024-12-01T09:00:00.000Z" "2024-12-01T09:00:00.000Z"
    None None None None (num_of_Z 0) [] [sample_milestone "m1"]
    None None None None None None.

Definition milestone_world : World.t :=
  client (<["projects" := VProjects [milestone_project]]> ∅).

Definition sample_milestone_data : MilestoneData.t :=
  MilestoneData.mk "Release" None "2025-06-01" false None [].

(** Two notes, "n1" and "n2". *)
Definition two_notes : list Note.t :=
  [sample_note "n1" "first draft"; sample_note "n2" "Agenda"].

Definition two_notes_world : World.t :=
  client (<["notes" := VNotes two_notes]> ∅).

Definition sample_notification (id : string) (read : bool) : NotificationData.t :=
  NotificationData.mk id "Due soon" "The report is due tomorrow" NInfo
    "2024-12-01T09:00:00.000Z" read None None None Medium None None
    (Some CatTodo) None.

Definition two_notifications : list NotificationData.t :=
  [sample_notification "a1" false; sample_notification "a2" true].

Definition notifications_world : World.t :=
  client (<["notifications" := VNotifications two_notifications]> ∅).

Definition sample_notification_input : NotificationInput.t :=
  NotificationInput.mk "Due soon" "The report is due tomorrow" NInfo
    None None None Medium None None (Some CatTodo) None.

Definition quiet_preferences : NotificationPreference.t :=
  NotificationPreference.mk true [Browser] (Some "22:00") (Some "06:00")
    (Categories.mk true true true true) (Priorities.mk true true true).

Definition granted : NotificationService.Service :=
  NotificationService.mkService true NotificationService.Granted.

(** ** Values that JSON gives back as they were *)










(** ** Entity names that the route handler serves *)




(** ** What a change of tags leaves of a note *)

(** Every field of the note but [tags] and [updatedAt] is as before. *)
Definition same_but_tags (before after : Note.t) : Prop :=
  Note.id after = Note.id before
  /\ Note.title after = Note.title before
  /\ Note.content after = Note.content before
  /\ Note.createdAt after = Note.createdAt before
  /\ Note.images after = Note.images before
  /\ Note.projectId after = Note.projectId before
  /\ Note.todoId after = Note.todoId before
  /\ Note.folder after = Note.folder before
  /\ Note.isFavorite after = Note.isFavorite before
  /\ Note.lastEditedAt after = Note.lastEditedAt before
  /\ Note.contentType after = Note.contentType before
  /\ Note.relatedNotes after = Note.relatedNotes before
  /\ Note.relatedTodos after = Note.relatedTodos before
  /\ Note.version after = Note.version before
  /\ Note.collaborators after = Note.collaborators before
  /\ Note.color after = Note.color before.

(* ===================================================================== *)
(** * Properties of the gateway *)
(* ===================================================================== *)

(** stdpp blocks the unfolding of [String.append]; the keys of the
    gateway are built with it, so it is unblocked here. *)
#[local] Arguments String.append !s1 s2 : simpl nomatch.


Lemma key_client w e : World.isClient w = true -> StorageService.getStorageKey w e None = "taskflow_data_" ++ e.
Proof.
  intros H. unfold StorageService.getStorageKey, StorageService.basePath. rewrite H.
  destruct (String.eqb_spec e "metadata") as [->|]; reflexivity.
Qed.

Lemma local_read_value w e :
  match World.localStorage w !! ("taskflow_data_" ++ e) with
  | Some rawData => if negb (text_truthy rawData) then Returns (StorageService.getEmptyDataByEntityType e)
                    else JSON_parse rawData
  | None => Returns (StorageService.getEmptyDataByEntityType e)
  end = Returns (local_value w e) \/
  exists x, match World.localStorage w !! ("taskflow_data_" ++ e) with
  | Some rawData => if negb (text_truthy rawData) then Returns (StorageService.getEmptyDataByEntityType e)
                    else JSON_parse rawData
  | None => Returns (StorageService.getEmptyDataByEntityType e)
  end = Throws x /\ local_value w e = StorageService.getEmptyDataByEntityType e.
Proof.
  unfold local_value. destruct (World.localStorage w !! _) as [[v|s]|]; simpl; auto.
  destruct (str_truthy s); simpl; eauto.
Qed.

Lemma stored_backend e w :
  stored e w = Returns match backend w e with
                       | ToServer => server_value w e
                       | ToLocal => local_value w e
                       | NoBackend => StorageService.getEmptyDataByEntityType e
                       end.
Proof.
  unfold stored, StorageService.read, backend, StorageService.read_with, StorageService.fetch_get. cbn [fst].
  destruct (World.isClient w) eqn:Hc; cbn [negb]; [|reflexivity].
  rewrite (key_client w e Hc).
  destruct (local_read_value w e) as [L|[x [L L']]].
  - rewrite L.
    destruct (StorageConfig.useServerStorage (World.config w)); [|reflexivity].
    destruct (World.online w); cbn [andb].
    + unfold Route.GET, safe_name.
      destruct (String.eqb_spec (Route.sanitize e) e) as [Hs|Hs]; cbn [negb].
      * rewrite Hs. unfold server_value. destruct (World.files w !! e); reflexivity.
      * destruct (StorageConfig.fallbackToLocalStorage (World.config w)); reflexivity.
    + destruct (StorageConfig.fallbackToLocalStorage (World.config w)); reflexivity.
  - rewrite L, L'.
    destruct (StorageConfig.useServerStorage (World.config w)); [|reflexivity].
    destruct (World.online w); cbn [andb].
    + unfold Route.GET, safe_name.
      destruct (String.eqb_spec (Route.sanitize e) e) as [Hs|Hs]; cbn [negb].
      * rewrite Hs. unfold server_value. destruct (World.files w !! e); reflexivity.
      * destruct (StorageConfig.fallbackToLocalStorage (World.config w)); reflexivity.
    + destruct (StorageConfig.fallbackToLocalStorage (World.config w)); reflexivity.
Qed.


Lemma write_backend e v w :
  StorageService.write e v w =
  match backend w e with
  | ToServer => (Returns tt, started e (World.set_files (<[e := v]> (World.files w)) w))
  | ToLocal =>
      (Returns tt,
       started e (StorageService.write_local (warned w) ("taskflow_data_" ++ e) (JsonText v)))
  | NoBackend =>
      if World.isClient w
      then (Throws (Error ("Failed to save " ++ e ++ " data")),
            World.add_toast StorageService.storage_warning w)
      else (Returns tt, w)
  end.
Proof.
  unfold StorageService.write, backend, warned, started, StorageService.fetch_post,
    safe_name, Route.POST, StorageService.write_with, StorageService.getStorageKey,
    StorageService.basePath.
  destruct w as [ic [us ap fb] on fs ls ts dt tk gn uu en]. cbn.
  destruct ic; [|reflexivity].
  destruct (String.eqb_spec e "metadata") as [->|Hm];
  destruct us, on, fb; cbn; try reflexivity;
    destruct (String.eqb_spec (Route.sanitize e) e) as [Hs|Hs]; cbn;
    rewrite ?Hs; reflexivity.
Qed.

Lemma backend_write e e' v w :
  backend (snd (StorageService.write e v w)) e' = backend w e'.
Proof.
  rewrite write_backend. unfold backend at 1.
  destruct w as [ic [us ap fb] on fs ls ts dt tk gn uu en]. unfold started, warned, backend. cbn.
  destruct ic; cbn; [|reflexivity].
  destruct us, (on && safe_name e), fb, (negb (String.eqb e "metadata")); reflexivity.
Qed.

Lemma files_started e w : World.files (started e w) = World.files w.
Proof. unfold started. destruct (negb _); reflexivity. Qed.

Lemma localStorage_started e w : World.localStorage (started e w) = World.localStorage w.
Proof. unfold started. destruct (negb _); reflexivity. Qed.

Lemma files_warned w : World.files (warned w) = World.files w.
Proof. unfold warned. destruct (StorageConfig.useServerStorage _); reflexivity. Qed.

Lemma localStorage_warned w : World.localStorage (warned w) = World.localStorage w.
Proof. unfold warned. destruct (StorageConfig.useServerStorage _); reflexivity. Qed.

Lemma taskflow_key_inj a b : "taskflow_data_" ++ a = "taskflow_data_" ++ b -> a = b.
Proof. simpl. intros H. injection H. auto. Qed.

Lemma append_assoc (a b c : string) : (a ++ b) ++ c = a ++ (b ++ c).
Proof. induction a; simpl; congruence. Qed.

Lemma write_local_lookup_same w k j :
  World.localStorage (StorageService.write_local w k j) !! k = Some j.
Proof.
  unfold StorageService.write_local. cbn. apply lookup_insert_eq.
Qed.

Lemma write_local_lookup_other w k k' j :
  k' <> k -> k' <> k ++ "_backup" ->
  World.localStorage (StorageService.write_local w k j) !! k' = World.localStorage w !! k'.
Proof.
  intros H1 H2. unfold StorageService.write_local. cbn.
  rewrite lookup_insert_ne by congruence.
  destruct (World.localStorage w !! k) as [t|]; [|reflexivity].
  destruct (text_truthy t); [|reflexivity].
  rewrite lookup_insert_ne by congruence. reflexivity.
Qed.

Lemma files_write_local w k j : World.files (StorageService.write_local w k j) = World.files w.
Proof. reflexivity. Qed.

Lemma stored_write_same e v w :
  backend w e <> NoBackend ->
  StorageService.write e v w = (Returns tt, snd (StorageService.write e v w))
  /\ stored e (snd (StorageService.write e v w)) = Returns v.
Proof.
  intros Hb. rewrite stored_backend, backend_write.
  rewrite write_backend. destruct (backend w e); [| |congruence]; cbn [snd]; split; try reflexivity.
  - unfold server_value. rewrite files_started. cbn. rewrite lookup_insert_eq. reflexivity.
  - unfold local_value. rewrite localStorage_started, write_local_lookup_same. reflexivity.
Qed.

Lemma stored_write_other e e' v w :
  e' <> e -> e' <> e ++ "_backup" ->
  stored e' (snd (StorageService.write e v w)) = stored e' w.
Proof.
  intros H1 H2. rewrite !stored_backend, backend_write. f_equal.
  assert (Hf : World.files (snd (StorageService.write e v w)) !! e' = World.files w !! e').
  { rewrite write_backend. destruct (backend w e); cbn [snd].
    - rewrite files_started. cbn. apply lookup_insert_ne. congruence.
    - rewrite files_started, files_write_local, files_warned. reflexivity.
    - destruct (World.isClient w); reflexivity. }
  assert (Hl : World.localStorage (snd (StorageService.write e v w)) !! ("taskflow_data_" ++ e')
               = World.localStorage w !! ("taskflow_data_" ++ e')).
  { rewrite write_backend. destruct (backend w e); cbn [snd].
    - rewrite localStorage_started. reflexivity.
    - rewrite localStorage_started, write_local_lookup_other, localStorage_warned; [reflexivity| |].
      + intros K. apply taskflow_key_inj in K. congruence.
      + rewrite append_assoc. intros K. apply taskflow_key_inj in K. congruence.
    - destruct (World.isClient w); reflexivity. }
  unfold server_value, local_value. rewrite Hf, Hl. reflexivity.
Qed.

Lemma write_preserves e v w :
  let w' := snd (StorageService.write e v w) in
  World.isClient w' = World.isClient w /\ World.config w' = World.config w
  /\ World.online w' = World.online w /\ World.env w' = World.env w
  /\ World.ticks w' = World.ticks w /\ World.generated w' = World.generated w
  /\ World.uuids w' = World.uuids w.
Proof.
  cbn zeta. rewrite write_backend.
  destruct w as [ic [us ap fb] on fs ls ts dt tk gn uu en].
  unfold started, warned. cbn.
  destruct (backend _ _); cbn; [| |destruct ic; cbn; tauto];
    destruct (negb _); cbn; try tauto; destruct us; cbn; tauto.
Qed.

(** [read] settles to a value whatever the server and localStorage hold:
    every error of its body is caught. *)
Lemma read_with_never_throws resp w entity filename :
  exists v, StorageService.read_with resp w entity filename = Returns v.
Proof.
  unfold StorageService.read_with.
  match goal with
  | |- exists v, match ?body with _ => _ end = _ => destruct body; eauto
  end.
Qed.

(** On the client, a 404 from the server is answered by the empty value
    of the entity. *)
Lemma read_with_404 w entity filename body :
  World.isClient w = true ->
  StorageConfig.useServerStorage (World.config w) = true ->
  StorageService.read_with (Returns (Response.mk 404 body)) w entity filename
  = Returns (StorageService.getEmptyDataByEntityType entity).
Proof.
  intros Hc Hu. unfold StorageService.read_with. rewrite Hc, Hu. reflexivity.
Qed.

(** With server storage off, an absent localStorage key is answered by
    the empty value of the entity. *)
Lemma read_with_absent_key resp w entity filename :
  World.isClient w = true ->
  StorageConfig.useServerStorage (World.config w) = false ->
  World.localStorage w !! StorageService.getStorageKey w entity filename = None ->
  StorageService.read_with resp w entity filename
  = Returns (StorageService.getEmptyDataByEntityType entity).
Proof.
  intros Hc Hu Hk. unfold StorageService.read_with. rewrite Hc, Hu. cbn [negb].
  rewrite Hk. reflexivity.
Qed.

(** The empty values of the named entities. *)
Lemma empty_values :
  StorageService.getEmptyDataByEntityType "todos" = VTodos []
  /\ StorageService.getEmptyDataByEntityType "projects" = VProjects []
  /\ StorageService.getEmptyDataByEntityType "notes" = VNotes []
  /\ StorageService.getEmptyDataByEntityType "notifications" = VNotifications []
  /\ StorageService.getEmptyDataByEntityType "settings"
     = VSettings StorageService.default_settings
  /\ StorageService.getEmptyDataByEntityType "notification_preferences"
     = VPreferences StorageService.default_preferences.
Proof. repeat apply conj; reflexivity. Qed.

(** The entity of a version history is none of the named ones. *)
Lemma empty_versions noteId :
  StorageService.getEmptyDataByEntityType (NotesService.versions_entity noteId)
  = empty_object.
Proof. reflexivity. Qed.

(** On the client, a write that returns has persisted the value. *)
Lemma write_returns_stored e v w w' :
  World.isClient w = true ->
  StorageService.write e v w = (Returns tt, w') ->
  stored e w' = Returns v.
Proof.
  intros Hc Hw.
  assert (Hb : backend w e <> NoBackend).
  { intros Hb. rewrite write_backend, Hb, Hc in Hw. discriminate. }
  destruct (stored_write_same e v w Hb) as [_ Hs].
  rewrite Hw in Hs. exact Hs.
Qed.

(** ** A localStorage with a quota *)






(* ===================================================================== *)
(** * Lists, and running the services *)
(* ===================================================================== *)

(** ** Lists *)

Lemma findIndex_Some {A} (f : A -> bool) l i :
  findIndex f l = Some i ->
  exists x, l !! i = Some x /\ f x = true
            /\ forall j y, (j < i)%nat -> l !! j = Some y -> f y = false.
Proof.
  revert i. induction l as [|a l IH]; intros i H; simpl in H; [discriminate|].
  destruct (f a) eqn:Fa.
  - injection H as <-. exists a. repeat split; auto. intros j y Hj. lia.
  - destruct (findIndex f l) as [k|] eqn:Fk; simpl in H; [|discriminate].
    injection H as <-. destruct (IH k eq_refl) as (x & Hx & Fx & Hlt).
    exists x. repeat split; auto.
    intros [|j] y Hj Hy; simpl in Hy.
    + injection Hy as <-. exact Fa.
    + apply (Hlt j y); [lia|exact Hy].
Qed.

Lemma findIndex_None {A} (f : A -> bool) l :
  findIndex f l = None -> forall x, In x l -> f x = false.
Proof.
  induction l as [|a l IH]; intros H x Hx; simpl in *; [contradiction|].
  destruct (f a) eqn:Fa; [discriminate|].
  destruct (findIndex f l); [discriminate|].
  destruct Hx as [<-|Hx]; auto.
Qed.

Lemma findIndex_exists {A} (f : A -> bool) l x :
  In x l -> f x = true -> exists i, findIndex f l = Some i.
Proof.
  intros Hx Fx. destruct (findIndex f l) eqn:E; [eauto|].
  rewrite (findIndex_None f l E x Hx) in Fx. discriminate.
Qed.

Lemma findIndex_insert {A} (f : A -> bool) l i y :
  findIndex f l = Some i -> f y = true -> findIndex f (<[i := y]> l) = Some i.
Proof.
  revert i. induction l as [|a l IH]; intros i H Fy; simpl in H; [discriminate|].
  destruct (f a) eqn:Fa.
  - injection H as <-. simpl. rewrite Fy. reflexivity.
  - destruct (findIndex f l) as [k|] eqn:Fk; simpl in H; [|discriminate].
    injection H as <-. simpl. rewrite Fa, (IH k eq_refl Fy). reflexivity.
Qed.

Lemma find_findIndex {A} (f : A -> bool) l :
  List.find f l = match findIndex f l with Some i => l !! i | None => None end.
Proof.
  induction l as [|a l IH]; simpl; [reflexivity|].
  destruct (f a); [reflexivity|]. rewrite IH.
  destruct (findIndex f l); reflexivity.
Qed.

Lemma filter_all {A} (f : A -> bool) l :
  (forall x, In x l -> f x = true) -> List.filter f l = l.
Proof.
  induction l as [|a l IH]; simpl; intros H; [reflexivity|].
  rewrite (H a) by auto. f_equal. apply IH. auto.
Qed.

(** ** Running the services *)

Lemma read_eq e w : StorageService.read e w = (stored e w, w).
Proof. reflexivity. Qed.

Lemma stored_nonempty_backend e w v :
  stored e w = Returns v -> v <> StorageService.getEmptyDataByEntityType e ->
  backend w e <> NoBackend.
Proof.
  rewrite stored_backend. intros H Hv Hb. rewrite Hb in H. congruence.
Qed.

Lemma getTodos_run w : TodoService.getTodos w = (stored "todos" w, w).
Proof.
  unfold TodoService.getTodos, try_catch. rewrite read_eq.
  destruct (stored_backend "todos" w) as []. rewrite stored_backend. reflexivity.
Qed.

Lemma updateTodo_run id patch w todos :
  stored "todos" w = Returns (VTodos todos) ->
  TodoService.updateTodo id patch w =
    match findIndex (fun todo => String.eqb (Todo.id todo) id) todos with
    | None => (Throws (TodoService.not_found id), w)
    | Some index =>
        match todos !! index with
        | None => (Throws not_an_array, w)
        | Some current =>
            let wt := World.set_ticks (S (World.ticks w)) w in
            let up := TodoService.apply_patch current patch
                        (Env.clock (World.env w) (World.ticks w)) in
            match TodoService.validateTodo (Env.parseDate (World.env w))
                    (Todo.title up) (Todo.description up) (Todo.dueDate up) with
            | Throws e => (Throws e, wt)
            | Returns _ =>
                match StorageService.write "todos" (VTodos (<[index := up]> todos)) wt with
                | (Returns _, w') => (Returns up, w')
                | (Throws e, w') => (Throws e, w')
                end
            end
        end
    end.
Proof.
  intros H. unfold TodoService.updateTodo, try_catch, bind, lift, throw, ret.
  rewrite getTodos_run, H. cbn [as_todos].
  destruct (findIndex _ todos) as [index|]; [|reflexivity].
  destruct (todos !! index) as [current|]; [|reflexivity].
  unfold now, TodoService.validate, bind, gets, lift. cbn.
  destruct (TodoService.validateTodo _ _ _ _); [|reflexivity].
  destruct (StorageService.write _ _ _) as [[|] ?]; reflexivity.
Qed.

Lemma getProjects_run w : ProjectService.getProjects w = (stored "projects" w, w).
Proof.
  unfold ProjectService.getProjects, try_catch. rewrite read_eq, stored_backend.
  reflexivity.
Qed.

Lemma getNotes_run w : NotesService.getNotes w = (stored "notes" w, w).
Proof.
  unfold NotesService.getNotes, try_catch. rewrite read_eq, stored_backend.
  reflexivity.
Qed.

Lemma getNotifications_run w :
  NotificationService.getNotifications w = (stored "notifications" w, w).
Proof.
  unfold NotificationService.getNotifications, try_catch.
  rewrite read_eq, stored_backend. reflexivity.
Qed.

Lemma filter_absent {A} (ident : A -> string) (id : string) (l : list A) :
  ~ (exists x, In x l /\ ident x = id) ->
  List.filter (fun x => negb (String.eqb (ident x) id)) l = l.
Proof.
  intros H. apply filter_all. intros x Hx.
  destruct (String.eqb_spec (ident x) id) as [E|E]; [|reflexivity].
  exfalso. apply H. eauto.
Qed.

Lemma string_length_append (a b : string) :
  String.length (a ++ b) = (String.length a + String.length b)%nat.
Proof. induction a; simpl; congruence. Qed.

Lemma getTodoById_run id w :
  TodoService.getTodoById id w = (Returns (find_todo id w), w).
Proof.
  unfold TodoService.getTodoById, try_catch, bind, lift, ret, find_todo.
  rewrite getTodos_run. destruct (stored "todos" w) as [[]|]; reflexivity.
Qed.

Lemma getProjectById_run id w :
  ProjectService.getProjectById id w = (Returns (find_project id w), w).
Proof.
  unfold ProjectService.getProjectById, try_catch, bind, lift, ret, find_project.
  rewrite getProjects_run. destruct (stored "projects" w) as [[]|]; reflexivity.
Qed.

Lemma getTodosByProject_run projectId w :
  TodoService.getTodosByProject projectId w = (Returns (linked_todos projectId w), w).
Proof.
  unfold TodoService.getTodosByProject, try_catch, bind, lift, ret, linked_todos.
  rewrite getTodos_run. destruct (stored "todos" w) as [[]|]; reflexivity.
Qed.

Lemma updateProject_run id patch w projects :
  stored "projects" w = Returns (VProjects projects) ->
  ProjectService.updateProject id patch w =
    match findIndex (fun project => String.eqb (Project.id project) id) projects with
    | None => (Throws (ProjectService.not_found id), w)
    | Some index =>
        match projects !! index with
        | None => (Throws not_an_array, w)
        | Some current =>
            let up := ProjectService.apply_patch current patch id (next_timestamp w) in
            match ProjectService.validateProject (Env.parseDate (World.env w)) up with
            | Throws e => (Throws e, tick w)
            | Returns _ =>
                match StorageService.write "projects"
                        (VProjects (<[index := up]> projects)) (tick w) with
                | (Returns _, w') => (Returns up, w')
                | (Throws e, w') => (Throws e, w')
                end
            end
        end
    end.
Proof.
  intros H. unfold ProjectService.updateProject, try_catch, bind, lift, throw, ret.
  rewrite getProjects_run, H. cbn [as_projects].
  destruct (findIndex _ projects) as [index|]; [|reflexivity].
  destruct (projects !! index) as [current|]; [|reflexivity].
  unfold now, ProjectService.validate, bind, gets, lift, next_timestamp, tick. cbn.
  destruct (ProjectService.validateProject _ _); [|reflexivity].
  destruct (StorageService.write _ _ _) as [[|] ?]; reflexivity.
Qed.

(** Validation looks at the name, the description and the two dates only. *)
Lemma validateProject_fields parseDate p q :
  Project.name q = Project.name p ->
  Project.description q = Project.description p ->
  Project.dueDate q = Project.dueDate p ->
  Project.startDate q = Project.startDate p ->
  ProjectService.validateProject parseDate q = ProjectService.validateProject parseDate p.
Proof.
  intros H1 H2 H3 H4. unfold ProjectService.validateProject.
  rewrite H1, H2, H3, H4. reflexivity.
Qed.

Lemma stored_tick e w : stored e (tick w) = stored e w.
Proof. reflexivity. Qed.

Lemma backend_tick e w : backend (tick w) e = backend w e.
Proof. reflexivity. Qed.

(** What a call of [updateProject] that finds the project and validates
    the patched record does. *)
Lemma updateProject_ok id patch w projects index current :
  stored "projects" w = Returns (VProjects projects) ->
  findIndex (fun project => String.eqb (Project.id project) id) projects = Some index ->
  projects !! index = Some current ->
  ProjectService.validateProject (Env.parseDate (World.env w))
    (ProjectService.apply_patch current patch id (next_timestamp w)) = Returns tt ->
  let up := ProjectService.apply_patch current patch id (next_timestamp w) in
  let w' := snd (StorageService.write "projects"
                   (VProjects (<[index := up]> projects)) (tick w)) in
  ProjectService.updateProject id patch w = (Returns up, w')
  /\ stored "projects" w' = Returns (VProjects (<[index := up]> projects))
  /\ find_project id w' = Some up
  /\ (forall e, e <> "projects" -> e <> "projects_backup" -> stored e w' = stored e w)
  /\ World.env w' = World.env w
  /\ World.ticks w' = S (World.ticks w)
  /\ (forall e, backend w' e = backend w e).
Proof.
  intros Hs Hi Hc Hv. cbv zeta.
  set (up := ProjectService.apply_patch current patch id (next_timestamp w)) in *.
  assert (Hb : backend (tick w) "projects" <> NoBackend).
  { rewrite backend_tick. apply (stored_nonempty_backend _ _ _ Hs).
    intros K. injection K as ->. discriminate. }
  destruct (stored_write_same "projects" (VProjects (<[index := up]> projects))
              (tick w) Hb) as [Hw Hr].
  pose proof (write_preserves "projects" (VProjects (<[index := up]> projects)) (tick w))
    as (_ & _ & _ & He & Ht & _).
  set (w' := snd (StorageService.write "projects"
                    (VProjects (<[index := up]> projects)) (tick w))) in *.
  repeat apply conj.
  - rewrite (updateProject_run id patch w projects Hs), Hi, Hc. cbv zeta.
    fold up. rewrite Hv, Hw. reflexivity.
  - exact Hr.
  - unfold find_project. rewrite Hr, find_findIndex.
    rewrite (findIndex_insert _ _ _ up Hi) by apply String.eqb_refl.
    apply list_lookup_insert_eq. eapply lookup_lt_Some; eauto.
  - intros e H1 H2. unfold w'. rewrite stored_write_other by assumption.
    apply stored_tick.
  - exact He.
  - exact Ht.
  - intros e. unfold w'. rewrite backend_write. apply backend_tick.
Qed.

Lemma find_project_index id w p :
  find_project id w = Some p ->
  exists projects index,
    stored "projects" w = Returns (VProjects projects)
    /\ findIndex (fun project => String.eqb (Project.id project) id) projects = Some index
    /\ projects !! index = Some p
    /\ Project.id p = id.
Proof.
  unfold find_project. destruct (stored "projects" w) as [[| projects | | | | | |]|] eqn:Hs;
    try discriminate.
  rewrite find_findIndex.
  destruct (findIndex _ projects) as [index|] eqn:Hi; [|discriminate].
  intros Hp. exists projects, index. repeat apply conj; auto.
  destruct (findIndex_Some _ _ _ Hi) as (x & Hx & Fx & _).
  rewrite Hx in Hp. injection Hp as <-. apply String.eqb_eq. exact Fx.
Qed.

(** What [updateProjectProgress] does for a project that is stored and
    valid. *)
Lemma updateProjectProgress_ok projectId w p :
  find_project projectId w = Some p ->
  ProjectService.validateProject (Env.parseDate (World.env w)) p = Returns tt ->
  let progress :=
    computed_progress (ProjectService.count_completed (linked_todos projectId w))
                      (length (Project.todoIds p)) in
  let up := ProjectService.apply_patch p (ProjectPatch.of_progress progress)
              projectId (next_timestamp w) in
  exists w',
    ProjectService.updateProjectProgress projectId w = (Returns progress, w')
    /\ find_project projectId w' = Some up
    /\ (forall e, e <> "projects" -> e <> "projects_backup" -> stored e w' = stored e w)
    /\ World.env w' = World.env w
    /\ World.ticks w' = S (World.ticks w)
    /\ (forall e, backend w' e = backend w e).
Proof.
  intros Hf Hv progress up.
  destruct (find_project_index _ _ _ Hf) as (projects & index & Hs & Hi & Hc & Hid).
  assert (Hvu : forall x,
    ProjectService.validateProject (Env.parseDate (World.env w))
      (ProjectService.apply_patch p (ProjectPatch.of_progress x) projectId
         (next_timestamp w)) = Returns tt).
  { intros x. rewrite <- Hv. apply validateProject_fields; reflexivity. }
  unfold ProjectService.updateProjectProgress, try_catch, bind, throw, ret.
  rewrite getProjectById_run, Hf.
  unfold progress, computed_progress in *.
  destruct (length (Project.todoIds p) =? 0)%nat eqn:Hn.
  - destruct (updateProject_ok projectId (ProjectPatch.of_progress (num_of_Z 0)) w
                projects index p Hs Hi Hc (Hvu _)) as (Hu & _ & Hf' & Ho & He & Ht & Hb).
    rewrite Hu. eexists. repeat apply conj; try reflexivity; auto.
  - rewrite getTodosByProject_run.
    destruct (updateProject_ok projectId
                (ProjectPatch.of_progress
                   (ProjectService.percentage
                      (ProjectService.count_completed (linked_todos projectId w))
                      (length (Project.todoIds p)))) w
                projects index p Hs Hi Hc (Hvu _)) as (Hu & _ & Hf' & Ho & He & Ht & Hb).
    rewrite Hu. eexists. repeat apply conj; try reflexivity; auto.
Qed.

Lemma find_todo_index id w t :
  find_todo id w = Some t ->
  exists todos index,
    stored "todos" w = Returns (VTodos todos)
    /\ findIndex (fun todo => String.eqb (Todo.id todo) id) todos = Some index
    /\ todos !! index = Some t
    /\ Todo.id t = id.
Proof.
  unfold find_todo. destruct (stored "todos" w) as [[todos | | | | | | |]|] eqn:Hs;
    try discriminate.
  rewrite find_findIndex.
  destruct (findIndex _ todos) as [index|] eqn:Hi; [|discriminate].
  intros Hp. exists todos, index. repeat apply conj; auto.
  destruct (findIndex_Some _ _ _ Hi) as (x & Hx & Fx & _).
  rewrite Hx in Hp. injection Hp as <-. apply String.eqb_eq. exact Fx.
Qed.

(** What [updateTodo] does for a stored todo: it throws after reading the
    clock when the patched record does not validate, and otherwise
    persists the patched record and touches nothing else. *)
Lemma updateTodo_found id patch w t :
  find_todo id w = Some t ->
  let up := TodoService.apply_patch t patch (next_timestamp w) in
  match todo_valid w up with
  | Throws e => TodoService.updateTodo id patch w = (Throws e, tick w)
  | Returns _ =>
      exists w',
        TodoService.updateTodo id patch w = (Returns up, w')
        /\ find_todo id w' = Some up
        /\ (forall e, e <> "todos" -> e <> "todos_backup" -> stored e w' = stored e w)
        /\ World.env w' = World.env w
        /\ World.ticks w' = S (World.ticks w)
        /\ (forall e, backend w' e = backend w e)
  end.
Proof.
  intros Hf. cbv zeta.
  destruct (find_todo_index _ _ _ Hf) as (todos & index & Hs & Hi & Hc & Hid).
  set (up := TodoService.apply_patch t patch (next_timestamp w)).
  rewrite (updateTodo_run id patch w todos Hs), Hi, Hc. cbv zeta.
  unfold todo_valid. fold (next_timestamp w). fold up. fold (tick w).
  destruct (TodoService.validateTodo _ _ _ _) as [[]|e]; [|reflexivity].
  assert (Hb : backend (tick w) "todos" <> NoBackend).
  { rewrite backend_tick. apply (stored_nonempty_backend _ _ _ Hs).
    intros K. injection K as ->. discriminate. }
  destruct (stored_write_same "todos" (VTodos (<[index := up]> todos)) (tick w) Hb)
    as [Hw Hr].
  pose proof (write_preserves "todos" (VTodos (<[index := up]> todos)) (tick w))
    as (_ & _ & _ & He & Ht & _).
  rewrite Hw. eexists. repeat apply conj; [reflexivity| | |exact He|exact Ht|].
  - unfold find_todo. rewrite Hr, find_findIndex.
    rewrite (findIndex_insert _ _ _ up Hi) by (cbn; rewrite Hid; apply String.eqb_refl).
    apply list_lookup_insert_eq. eapply lookup_lt_Some; eauto.
  - intros e H1 H2. rewrite stored_write_other by assumption. apply stored_tick.
  - intros e. rewrite backend_write. apply backend_tick.
Qed.

Lemma updateProject_invalid id patch w p e :
  find_project id w = Some p ->
  project_valid w (ProjectService.apply_patch p patch id (next_timestamp w)) = Throws e ->
  ProjectService.updateProject id patch w = (Throws e, tick w).
Proof.
  intros Hf Hv.
  destruct (find_project_index _ _ _ Hf) as (projects & index & Hs & Hi & Hc & Hid).
  rewrite (updateProject_run id patch w projects Hs), Hi, Hc. cbv zeta.
  unfold project_valid in Hv. rewrite Hv. reflexivity.
Qed.

Lemma updateProjectProgress_invalid projectId w p e :
  find_project projectId w = Some p ->
  project_valid w p = Throws e ->
  ProjectService.updateProjectProgress projectId w = (Throws e, tick w).
Proof.
  intros Hf Hv.
  assert (Hvu : forall x,
    project_valid w (ProjectService.apply_patch p (ProjectPatch.of_progress x) projectId
                       (next_timestamp w)) = Throws e).
  { intros x. rewrite <- Hv. apply validateProject_fields; reflexivity. }
  unfold ProjectService.updateProjectProgress, try_catch, bind, throw, ret.
  rewrite getProjectById_run, Hf.
  destruct (length (Project.todoIds p) =? 0)%nat.
  - rewrite (updateProject_invalid _ _ _ _ _ Hf (Hvu _)). reflexivity.
  - rewrite getTodosByProject_run.
    rewrite (updateProject_invalid _ _ _ _ _ Hf (Hvu _)). reflexivity.
Qed.

Lemma find_project_frame id w w' :
  stored "projects" w' = stored "projects" w -> find_project id w' = find_project id w.
Proof. unfold find_project. intros ->. reflexivity. Qed.

Lemma find_todo_frame id w w' :
  stored "todos" w' = stored "todos" w -> find_todo id w' = find_todo id w.
Proof. unfold find_todo. intros ->. reflexivity. Qed.

(* ===================================================================== *)
(** * Arithmetic on times of day *)
(* ===================================================================== *)

Lemma number_eqb_eq a b : number_eqb a b = true -> a = b.
Proof.
  destruct a as [s|s| |s m e], b as [s'|s'| |s' m' e']; simpl; try discriminate;
    try reflexivity.
  - intros H. apply Bool.eqb_prop in H. congruence.
  - intros H. apply Bool.eqb_prop in H. congruence.
  - intros H. apply andb_prop in H as [H He]. apply andb_prop in H as [Hs Hm].
    apply Bool.eqb_prop in Hs. apply Pos.eqb_eq in Hm. apply Z.eqb_eq in He.
    congruence.
Qed.

Lemma all_times_spec f :
  all_times f = true -> forall h m, (h < 24)%nat -> (m < 60)%nat -> f h m = true.
Proof.
  unfold all_times. intros H h m Hh Hm.
  rewrite forallb_forall in H. specialize (H h).
  rewrite forallb_forall in H. apply H; apply in_seq; lia.
Qed.

Lemma check_parse_true : all_times parse_ok = true.
Proof. vm_compute. reflexivity. Qed.

Lemma check_compare_true :
  forallb (fun a => forallb (compare_ok a) minutes_table) minutes_table = true.
Proof. vm_compute. reflexivity. Qed.

Lemma hhmm_parts h m :
  (h < 24)%nat -> (m < 60)%nat ->
  length (split ":" (hhmm h m)) = 2%nat
  /\ str_truthy (hhmm h m) = true
  /\ minutes_of_parts (split ":" (hhmm h m)) = num_of_nat (60 * h + m)
  /\ num_add (num_mul (num_of_Z (Z.of_nat h)) (num_of_Z 60)) (num_of_Z (Z.of_nat m))
     = num_of_nat (60 * h + m).
Proof.
  intros Hh Hm.
  pose proof (all_times_spec parse_ok check_parse_true h m Hh Hm) as H.
  unfold parse_ok in H. cbv zeta in H.
  apply andb_prop in H as [H H4]. apply andb_prop in H as [H H3].
  apply andb_prop in H as [H1 H2].
  apply Nat.eqb_eq in H1. apply number_eqb_eq in H3. apply number_eqb_eq in H4.
  auto.
Qed.

Lemma minutes_table_In n :
  (n < 1440)%nat -> In (Z.of_nat n, num_of_nat n) minutes_table.
Proof.
  intros Hn. unfold minutes_table.
  apply (in_map (fun n => (Z.of_nat n, num_of_nat n))).
  apply in_seq. split; [apply Nat.le_0_l|exact Hn].
Qed.

Lemma num_le_minutes a b :
  (a < 1440)%nat -> (b < 1440)%nat ->
  num_le (num_of_nat a) (num_of_nat b) = (a <=? b)%nat.
Proof.
  intros Ha Hb. pose proof check_compare_true as H.
  rewrite forallb_forall in H. specialize (H _ (minutes_table_In a Ha)).
  rewrite forallb_forall in H. specialize (H _ (minutes_table_In b Hb)).
  unfold compare_ok in H. apply Bool.eqb_prop in H. cbn [fst snd] in H. rewrite H.
  destruct (Z.leb_spec (Z.of_nat a) (Z.of_nat b)); symmetry;
    [apply Nat.leb_le|apply Nat.leb_gt]; lia.
Qed.

(* ===================================================================== *)
(** * Linking a todo to a project *)
(* ===================================================================== *)

Lemma not_equal_strings (a b : string) : String.eqb a b = false -> a <> b.
Proof. apply String.eqb_neq. Qed.

(** Every path of [addTodoToProject]. [wa] is the state after the todo
    has been linked. *)
Lemma addTodoToProject_cases projectId todoId w :
  match find_project projectId w with
  | None =>
      ProjectService.addTodoToProject projectId todoId w
      = (Throws (ProjectService.not_found projectId), w)
  | Some p =>
      match find_todo todoId w with
      | None =>
          ProjectService.addTodoToProject projectId todoId w
          = (Throws (TodoService.not_found todoId), w)
      | Some t =>
          if includes (Project.todoIds p) todoId then
            ProjectService.addTodoToProject projectId todoId w = (Returns p, w)
          else
            match todo_valid w t with
            | Throws e =>
                ProjectService.addTodoToProject projectId todoId w = (Throws e, tick w)
            | Returns _ =>
                exists wa t',
                  find_todo todoId wa = Some t'
                  /\ todo_valid wa t' = Returns tt
                  /\ stored "projects" wa = stored "projects" w
                  /\ World.env wa = World.env w
                  /\ match project_valid w p with
                     | Throws e =>
                         ProjectService.addTodoToProject projectId todoId w
                         = (Throws e, tick wa)
                     | Returns _ =>
                         exists w' final,
                           ProjectService.addTodoToProject projectId todoId w
                           = (Returns final, w')
                           /\ find_project projectId w' = Some final
                           /\ stored "todos" w' = stored "todos" wa
                           /\ World.env w' = World.env w
                           /\ Project.todoIds final
                              = (Project.todoIds p ++ [todoId])%list
                           /\ Project.progress final
                              = computed_progress
                                  (ProjectService.count_completed
                                     (linked_todos projectId wa))
                                  (length (Project.todoIds p))
                     end
            end
      end
  end.
Proof.
  unfold ProjectService.addTodoToProject, try_catch, bind, throw, ret.
  rewrite getProjectById_run.
  destruct (find_project projectId w) as [p|] eqn:Hp; [|reflexivity].
  rewrite getTodoById_run.
  destruct (find_todo todoId w) as [t|] eqn:Ht; [|reflexivity].
  destruct (includes (Project.todoIds p) todoId) eqn:Hinc; [reflexivity|].
  pose proof (updateTodo_found todoId (ProjectService.link_patch (Some projectId)) w t Ht)
    as Hu. cbv zeta in Hu.
  change (todo_valid w (TodoService.apply_patch t
            (ProjectService.link_patch (Some projectId)) (next_timestamp w)))
    with (todo_valid w t) in Hu.
  destruct (todo_valid w t) as [[]|e] eqn:Hvt.
  2:{ rewrite Hu. reflexivity. }
  destruct Hu as (wa & Hu & Hfa & Hoa & Hea & Hta & Hba).
  rewrite Hu.
  assert (Hpa : stored "projects" wa = stored "projects" w)
    by (apply Hoa; apply not_equal_strings; reflexivity).
  exists wa, (TodoService.apply_patch t (ProjectService.link_patch (Some projectId))
                (next_timestamp w)).
  repeat apply conj; auto.
  { unfold todo_valid. rewrite Hea. exact Hvt. }
  assert (Hfp : find_project projectId wa = Some p)
    by (rewrite (find_project_frame _ _ _ Hpa); exact Hp).
  destruct (project_valid w p) as [[]|e] eqn:Hvp.
  2:{ assert (Hvp' : project_valid wa p = Throws e)
        by (unfold project_valid in *; rewrite Hea; exact Hvp).
      rewrite (updateProjectProgress_invalid _ _ _ _ Hfp Hvp'). reflexivity. }
  assert (Hvp' : ProjectService.validateProject (Env.parseDate (World.env wa)) p
                 = Returns tt)
    by (unfold project_valid in Hvp; rewrite Hea; exact Hvp).
  destruct (updateProjectProgress_ok projectId wa p Hfp Hvp')
    as (wb & Hub & Hfb & Hob & Heb & Htb & Hbb).
  rewrite Hub.
  destruct (find_project_index _ _ _ Hfb) as (projects & index & Hs & Hi & Hc & Hid).
  match type of Hfb with _ = Some ?x => set (pb := x) in * end.
  assert (Hvb : ProjectService.validateProject (Env.parseDate (World.env wb))
                  (ProjectService.apply_patch pb
                     (ProjectPatch.of_todoIds (Project.todoIds p ++ [todoId])%list)
                     projectId (next_timestamp wb)) = Returns tt).
  { rewrite Heb, <- Hvp'. apply validateProject_fields; reflexivity. }
  destruct (updateProject_ok projectId
              (ProjectPatch.of_todoIds (Project.todoIds p ++ [todoId])%list) wb
              projects index pb Hs Hi Hc Hvb) as (Huc & _ & Hfc & Hoc & Hec & _).
  rewrite Huc. eexists _, _. repeat apply conj; [reflexivity|exact Hfc| | |reflexivity..].
  - rewrite Hoc by (apply not_equal_strings; reflexivity).
    apply Hob; apply not_equal_strings; reflexivity.
  - rewrite Hec, Heb, Hea. reflexivity.
Qed.

Lemma lookup_insert_other {A} (l : list A) i j x :
  i <> j -> <[i := x]> l !! j = l !! j.
Proof. intros. apply list_lookup_insert_ne. assumption. Qed.

(** C10. [updateTodo] rewrites the collection in place: for a stored
    collection that holds the id, the collection persisted after the call
    has the same length, every todo with another id, and every position
    other than that of the first todo with the id, is as it was, and the
    record at that position keeps its [id] and [createdAt]; the call
    returns the patched record whenever that record validates, and leaves
    the collection as it was when it throws. *)
Theorem updateTodo_frame (w : World.t) (id : string) (patch : TodoPatch.t)
    (todos : list Todo.t) :
  stored "todos" w = Returns (VTodos todos) ->
  (exists t, In t todos /\ Todo.id t = id) ->
  exists (r : Outcome Todo.t) (w' : World.t) (todos' : list Todo.t)
         (index : nat) (current : Todo.t),
    TodoService.updateTodo id patch w = (r, w')
    /\ stored "todos" w' = Returns (VTodos todos')
    /\ length todos' = length todos
    /\ todos !! index = Some current
    /\ Todo.id current = id
    /\ (forall i t, todos !! i = Some t -> Todo.id t <> id -> todos' !! i = Some t)
    /\ (forall i, i <> index -> todos' !! i = todos !! i)
    /\ (exists kept, todos' !! index = Some kept
                     /\ Todo.id kept = Todo.id current
                     /\ Todo.createdAt kept = Todo.createdAt current)
    /\ (forall updated, r = Returns updated ->
          todos' !! index = Some updated
          /\ updated = TodoService.apply_patch current patch (next_timestamp w))
    /\ (forall e, r = Throws e -> todos' = todos)
    /\ (todo_valid w (TodoService.apply_patch current patch (next_timestamp w))
        = Returns tt ->
        r = Returns (TodoService.apply_patch current patch (next_timestamp w))).
Proof.
  intros Hs (t & Ht & Hid).
  destruct (findIndex_exists (fun todo => String.eqb (Todo.id todo) id) todos t Ht)
    as [index Hi]; [rewrite Hid; apply String.eqb_refl|].
  destruct (findIndex_Some _ _ _ Hi) as (current & Hc & Fc & _).
  apply String.eqb_eq in Fc.
  assert (Hb : backend w "todos" <> NoBackend).
  { apply (stored_nonempty_backend _ _ _ Hs). intros K. injection K as ->. destruct Ht. }
  rewrite (updateTodo_run id patch w todos Hs), Hi, Hc. cbn zeta.
  set (up := TodoService.apply_patch current patch _).
  set (wt := World.set_ticks _ w).
  assert (Hlt : (index < length todos)%nat) by (eapply lookup_lt_Some; eauto).
  destruct (TodoService.validateTodo _ _ _ _) as [[]|e] eqn:Hv.
  - assert (Hbt : backend wt "todos" <> NoBackend) by exact Hb.
    destruct (stored_write_same "todos" (VTodos (<[index := up]> todos)) wt Hbt) as [Hw Hr].
    rewrite Hw.
    exists (Returns up), (snd (StorageService.write "todos" (VTodos (<[index:=up]> todos)) wt)),
      (<[index := up]> todos), index, current.
    repeat apply conj; auto.
    + apply length_insert.
    + intros i x Hx Hne. rewrite lookup_insert_other; auto. congruence.
    + intros i Hne. apply lookup_insert_other. auto.
    + exists up. split; [apply list_lookup_insert_eq; exact Hlt|]. split; reflexivity.
    + intros updated K. injection K as <-. split; [|reflexivity].
      apply list_lookup_insert_eq. exact Hlt.
    + intros e K. discriminate.
  - exists (Throws e), wt, todos, index, current.
    repeat apply conj; auto.
    + exists current. auto.
    + intros updated K. discriminate.
    + unfold todo_valid, next_timestamp. fold up. rewrite Hv. discriminate.
Qed.

(** C4, as the claim states it, fails for notes: deleting a note that does
    not exist throws the generic error "Failed to delete note", which is
    not a not-found error for that id. *)
Lemma deleteNote_missing_not_a_not_found_error :
  fst (NotesService.deleteNote "n1" empty_world)
    = Throws (Error "Failed to delete note")
  /\ ~ (exists kind, Error "Failed to delete note" = not_found_error kind "n1").
Proof.
  split; [vm_compute; reflexivity|].
  intros [kind H]. unfold not_found_error in H. injection H as H.
  assert (L := f_equal String.length H).
  rewrite string_length_append in L. simpl in L.
  destruct kind as [|c kind]; simpl in *; [discriminate|lia].
Qed.

(** C4 (amended). Deleting an id that the stored collection does not hold
    throws and leaves the state exactly as it was, so nothing is written:
    [deleteTodo] and [deleteProject] throw the not-found error,
    [deleteNote] and [deleteNotification] the generic error that their
    handler puts in its place. *)
Theorem delete_missing_id (w : World.t) (id : string) :
  (forall todos, stored "todos" w = Returns (VTodos todos) ->
     ~ (exists t, In t todos /\ Todo.id t = id) ->
     TodoService.deleteTodo id w = (Throws (not_found_error "Todo" id), w))
  /\ (forall projects, stored "projects" w = Returns (VProjects projects) ->
     ~ (exists p, In p projects /\ Project.id p = id) ->
     ProjectService.deleteProject id w = (Throws (not_found_error "Project" id), w))
  /\ (forall notes, stored "notes" w = Returns (VNotes notes) ->
     ~ (exists n, In n notes /\ Note.id n = id) ->
     NotesService.deleteNote id w = (Throws (Error "Failed to delete note"), w))
  /\ (forall notifications,
     stored "notifications" w = Returns (VNotifications notifications) ->
     ~ (exists n, In n notifications /\ NotificationData.id n = id) ->
     NotificationService.deleteNotification id w
       = (Throws (Error "Failed to delete notification"), w)).
Proof.
  repeat apply conj.
  - intros todos Hs Hn.
    unfold TodoService.deleteTodo, try_catch, bind, lift, throw.
    rewrite getTodos_run, Hs. cbn [as_todos].
    rewrite (filter_absent Todo.id id todos Hn), Nat.eqb_refl. reflexivity.
  - intros projects Hs Hn.
    unfold ProjectService.deleteProject, try_catch, bind, lift, throw.
    rewrite getProjects_run, Hs. cbn [as_projects].
    rewrite (filter_absent Project.id id projects Hn), Nat.eqb_refl. reflexivity.
  - intros notes Hs Hn.
    unfold NotesService.deleteNote, try_catch, bind, lift, throw.
    rewrite getNotes_run, Hs. cbn [as_notes].
    rewrite (filter_absent Note.id id notes Hn), Nat.eqb_refl. reflexivity.
  - intros notifications Hs Hn.
    unfold NotificationService.deleteNotification, try_catch, bind, lift, throw.
    rewrite getNotifications_run, Hs. cbn [as_notifications].
    rewrite (filter_absent NotificationData.id id notifications Hn), Nat.eqb_refl.
    reflexivity.
Qed.



Lemma isInQuietHours_two_parts now s e :
  str_truthy s = true -> str_truthy e = true ->
  length (split ":" s) = 2%nat -> length (split ":" e) = 2%nat ->
  NotificationService.isInQuietHours now (quiet (Some s) (Some e)) =
    let nowMinutes :=
      num_add (num_mul (num_of_Z (NotificationService.getHours now)) (num_of_Z 60))
              (num_of_Z (NotificationService.getMinutes now)) in
    let startMinutes := minutes_of_parts (split ":" s) in
    let endMinutes := minutes_of_parts (split ":" e) in
    if num_le startMinutes endMinutes
    then num_ge nowMinutes startMinutes && num_le nowMinutes endMinutes
    else num_ge nowMinutes startMinutes || num_le nowMinutes endMinutes.
Proof.
  intros Hs He Ls Le. unfold NotificationService.isInQuietHours, quiet.
  cbn [NotificationPreference.quietHoursStart NotificationPreference.quietHoursEnd].
  rewrite Hs, He, Ls, Le. reflexivity.
Qed.

(** C6, as the claim states it, fails on a malformed start: "ab:cd" has
    two parts, none of them a number, and with the end "06:00" a check at
    03:00 is in quiet hours. *)
Lemma isInQuietHours_malformed_start :
  NotificationService.isInQuietHours (at_time 3 0)
    (quiet (Some "ab:cd") (Some "06:00")) = true.
Proof. vm_compute. reflexivity. Qed.

(** C6 (amended). For a start and an end of the form HH:MM,
    [isInQuietHours] is containment of the current minute of the day in
    the interval between them, ends included, where a start after the end
    is an interval that spans midnight; from 22:00 to 06:00 the checks at
    23:30 and at 03:00 are in quiet hours and the check at 12:00 is not;
    a start or an end that is missing, empty, or not made of exactly two
    parts around one colon, gives "not in quiet hours". *)
Theorem isInQuietHours_spec :
  (forall sh sm eh em nh nm : nat,
     (sh < 24)%nat -> (sm < 60)%nat -> (eh < 24)%nat -> (em < 60)%nat ->
     (nh < 24)%nat -> (nm < 60)%nat ->
     NotificationService.isInQuietHours (at_time nh nm)
       (quiet (Some (hhmm sh sm)) (Some (hhmm eh em)))
     = in_quiet_interval (60 * sh + sm) (60 * eh + em) (60 * nh + nm))
  /\ (NotificationService.isInQuietHours (at_time 23 30)
        (quiet (Some "22:00") (Some "06:00")) = true
      /\ NotificationService.isInQuietHours (at_time 3 0)
           (quiet (Some "22:00") (Some "06:00")) = true
      /\ NotificationService.isInQuietHours (at_time 12 0)
           (quiet (Some "22:00") (Some "06:00")) = false)
  /\ (forall now p,
        opt_truthy (NotificationPreference.quietHoursStart p) = false
        \/ opt_truthy (NotificationPreference.quietHoursEnd p) = false ->
        NotificationService.isInQuietHours now p = false)
  /\ (forall now p s e,
        NotificationPreference.quietHoursStart p = Some s ->
        NotificationPreference.quietHoursEnd p = Some e ->
        length (split ":" s) <> 2%nat \/ length (split ":" e) <> 2%nat ->
        NotificationService.isInQuietHours now p = false).
Proof.
  repeat apply conj.
  - intros sh sm eh em nh nm Hsh Hsm Heh Hem Hnh Hnm.
    destruct (hhmm_parts sh sm Hsh Hsm) as (Ls & Ts & Ms & _).
    destruct (hhmm_parts eh em Heh Hem) as (Le & Te & Me & _).
    destruct (hhmm_parts nh nm Hnh Hnm) as (_ & _ & _ & Mn).
    rewrite (isInQuietHours_two_parts _ _ _ Ts Te Ls Le). cbv zeta.
    unfold at_time. cbn [NotificationService.getHours NotificationService.getMinutes].
    rewrite Ms, Me, Mn. unfold num_ge, in_quiet_interval.
    rewrite !num_le_minutes by lia. reflexivity.
  - vm_compute. reflexivity.
  - vm_compute. reflexivity.
  - vm_compute. reflexivity.
  - intros now p H. unfold NotificationService.isInQuietHours.
    destruct (NotificationPreference.quietHoursStart p) as [s|];
      destruct (NotificationPreference.quietHoursEnd p) as [e|]; try reflexivity.
    simpl in H. destruct H as [H|H]; rewrite H; [reflexivity|].
    destruct (str_truthy s); reflexivity.
  - intros now p s e Hs He H. unfold NotificationService.isInQuietHours.
    rewrite Hs, He.
    destruct (negb (str_truthy s) || negb (str_truthy e)); [reflexivity|].
    destruct H as [H|H]; apply Nat.eqb_neq in H; rewrite H; [reflexivity|].
    destruct (negb (length (split ":" s) =? 2)%nat); reflexivity.
Qed.

Lemma percentage_exact_below_40 :
  forallb percentage_exact (seq 1 39) = true.
Proof. vm_compute. reflexivity. Qed.

(** Below 40 entries the rounding of binary64 is the exact one, for up to
    200 completed todos. *)
Lemma rounding_exact_below_40 :
  forallb (rounding_exact 200) (seq 1 39) = true.
Proof. vm_compute. reflexivity. Qed.

(** The code counts what [completed_linked] counts. *)
Lemma count_completed_linked_filter projectId (l : list Todo.t) :
  ProjectService.count_completed
    (List.filter (fun t => match Todo.projectId t with
                           | Some p => String.eqb p projectId
                           | None => false
                           end) l)
  = count_completed_linked projectId l.
Proof.
  unfold ProjectService.count_completed.
  induction l as [|t r IH]; [reflexivity|].
  cbn [List.filter count_completed_linked].
  destruct (Todo.projectId t) as [p|]; [|exact IH].
  destruct (String.eqb p projectId); [|destruct (Todo.status t); exact IH].
  cbn [List.filter]. destruct (Todo.status t); cbn; rewrite ?IH; reflexivity.
Qed.

Lemma count_completed_linked_todos projectId w :
  ProjectService.count_completed (linked_todos projectId w)
  = completed_linked projectId w.
Proof.
  unfold linked_todos, completed_linked.
  destruct (stored "todos" w) as [[]|]; try reflexivity.
  apply count_completed_linked_filter.
Qed.

Lemma computed_progress_rounded completed total :
  computed_progress completed total = rounded_percentage completed total.
Proof. reflexivity. Qed.

(** C3, as the claim states it, fails on a tie that binary64 does not
    keep: with 40 todos of which 23 are completed, 23 / 40 * 100 is
    57.49999999999999 and the progress is 57, where round(100 * 23 / 40)
    is 58 (with ties upwards and with ties to even). *)
Lemma updateProjectProgress_23_of_40 :
  fst (ProjectService.updateProjectProgress "p1" (project_world 40 23))
    = Returns (num_of_Z 57)
  /\ length (linked_todos "p1" (project_world 40 23)) = 40%nat
  /\ ProjectService.count_completed (linked_todos "p1" (project_world 40 23)) = 23%nat
  /\ completed_linked "p1" (project_world 40 23) = 23%nat
  /\ rounded_percentage 23 40 = num_of_Z 57
  /\ exact_percentage 23 40 = 58
  /\ exact_percentage_even 23 40 = 58
  /\ num_of_Z 57 <> num_of_Z 58.
Proof.
  repeat apply conj; try (vm_compute; reflexivity).
  vm_compute. discriminate.
Qed.

(** C3 (amended). For a stored project that passes validation,
    [updateProjectProgress] counts the completed todos among those whose
    [projectId] is the project (whether or not [todoIds] lists them),
    divides by the length of [todoIds], multiplies by 100 and rounds, all
    in binary64, and persists and returns that number.  With an empty
    [todoIds] the progress is 0; with four entries and one completed todo
    it is 25; with one entry and three completed todos it is 300; and
    with fewer than 40 entries and at most 200 completed todos it is the
    exactly rounded percentage. *)
Theorem updateProjectProgress_spec (w : World.t) (projectId : string) (p : Project.t) :
  find_project projectId w = Some p ->
  ProjectService.validateProject (Env.parseDate (World.env w)) p = Returns tt ->
  let completed := completed_linked projectId w in
  let total := length (Project.todoIds p) in
  let progress := rounded_percentage completed total in
  (exists w' p',
     ProjectService.updateProjectProgress projectId w = (Returns progress, w')
     /\ find_project projectId w' = Some p'
     /\ Project.progress p' = progress
     /\ Project.todoIds p' = Project.todoIds p
     /\ Project.id p' = projectId)
  /\ (total = 0%nat -> progress = num_of_Z 0)
  /\ ((0 < total)%nat ->
      progress = Math_round (num_mul (num_div (num_of_nat completed) (num_of_nat total))
                                     (num_of_Z 100)))
  /\ (total = 4%nat -> completed = 1%nat -> progress = num_of_Z 25)
  /\ (total = 1%nat -> completed = 3%nat -> progress = num_of_Z 300)
  /\ ((0 < total < 40)%nat -> (completed <= 200)%nat ->
      progress = num_of_Z (exact_percentage completed total)).
Proof.
  intros Hf Hv completed total progress.
  repeat apply conj.
  - destruct (updateProjectProgress_ok projectId w p Hf Hv) as (w' & Hu & Hf' & _).
    rewrite count_completed_linked_todos, computed_progress_rounded in Hu, Hf'.
    eexists w', _. repeat apply conj; [exact Hu|exact Hf'|reflexivity..].
  - intros H. unfold progress, rounded_percentage. rewrite H. reflexivity.
  - intros H. unfold progress, rounded_percentage.
    destruct total; [lia|reflexivity].
  - intros H1 H2. unfold progress. rewrite H1, H2. vm_compute. reflexivity.
  - intros H1 H2. unfold progress. rewrite H1, H2. vm_compute. reflexivity.
  - intros Ht Hc. unfold progress.
    pose proof rounding_exact_below_40 as H. rewrite forallb_forall in H.
    specialize (H total ltac:(apply in_seq; lia)). unfold rounding_exact in H.
    rewrite forallb_forall in H. specialize (H completed ltac:(apply in_seq; lia)).
    apply number_eqb_eq in H. exact H.
Qed.

Lemma includes_occurrences l id :
  includes l id = negb (occurrences id l =? 0)%nat.
Proof.
  unfold includes, occurrences. induction l as [|a l IH]; simpl; [reflexivity|].
  destruct (String.string_dec a id) as [->|Hne].
  - rewrite String.eqb_refl. reflexivity.
  - rewrite IH. destruct (String.eqb_spec id a); [congruence|reflexivity].
Qed.

Lemma occurrences_app id l l' :
  occurrences id (l ++ l')%list = (occurrences id l + occurrences id l')%nat.
Proof. apply count_occ_app. Qed.

Lemma membership_frame projectId w w' :
  stored "projects" w' = stored "projects" w ->
  membership projectId w' = membership projectId w.
Proof. unfold membership. intros H. rewrite (find_project_frame _ _ _ H). reflexivity. Qed.

(** C8, as the claim states it, fails where the stored project already
    lists the todo twice: both calls return the project as it is, and the
    todo is still there twice. *)
Lemma addTodoToProject_keeps_duplicates :
  let first := ProjectService.addTodoToProject "p1" "t1" duplicated_world in
  let second := ProjectService.addTodoToProject "p1" "t1" (snd first) in
  membership "p1" (snd second) = Some (["t1"; "t1"], num_of_Z 0)
  /\ membership "p1" (snd first) = Some (["t1"; "t1"], num_of_Z 0)
  /\ occurrences "t1" ["t1"; "t1"] = 2%nat.
Proof. vm_compute. auto. Qed.

(** C8 (amended). A second call of [addTodoToProject] with the same
    arguments leaves [todoIds] and [progress] of the stored project as the
    first call left them; when the first call returns, the second returns
    the same project and changes nothing, the todo is in [todoIds], and
    the call has added it only if it was not there: it occurs once if it
    did not occur before, and as often as before otherwise. *)
Theorem addTodoToProject_idempotent (w : World.t) (projectId todoId : string) :
  let first := ProjectService.addTodoToProject projectId todoId w in
  let second := ProjectService.addTodoToProject projectId todoId (snd first) in
  membership projectId (snd second) = membership projectId (snd first)
  /\ (forall p1, fst first = Returns p1 ->
        second = (Returns p1, snd first)
        /\ find_project projectId (snd first) = Some p1
        /\ includes (Project.todoIds p1) todoId = true
        /\ forall p0, find_project projectId w = Some p0 ->
             occurrences todoId (Project.todoIds p1)
             = Nat.max 1 (occurrences todoId (Project.todoIds p0))).
Proof.
  cbv zeta.
  pose proof (addTodoToProject_cases projectId todoId w) as C.
  destruct (find_project projectId w) as [p|] eqn:Hp.
  2:{ rewrite C. cbn [fst snd]. rewrite C. split; [reflexivity|discriminate]. }
  destruct (find_todo todoId w) as [t|] eqn:Ht.
  2:{ rewrite C. cbn [fst snd]. rewrite C. split; [reflexivity|discriminate]. }
  destruct (includes (Project.todoIds p) todoId) eqn:Hinc.
  { rewrite C. cbn [fst snd]. rewrite C. split; [reflexivity|].
    intros p1 K. injection K as <-. repeat apply conj; auto.
    intros p0 K. injection K as <-.
    rewrite includes_occurrences in Hinc.
    destruct (occurrences todoId (Project.todoIds p)); [discriminate|lia]. }
  destruct (todo_valid w t) as [[]|e] eqn:Hvt.
  2:{ rewrite C. cbn [fst snd].
      pose proof (addTodoToProject_cases projectId todoId (tick w)) as C2.
      change (find_project projectId (tick w)) with (find_project projectId w) in C2.
      change (find_todo todoId (tick w)) with (find_todo todoId w) in C2.
      rewrite Hp, Ht, Hinc in C2.
      change (todo_valid (tick w) t) with (todo_valid w t) in C2.
      rewrite Hvt in C2. rewrite C2.
      split; [reflexivity|discriminate]. }
  destruct C as (wa & t' & Hfa & Hva & Hpa & Hea & C).
  destruct (project_valid w p) as [[]|e] eqn:Hvp.
  - destruct C as (w' & final & Hadd & Hf' & Hst & He' & Hids & Hprog).
    rewrite Hadd. cbn [fst snd].
    pose proof (addTodoToProject_cases projectId todoId w') as C2.
    rewrite Hf', (find_todo_frame _ _ _ Hst), Hfa in C2.
    assert (Hin : includes (Project.todoIds final) todoId = true).
    { rewrite includes_occurrences, Hids, occurrences_app. unfold occurrences at 2.
      simpl. destruct (String.string_dec todoId todoId); [|congruence].
      destruct (occurrences todoId (Project.todoIds p) + 1)%nat eqn:K; [lia|reflexivity]. }
    rewrite Hin in C2. rewrite C2. split; [reflexivity|].
    intros p1 K. injection K as <-. repeat apply conj; auto.
    intros p0 K. injection K as <-.
    rewrite includes_occurrences in Hinc.
    rewrite Hids, occurrences_app. unfold occurrences at 2. simpl.
    destruct (String.string_dec todoId todoId); [|congruence].
    destruct (occurrences todoId (Project.todoIds p)); [reflexivity|discriminate].
  - rewrite C. cbn [fst snd]. split; [|discriminate].
    pose proof (addTodoToProject_cases projectId todoId (tick wa)) as C2.
    change (find_project projectId (tick wa)) with (find_project projectId wa) in C2.
    change (find_todo todoId (tick wa)) with (find_todo todoId wa) in C2.
    rewrite (find_project_frame _ _ _ Hpa), Hp, Hfa, Hinc in C2.
    change (todo_valid (tick wa) t') with (todo_valid wa t') in C2.
    rewrite Hva in C2.
    destruct C2 as (wa2 & t2 & _ & _ & Hpa2 & Hea2 & C2).
    assert (Hvp2 : project_valid (tick wa) p = Throws e)
      by (unfold project_valid in *; cbn; rewrite Hea; exact Hvp).
    rewrite Hvp2 in C2. rewrite C2. cbn [snd].
    apply membership_frame. exact Hpa2.
Qed.

(** C1, on the code: [addTodoToProject] and [removeTodoFromProject]
    recompute the progress before they store the new [todoIds], with the
    length of the old list.  Adding the completed todo "t1" to the empty
    project "p1" persists [todoIds = ["t1"]] with progress 0, where the
    invariant asks for 100; removing the pending todo "t2" from a project
    of two todos, one completed, persists [todoIds = ["t1"]] with progress
    50, where the invariant asks for 100.  In both states the invariant
    holds before the call. *)
Theorem membership_change_leaves_stale_progress :
  (let w := unlinked_world in
   let w' := snd (ProjectService.addTodoToProject "p1" "t1" w) in
   (forall p, find_project "p1" w = Some p -> progress_invariant w p)
   /\ returned (fst (ProjectService.addTodoToProject "p1" "t1" w)) = true
   /\ membership "p1" w' = Some (["t1"], num_of_Z 0)
   /\ ProjectService.count_completed (linked_todos "p1" w') = 1%nat
   /\ computed_progress 1 1 = num_of_Z 100
   /\ (forall p, find_project "p1" w' = Some p -> ~ progress_invariant w' p))
  /\
  (let w := half_done_world in
   let w' := snd (ProjectService.removeTodoFromProject "p1" "t2" w) in
   (forall p, find_project "p1" w = Some p -> progress_invariant w p)
   /\ returned (fst (ProjectService.removeTodoFromProject "p1" "t2" w)) = true
   /\ membership "p1" w' = Some (["t1"], num_of_Z 50)
   /\ ProjectService.count_completed (linked_todos "p1" w') = 1%nat
   /\ computed_progress 1 1 = num_of_Z 100
   /\ (forall p, find_project "p1" w' = Some p -> ~ progress_invariant w' p)).
Proof.
  split; cbv zeta; repeat apply conj.
  - intros p Hp. vm_compute in Hp. injection Hp as <-. vm_compute. reflexivity.
  - vm_compute. reflexivity.
  - vm_compute. reflexivity.
  - vm_compute. reflexivity.
  - vm_compute. reflexivity.
  - intros p Hp. vm_compute in Hp. injection Hp as <-. intros H. vm_compute in H.
    discriminate.
  - intros p Hp. vm_compute in Hp. injection Hp as <-. vm_compute. reflexivity.
  - vm_compute. reflexivity.
  - vm_compute. reflexivity.
  - vm_compute. reflexivity.
  - vm_compute. reflexivity.
  - intros p Hp. vm_compute in Hp. injection Hp as <-. intros H. vm_compute in H.
    discriminate.
Qed.

(** A version history that has never been written is answered by the
    plain object [{}]. *)
Lemma stored_missing_versions (w : World.t) (noteId : string) :
  World.files w !! NotesService.versions_entity noteId = None ->
  World.localStorage w !! ("taskflow_data_" ++ NotesService.versions_entity noteId)
    = None ->
  stored (NotesService.versions_entity noteId) w = Returns empty_object.
Proof.
  intros Hf Hl. rewrite stored_backend. unfold server_value, local_value.
  rewrite Hf, Hl, empty_versions. destruct (backend w _); reflexivity.
Qed.

(** C2, on the code: for the version history of a note that has never
    been written (no file on the server, no key in localStorage), [read]
    resolves to the plain object [{}], the catch-all branch of
    [getEmptyDataByEntityType], and not to an empty list; spreading it, as
    [createNoteVersion] does, throws. *)
Theorem read_missing_version_history (w : World.t) (noteId : string) :
  World.files w !! NotesService.versions_entity noteId = None ->
  World.localStorage w !! ("taskflow_data_" ++ NotesService.versions_entity noteId)
    = None ->
  StorageService.read (NotesService.versions_entity noteId) w
    = (Returns empty_object, w)
  /\ is_array empty_object = false
  /\ as_versions empty_object = Throws not_an_array.
Proof.
  intros Hf Hl. repeat apply conj; try reflexivity.
  rewrite read_eq, (stored_missing_versions w noteId Hf Hl). reflexivity.
Qed.

Lemma getNoteVersions_run noteId w :
  NotesService.getNoteVersions noteId w
  = (stored (NotesService.versions_entity noteId) w, w).
Proof.
  unfold NotesService.getNoteVersions, try_catch.
  rewrite read_eq, stored_backend. reflexivity.
Qed.

(** C5, on the code: for a stored note whose version history has never
    been written, [updateNote] throws "Failed to update note" and persists
    nothing: neither a snapshot nor the note.  [read] gives [{}] for the
    missing history (C2) and [createNoteVersion] cannot spread it. *)
Theorem updateNote_fails_without_history (w : World.t) (id : string)
    (note : NotePatch.t) (notes : list Note.t) :
  stored "notes" w = Returns (VNotes notes) ->
  (exists n, In n notes /\ Note.id n = id) ->
  World.files w !! NotesService.versions_entity id = None ->
  World.localStorage w !! ("taskflow_data_" ++ NotesService.versions_entity id) = None ->
  exists w',
    NotesService.updateNote id note w = (Throws (Error "Failed to update note"), w')
    /\ same_storage w w'
    /\ stored "notes" w' = Returns (VNotes notes)
    /\ stored (NotesService.versions_entity id) w' = Returns empty_object.
Proof.
  intros Hs (n & Hn & Hid) Hf Hl.
  destruct (findIndex_exists (fun x => String.eqb (Note.id x) id) notes n Hn)
    as [index Hi]; [rewrite Hid; apply String.eqb_refl|].
  destruct (findIndex_Some _ _ _ Hi) as (current & Hc & _).
  pose proof (stored_missing_versions w id Hf Hl) as Hr.
  unfold NotesService.updateNote, try_catch, bind, lift, throw, ret.
  rewrite getNotes_run, Hs. cbn [as_notes]. rewrite Hi, Hc.
  unfold now, NotesService.createNoteVersion, try_catch, bind, lift, throw, ret, uuidv4.
  rewrite getNoteVersions_run.
  change (stored (NotesService.versions_entity id)
            (World.set_ticks (S (World.ticks w)) w))
    with (stored (NotesService.versions_entity id) w).
  rewrite Hr. cbn [as_versions empty_object].
  eexists. split; [reflexivity|].
  repeat apply conj; try reflexivity; assumption.
Qed.


Lemma versions_not_notes id :
  "notes" <> NotesService.versions_entity id
  /\ "notes" <> NotesService.versions_entity id ++ "_backup"
  /\ NotesService.versions_entity id <> "notes"
  /\ NotesService.versions_entity id <> "notes_backup".
Proof. repeat apply conj; cbn; discriminate. Qed.

Lemma increments_exact_1000 : forallb increment_ok (seq 1 1000) = true.
Proof. vm_compute. reflexivity. Qed.

(** The version that [updateNote] stores is the stored version plus one,
    for the versions up to 1000, and 2 for a note without a version. *)
Lemma next_version (current : Note.t) :
  (forall k, (1 <= k <= 1000)%nat ->
     Note.version current = Some (num_of_nat k) ->
     num_add (NotesService.currentVersion current) (num_of_Z 1) = num_of_nat (S k))
  /\ (Note.version current = None ->
      num_add (NotesService.currentVersion current) (num_of_Z 1) = num_of_nat 2).
Proof.
  split.
  - intros k Hk Hv. unfold NotesService.currentVersion. rewrite Hv.
    pose proof increments_exact_1000 as H.
    rewrite forallb_forall in H. specialize (H k ltac:(apply in_seq; lia)).
    unfold increment_ok in H. apply andb_prop in H as [Ht He]. rewrite Ht. apply number_eqb_eq. exact He.
  - intros Hv. unfold NotesService.currentVersion. rewrite Hv. vm_compute. reflexivity.
Qed.

(** What is right in C5: when the version history of the note is a stored
    list (and can be written), [updateNote] appends the snapshot of the
    content and of the prior [lastEditedAt] to it and then persists the
    patched note with the next version number. *)
Lemma updateNote_with_history (w : World.t) (id : string) (note : NotePatch.t)
    (notes : list Note.t) (index : nat) (current : Note.t)
    (versions : list NoteVersion.t) :
  stored "notes" w = Returns (VNotes notes) ->
  findIndex (fun n => String.eqb (Note.id n) id) notes = Some index ->
  notes !! index = Some current ->
  stored (NotesService.versions_entity id) w = Returns (VNoteVersions versions) ->
  backend w (NotesService.versions_entity id) <> NoBackend ->
  let updated :=
    NotesService.apply_patch current note (next_timestamp w)
      (num_add (NotesService.currentVersion current) (num_of_Z 1)) in
  let snapshot :=
    NoteVersion.mk (Env.uuidv4 (World.env w) (World.uuids w)) id
      (Note.content current) (NotesService.snapshot_timestamp current) None in
  exists w',
    NotesService.updateNote id note w = (Returns updated, w')
    /\ stored (NotesService.versions_entity id) w'
       = Returns (VNoteVersions (versions ++ [snapshot])%list)
    /\ stored "notes" w' = Returns (VNotes (<[index := updated]> notes))
    /\ Note.version updated
       = Some (num_add (NotesService.currentVersion current) (num_of_Z 1)).
Proof.
  intros Hs Hi Hc Hv Hbv. cbv zeta.
  assert (Hbn : backend w "notes" <> NoBackend).
  { apply (stored_nonempty_backend _ _ _ Hs). intros K. injection K as ->. discriminate. }
  destruct (versions_not_notes id) as (N1 & N2 & N3 & N4).
  unfold NotesService.updateNote.
  cbv [try_catch bind lift throw ret now].
  rewrite getNotes_run, Hs. cbv beta iota zeta. cbn [as_notes]. rewrite Hi, Hc.
  unfold NotesService.createNoteVersion.
  cbv [try_catch bind lift throw ret uuidv4].
  rewrite getNoteVersions_run.
  change (stored (NotesService.versions_entity id)
            (World.set_ticks (S (World.ticks w)) w))
    with (stored (NotesService.versions_entity id) w).
  rewrite Hv. cbv beta iota zeta. cbn [as_versions].
  match goal with
  | |- context [StorageService.write (NotesService.versions_entity id) ?v ?x] =>
      destruct (stored_write_same (NotesService.versions_entity id) v x Hbv)
        as [Hw1 Hr1];
      pose proof (stored_write_other (NotesService.versions_entity id) "notes" v x N1 N2)
        as Ho1;
      pose proof (backend_write (NotesService.versions_entity id) "notes" v x) as Hb1;
      rewrite Hw1; set (w1 := snd (StorageService.write _ v x)) in *
  end.
  cbv beta iota zeta.
  assert (Hbn1 : backend w1 "notes" <> NoBackend) by (rewrite Hb1; exact Hbn).
  match goal with
  | |- context [StorageService.write "notes" ?v w1] =>
      destruct (stored_write_same "notes" v w1 Hbn1) as [Hw2 Hr2];
      pose proof (stored_write_other "notes" (NotesService.versions_entity id) v w1 N3 N4)
        as Ho2;
      rewrite Hw2
  end.
  eexists. repeat apply conj; [reflexivity| |exact Hr2|reflexivity].
  rewrite Ho2. exact Hr1.
Qed.

(** The record that [createTodo] returns: its timestamps are two
    successive readings of the clock, its id the next identifier. *)
Lemma createTodo_fields (w w' : World.t) (todoData : TodoData.t) (t : Todo.t) :
  TodoService.createTodo todoData w = (Returns t, w') ->
  Todo.createdAt t = Env.clock (World.env w) (World.ticks w)
  /\ Todo.updatedAt t = Env.clock (World.env w) (S (World.ticks w))
  /\ Todo.id t = Env.generateId (World.env w) (World.generated w).
Proof.
  unfold TodoService.createTodo.
  cbv [try_catch bind lift throw ret TodoService.validate gets generateId now].
  destruct (TodoService.validateTodo (Env.parseDate (World.env w))
              (TodoData.title todoData) (TodoData.description todoData)
              (TodoData.dueDate todoData)); cbv beta iota zeta; [|discriminate].
  rewrite getTodos_run.
  destruct (stored "todos" w) as [v|]; cbv beta iota zeta; [|discriminate].
  destruct (as_todos v) as [todos|]; cbv beta iota zeta; [|discriminate].
  destruct (StorageService.write _ _ _) as [[|] ?]; [|discriminate].
  intros K. injection K as <- _. repeat apply conj; reflexivity.
Qed.

(** The sibling path: [createNote] reads the clock once and uses the
    reading for [createdAt], [updatedAt] and [lastEditedAt]. *)
Lemma createNote_one_timestamp (w w' : World.t) (note : NoteData.t) (n : Note.t) :
  NotesService.createNote note w = (Returns n, w') ->
  Note.createdAt n = Note.updatedAt n /\ Note.updatedAt n = Note.lastEditedAt n.
Proof.
  unfold NotesService.createNote.
  cbv [try_catch bind lift throw ret uuidv4 now].
  rewrite getNotes_run.
  destruct (stored "notes" w) as [v|]; cbv beta iota zeta; [|discriminate].
  destruct (as_notes v) as [notes|]; cbv beta iota zeta; [|discriminate].
  destruct (StorageService.write _ _ _) as [[|] ?]; [|discriminate].
  intros K. injection K as <- _. split; reflexivity.
Qed.


(** What is right in C9: on the client the created record is appended to
    the stored collection, and its id differs from the ids in use as soon
    as [generateId] hands out an id that is not in use. *)
Lemma createTodo_fresh_id (w w' : World.t) (todoData : TodoData.t) (t : Todo.t)
    (todos : list Todo.t) :
  World.isClient w = true ->
  stored "todos" w = Returns (VTodos todos) ->
  TodoService.createTodo todoData w = (Returns t, w') ->
  (forall x, In x todos ->
     Todo.id x <> Env.generateId (World.env w) (World.generated w)) ->
  stored "todos" w' = Returns (VTodos (todos ++ [t])%list)
  /\ forall x, In x todos -> Todo.id x <> Todo.id t.
Proof.
  intros Hic Hs Hc Hfresh.
  destruct (createTodo_fields w w' todoData t Hc) as (_ & _ & Hid).
  split; [|intros x Hx; rewrite Hid; auto].
  revert Hc. unfold TodoService.createTodo.
  cbv [try_catch bind lift throw ret TodoService.validate gets generateId now].
  destruct (TodoService.validateTodo (Env.parseDate (World.env w))
              (TodoData.title todoData) (TodoData.description todoData)
              (TodoData.dueDate todoData)); cbv beta iota zeta; [|discriminate].
  rewrite getTodos_run, Hs. cbv beta iota zeta. cbn [as_todos].
  match goal with
  | |- context [StorageService.write ?e ?v ?x] =>
      pose proof (fun w1 => write_returns_stored e v x w1 Hic) as Hw;
      destruct (StorageService.write e v x) as [[[]|err] w1]
  end; [|discriminate].
  intros K. injection K as <- <-. apply Hw. reflexivity.
Qed.

(** C9, on the code: [createTodo] reads the clock once for [createdAt]
    and once more for [updatedAt]; when the clock advances between the two
    readings the record is created with two different timestamps.  Its id
    is the next identifier of [generateId]. *)
Theorem createTodo_reads_the_clock_twice :
  (forall (w w' : World.t) (todoData : TodoData.t) (t : Todo.t),
     TodoService.createTodo todoData w = (Returns t, w') ->
     Todo.createdAt t = Env.clock (World.env w) (World.ticks w)
     /\ Todo.updatedAt t = Env.clock (World.env w) (S (World.ticks w))
     /\ Todo.id t = Env.generateId (World.env w) (World.generated w))
  /\ (exists t,
        fst (TodoService.createTodo sample_todo_data empty_world) = Returns t
        /\ stored "todos" (snd (TodoService.createTodo sample_todo_data empty_world))
           = Returns (VTodos [t])
        /\ Todo.createdAt t = "2025-01-01T00:00:00.000Z"
        /\ Todo.updatedAt t = "2025-01-01T00:00:00.001Z"
        /\ Todo.createdAt t <> Todo.updatedAt t).
Proof.
  split.
  - intros w w' todoData t. apply createTodo_fields.
  - eexists. repeat apply conj; try (vm_compute; reflexivity).
    vm_compute. discriminate.
Qed.


(* ===================================================================== *)
(** * The theorems at sample states *)
(* ===================================================================== *)

(** [updateTodo_frame] for the second of two stored todos. *)
Lemma updateTodo_frame_witness :
  stored "todos" two_todos_world = Returns (VTodos two_todos)
  /\ (exists t, In t two_todos /\ Todo.id t = "t2")
  /\ exists r w' todos',
       TodoService.updateTodo "t2" (TodoService.status_patch Completed) two_todos_world
       = (r, w')
       /\ stored "todos" w' = Returns (VTodos todos')
       /\ length todos' = 2%nat
       /\ todos' !! 0%nat = Some (sample_todo "t1" Pending None).
Proof.
  assert (H1 : stored "todos" two_todos_world = Returns (VTodos two_todos))
    by (vm_compute; reflexivity).
  assert (H2 : exists t, In t two_todos /\ Todo.id t = "t2")
    by (exists (sample_todo "t2" Pending None); split; [right; left|]; reflexivity).
  split; [exact H1|]. split; [exact H2|].
  destruct (updateTodo_frame two_todos_world "t2" (TodoService.status_patch Completed)
              two_todos H1 H2)
    as (r & w' & todos' & index & current & Hu & Hs & Hl & _ & _ & Hother & _).
  exists r, w', todos'. repeat apply conj; [exact Hu|exact Hs|exact Hl|].
  apply (Hother 0%nat); [reflexivity|discriminate].
Defined.

(** [delete_missing_id] for an id that none of the collections holds. *)
Lemma delete_missing_id_witness :
  TodoService.deleteTodo "t9" two_todos_world
    = (Throws (not_found_error "Todo" "t9"), two_todos_world)
  /\ ProjectService.deleteProject "t9" two_todos_world
    = (Throws (not_found_error "Project" "t9"), two_todos_world)
  /\ NotesService.deleteNote "t9" two_todos_world
    = (Throws (Error "Failed to delete note"), two_todos_world)
  /\ NotificationService.deleteNotification "t9" two_todos_world
    = (Throws (Error "Failed to delete notification"), two_todos_world).
Proof.
  destruct (delete_missing_id two_todos_world "t9") as (H1 & H2 & H3 & H4).
  repeat apply conj.
  - apply (H1 two_todos); [vm_compute; reflexivity|].
    intros (t & [<-|[<-|[]]] & K); discriminate.
  - apply (H2 []); [vm_compute; reflexivity|]. intros (p & [] & _).
  - apply (H3 []); [vm_compute; reflexivity|]. intros (p & [] & _).
  - apply (H4 []); [vm_compute; reflexivity|]. intros (p & [] & _).
Defined.


(** [isInQuietHours_spec] from 22:00 to 06:00, at 23:30. *)
Lemma isInQuietHours_spec_witness :
  NotificationService.isInQuietHours (at_time 23 30)
    (quiet (Some (hhmm 22 0)) (Some (hhmm 6 0)))
  = in_quiet_interval (60 * 22 + 0) (60 * 6 + 0) (60 * 23 + 30).
Proof.
  destruct isInQuietHours_spec as (H & _).
  apply (H 22 0 6 0 23 30)%nat; lia.
Defined.

(** [updateProjectProgress_spec] for four todos, one of them completed,
    and for a project that lists one todo while three completed todos
    name it. *)
Lemma updateProjectProgress_spec_witness :
  (find_project "p1" (project_world 4 1)
     = Some (sample_project "p1" (todo_ids 4) (num_of_Z 0))
   /\ ProjectService.validateProject (Env.parseDate (World.env (project_world 4 1)))
        (sample_project "p1" (todo_ids 4) (num_of_Z 0)) = Returns tt
   /\ completed_linked "p1" (project_world 4 1) = 1%nat
   /\ exact_percentage 1 4 = 25
   /\ exists w' p',
        ProjectService.updateProjectProgress "p1" (project_world 4 1)
        = (Returns (num_of_Z 25), w')
        /\ find_project "p1" w' = Some p'
        /\ Project.progress p' = num_of_Z 25)
  /\ (find_project "p1" overlinked_world
      = Some (sample_project "p1" (todo_ids 1) (num_of_Z 0))
     /\ ProjectService.validateProject (Env.parseDate (World.env overlinked_world))
          (sample_project "p1" (todo_ids 1) (num_of_Z 0)) = Returns tt
     /\ completed_linked "p1" overlinked_world = 3%nat
     /\ exact_percentage 3 1 = 300
     /\ exists w' p',
          ProjectService.updateProjectProgress "p1" overlinked_world
          = (Returns (num_of_Z 300), w')
          /\ find_project "p1" w' = Some p'
          /\ Project.progress p' = num_of_Z 300).
Proof.
  split.
  - assert (H1 : find_project "p1" (project_world 4 1)
                 = Some (sample_project "p1" (todo_ids 4) (num_of_Z 0)))
      by (vm_compute; reflexivity).
    assert (H2 : ProjectService.validateProject
                   (Env.parseDate (World.env (project_world 4 1)))
                   (sample_project "p1" (todo_ids 4) (num_of_Z 0)) = Returns tt)
      by (vm_compute; reflexivity).
    split; [exact H1|]. split; [exact H2|].
    split; [vm_compute; reflexivity|]. split; [vm_compute; reflexivity|].
    destruct (updateProjectProgress_spec (project_world 4 1) "p1" _ H1 H2)
      as ((w' & p' & Hu & Hf & Hp & _) & _ & _ & _ & _ & Hexact).
    assert (E : rounded_percentage (completed_linked "p1" (project_world 4 1))
                  (length (Project.todoIds
                             (sample_project "p1" (todo_ids 4) (num_of_Z 0))))
                = num_of_Z 25) by (apply Hexact; vm_compute; lia).
    exists w', p'. rewrite <- E. repeat apply conj; assumption.
  - assert (H1 : find_project "p1" overlinked_world
                 = Some (sample_project "p1" (todo_ids 1) (num_of_Z 0)))
      by (vm_compute; reflexivity).
    assert (H2 : ProjectService.validateProject
                   (Env.parseDate (World.env overlinked_world))
                   (sample_project "p1" (todo_ids 1) (num_of_Z 0)) = Returns tt)
      by (vm_compute; reflexivity).
    split; [exact H1|]. split; [exact H2|].
    split; [vm_compute; reflexivity|]. split; [vm_compute; reflexivity|].
    destruct (updateProjectProgress_spec overlinked_world "p1" _ H1 H2)
      as ((w' & p' & Hu & Hf & Hp & _) & _ & _ & _ & _ & Hexact).
    assert (E : rounded_percentage (completed_linked "p1" overlinked_world)
                  (length (Project.todoIds
                             (sample_project "p1" (todo_ids 1) (num_of_Z 0))))
                = num_of_Z 300) by (apply Hexact; vm_compute; lia).
    exists w', p'. rewrite <- E. repeat apply conj; assumption.
Defined.

(** [addTodoToProject_idempotent] for the todo that is not yet linked. *)
Lemma addTodoToProject_idempotent_witness :
  membership "p1"
    (snd (ProjectService.addTodoToProject "p1" "t1"
            (snd (ProjectService.addTodoToProject "p1" "t1" unlinked_world))))
  = membership "p1" (snd (ProjectService.addTodoToProject "p1" "t1" unlinked_world)).
Proof.
  destruct (addTodoToProject_idempotent unlinked_world "p1" "t1") as (H & _).
  exact H.
Defined.

(** [read_missing_version_history] for the note "n1". *)
Lemma read_missing_version_history_witness :
  StorageService.read (NotesService.versions_entity "n1") one_note_world
  = (Returns empty_object, one_note_world).
Proof.
  destruct (read_missing_version_history one_note_world "n1") as (H & _);
    [vm_compute; reflexivity..|exact H].
Defined.

(** [updateNote_fails_without_history] for the note "n1". *)
Lemma updateNote_fails_without_history_witness :
  exists w',
    NotesService.updateNote "n1" (NotePatch.of_content "second draft") one_note_world
    = (Throws (Error "Failed to update note"), w')
    /\ stored "notes" w' = Returns (VNotes [sample_note "n1" "first draft"]).
Proof.
  destruct (updateNote_fails_without_history one_note_world "n1"
              (NotePatch.of_content "second draft") [sample_note "n1" "first draft"])
    as (w' & Hu & _ & Hs & _).
  - vm_compute. reflexivity.
  - exists (sample_note "n1" "first draft"). split; [left|]; reflexivity.
  - vm_compute. reflexivity.
  - vm_compute. reflexivity.
  - exists w'. split; assumption.
Defined.

(* ===================================================================== *)
(** * Further properties of the gateway *)
(* ===================================================================== *)


(** X2. When server storage is on, fallback is enabled and the server
    branch of [read] fails (rejected request, unreadable body, or an error
    status other than 404), [read] resolves to what [localStorage] holds
    under the storage key, and to the entity's empty value when that key
    is absent, empty or not JSON: it does not throw. *)
Theorem read_falls_back_to_localStorage (resp : Outcome Response.t) (w : World.t)
    (entity : string) (filename : option string) :
  World.isClient w = true ->
  StorageConfig.useServerStorage (World.config w) = true ->
  StorageConfig.fallbackToLocalStorage (World.config w) = true ->
  server_read_failed resp ->
  StorageService.read_with resp w entity filename
  = Returns (held_locally w (StorageService.getStorageKey w entity filename) entity).
Proof.
  intros Hc Hu Hf Hr. unfold StorageService.read_with, held_locally.
  rewrite Hc, Hu, Hf. cbn [negb].
  assert (Hl : forall o : option Text,
             match match o with
                   | Some rawData =>
                       if negb (text_truthy rawData)
                       then Returns (StorageService.getEmptyDataByEntityType entity)
                       else JSON_parse rawData
                   | None => Returns (StorageService.getEmptyDataByEntityType entity)
                   end with
             | Returns v => Returns v
             | Throws _ => Returns (StorageService.getEmptyDataByEntityType entity)
             end
             = Returns match o with
                       | Some (JsonText v) => v
                       | _ => StorageService.getEmptyDataByEntityType entity
                       end).
  { intros [[v|[|c s]]|]; reflexivity. }
  destruct resp as [response|e]; cbn in Hr.
  - destruct (Response.ok response).
    + rewrite Hr. apply Hl.
    + destruct (Z.eqb_spec (Response.status response) 404) as [K|K]; [contradiction|].
      apply Hl.
  - apply Hl.
Qed.

(** X3. When server storage is on, fallback is disabled and the server
    branch of [write] fails, [write] throws "Failed to save <entity> data"
    after one warning toast; [localStorage] and the files are left as they
    were and no metadata update is started. *)
Theorem write_fails_without_fallback (resp : Outcome Response.t) (w : World.t)
    (entity : string) (data : Value) (filename : option string) :
  World.isClient w = true ->
  StorageConfig.useServerStorage (World.config w) = true ->
  StorageConfig.fallbackToLocalStorage (World.config w) = false ->
  server_write_failed resp ->
  StorageService.write_with resp w entity data filename
  = (Throws (Error ("Failed to save " ++ entity ++ " data")),
     World.add_toast StorageService.storage_warning w).
Proof.
  intros Hc Hu Hf Hr. unfold StorageService.write_with.
  rewrite Hc, Hu, Hf. cbn [negb].
  destruct resp as [response|e]; cbn in Hr.
  - rewrite Hr. reflexivity.
  - reflexivity.
Qed.

Lemma stored_set_detached e n w : stored e (World.set_detached n w) = stored e w.
Proof. reflexivity. Qed.

(** What [updateMetadata] does: it reads the metadata, reads the clock
    and writes; an error of the write is swallowed. *)
Lemma updateMetadata_run w :
  exists m,
    stored "metadata" w = Returns m
    /\ StorageService.updateMetadata w
       = (Returns tt,
          snd (StorageService.write "metadata"
                 (StorageService.set_lastSync (next_timestamp w) m) (tick w))).
Proof.
  pose proof (stored_backend "metadata" w) as Hs.
  eexists. split; [exact Hs|].
  unfold StorageService.updateMetadata, try_catch, bind, now, ret.
  rewrite read_eq, Hs. cbn [fst snd].
  change (World.set_ticks (S (World.ticks w)) w) with (tick w).
  change (Env.clock (World.env w) (World.ticks w)) with (next_timestamp w).
  rewrite write_backend.
  destruct (backend (tick w) "metadata"); try reflexivity.
  destruct (World.isClient (tick w)); reflexivity.
Qed.

Lemma settled_other e w :
  e <> "metadata" -> e <> "metadata_backup" -> stored e (settled w) = stored e w.
Proof.
  intros H1 H2. unfold settled, StorageService.run_detached.
  destruct (World.detached w) as [|n] eqn:Hd; [reflexivity|].
  destruct (updateMetadata_run (World.set_detached n w)) as (m & _ & ->).
  cbn [snd]. rewrite stored_write_other by assumption.
  rewrite stored_tick. apply stored_set_detached.
Qed.

(** X4. A write to one entity leaves what [read] gives for every other
    entity as it was, except for the entity named <entity>_backup, whose
    localStorage key is where the previous value is kept; the metadata
    update that the write starts changes the metadata only. *)
Theorem write_leaves_other_entities (w : World.t) (entity other : string)
    (data : Value) :
  other <> entity ->
  other <> entity ++ "_backup" ->
  let w' := snd (StorageService.write entity data w) in
  stored other w' = stored other w
  /\ (other <> "metadata" -> other <> "metadata_backup" ->
      stored other (settled w') = stored other w).
Proof.
  intros H1 H2 w'. split.
  - apply stored_write_other; assumption.
  - intros H3 H4. rewrite settled_other by assumption.
    apply stored_write_other; assumption.
Qed.

Lemma write_local_backup w k j previous :
  World.localStorage w !! k = Some previous ->
  text_truthy previous = true ->
  World.localStorage (StorageService.write_local w k j) !! (k ++ "_backup")
  = Some previous.
Proof.
  intros Hk Ht. unfold StorageService.write_local. cbn.
  rewrite Hk, Ht.
  rewrite lookup_insert_ne.
  - apply lookup_insert_eq.
  - intros K. apply (f_equal String.length) in K.
    rewrite string_length_append in K. cbn in K. lia.
Qed.

(** X5. A write that goes to [localStorage] first copies the text that the
    key held (if it is not empty) to the key <storageKey>_backup, and then
    stores the new value: one earlier generation is kept. *)
Theorem local_write_keeps_previous_value (w : World.t) (entity : string)
    (data : Value) (previous : Text) :
  backend w entity = ToLocal ->
  World.localStorage w !! ("taskflow_data_" ++ entity) = Some previous ->
  text_truthy previous = true ->
  let w' := snd (StorageService.write entity data w) in
  World.localStorage w' !! ("taskflow_data_" ++ entity) = Some (JsonText data)
  /\ World.localStorage w' !! ("taskflow_data_" ++ entity ++ "_backup")
     = Some previous
  /\ World.files w' = World.files w.
Proof.
  intros Hb Hk Ht w'. subst w'. rewrite write_backend, Hb. cbn [snd].
  rewrite localStorage_started, files_started, files_write_local, files_warned.
  repeat apply conj; [apply write_local_lookup_same| |reflexivity].
  rewrite <- append_assoc. apply write_local_backup; [|exact Ht].
  rewrite localStorage_warned. exact Hk.
Qed.






Lemma field_set_same k v fields :
  field k (VObject (StorageService.set_field k v fields)) = Some v.
Proof.
  unfold field. induction fields as [|[k' v'] r IH]; cbn.
  - rewrite String.eqb_refl. reflexivity.
  - destruct (String.eqb_spec k' k) as [->|K]; cbn.
    + rewrite String.eqb_refl. reflexivity.
    + destruct (String.eqb_spec k' k) as [E|_]; [contradiction|]. exact IH.
Qed.

Lemma field_set_other k k' v fields :
  k' <> k ->
  field k' (VObject (StorageService.set_field k v fields)) = field k' (VObject fields).
Proof.
  intros Hk. unfold field. induction fields as [|[a b] r IH]; cbn.
  - destruct (String.eqb_spec k k') as [E|_]; [congruence|reflexivity].
  - destruct (String.eqb_spec a k) as [->|K]; cbn.
    + destruct (String.eqb_spec k k') as [E|_]; [congruence|reflexivity].
    + destruct (String.eqb_spec a k'); [reflexivity|exact IH].
Qed.


Lemma detached_write_metadata v w :
  World.detached (snd (StorageService.write "metadata" v w)) = World.detached w.
Proof.
  rewrite write_backend.
  destruct (backend w "metadata"); cbn [snd].
  - reflexivity.
  - unfold started, warned. cbn.
    destruct (StorageConfig.useServerStorage (World.config w)); reflexivity.
  - destruct (World.isClient w); reflexivity.
Qed.

(** X7. [updateMetadata] never throws and starts no further metadata
    update.  When the metadata is a plain object (the empty object when
    nothing is stored) and a write has a store to go to, the metadata read
    afterwards has [lastSync] set to the reading of the clock and every
    other key as before. *)
Theorem updateMetadata_records_lastSync (w : World.t) :
  exists w',
    StorageService.updateMetadata w = (Returns tt, w')
    /\ World.detached w' = World.detached w
    /\ forall fields,
         stored "metadata" w = Returns (VObject fields) ->
         backend w "metadata" <> NoBackend ->
         exists fields',
           stored "metadata" w' = Returns (VObject fields')
           /\ field "lastSync" (VObject fields') = Some (next_timestamp w)
           /\ forall key, key <> "lastSync" ->
                field key (VObject fields') = field key (VObject fields).
Proof.
  destruct (updateMetadata_run w) as (m & Hm & Hu).
  eexists. split; [exact Hu|]. split.
  - rewrite detached_write_metadata. reflexivity.
  - intros fields Hf Hb. rewrite Hf in Hm. injection Hm as <-.
    assert (Hbt : backend (tick w) "metadata" <> NoBackend) by exact Hb.
    destruct (stored_write_same "metadata"
                (StorageService.set_lastSync (next_timestamp w) (VObject fields))
                (tick w) Hbt) as [_ Hr].
    exists (StorageService.set_field "lastSync" (next_timestamp w) fields).
    split; [exact Hr|]. split.
    + apply field_set_same.
    + intros key Hk. apply field_set_other. exact Hk.
Qed.

(** X8. After [setUseServerStorage(false)] on the client the gateway works
    on [localStorage] alone: [read] resolves to what [localStorage] holds,
    whatever the server has, and [write] stores there, returns, and leaves
    the files of the server and the list of toasts as they were. *)
Theorem local_mode_bypasses_the_server (w : World.t) (entity : string)
    (data : Value) :
  World.isClient w = true ->
  let w1 := snd (StorageService.setUseServerStorage false w) in
  let w2 := snd (StorageService.write entity data w1) in
  stored entity w1 = Returns (held_locally w ("taskflow_data_" ++ entity) entity)
  /\ StorageService.write entity data w1 = (Returns tt, w2)
  /\ World.files w2 = World.files w
  /\ World.toasts w2 = World.toasts w
  /\ stored entity w2 = Returns data.
Proof.
  intros Hc w1 w2.
  assert (Hb : backend w1 entity = ToLocal).
  { unfold backend, w1. cbn. rewrite Hc. reflexivity. }
  assert (Hn : backend w1 entity <> NoBackend) by (rewrite Hb; discriminate).
  destruct (stored_write_same entity data w1 Hn) as [Hw Hr].
  repeat apply conj.
  - rewrite stored_backend, Hb. reflexivity.
  - exact Hw.
  - unfold w2. rewrite write_backend, Hb. cbn [snd].
    rewrite files_started, files_write_local, files_warned. reflexivity.
  - unfold w2. rewrite write_backend, Hb. cbn [snd].
    unfold started, warned, StorageService.write_local, StorageService.start_updateMetadata.
    destruct (negb _); reflexivity.
  - exact Hr.
Qed.

Lemma stored_local w e :
  World.isClient w = true ->
  StorageConfig.useServerStorage (World.config w) = false ->
  stored e w = Returns (held_locally w ("taskflow_data_" ++ e) e).
Proof.
  intros Hc Hu. rewrite stored_backend. unfold backend. rewrite Hc, Hu. reflexivity.
Qed.

(** X9. With server storage off, [createBackup(entity)] copies the stored
    text to the key <storageKey>_<timestamp>_backup (the colons of the
    timestamp written as dashes) and returns that key; after any later
    write to the entity, [restoreFromBackup(entity, key)] puts the text
    back, so that [read] gives what it gave when the backup was taken. *)
Theorem backup_then_restore (resp resp' : Outcome Response.t) (w : World.t)
    (entity : string) (data : Value) (text : Text) :
  World.isClient w = true ->
  StorageConfig.useServerStorage (World.config w) = false ->
  World.localStorage w !! ("taskflow_data_" ++ entity) = Some text ->
  text_truthy text = true ->
  let backupId :=
    "taskflow_data_" ++ entity ++ "_" ++ replace_colons (next_timestamp w)
    ++ "_backup" in
  exists w1 w3,
    StorageService.createBackup_with resp entity None w = (Returns (Some backupId), w1)
    /\ StorageService.restoreFromBackup_with resp' entity backupId
         (snd (StorageService.write entity data w1)) = (Returns tt, w3)
    /\ World.localStorage w3 !! ("taskflow_data_" ++ entity) = Some text
    /\ stored entity w3 = stored entity w.
Proof.
  intros Hc Hu Hk Ht backupId.
  set (key := "taskflow_data_" ++ entity) in *.
  assert (Eb : backupId = key ++ "_" ++ replace_colons (next_timestamp w) ++ "_backup").
  { unfold backupId, key. rewrite append_assoc. reflexivity. }
  set (w1 := World.set_localStorage (<[backupId := text]> (World.localStorage (tick w)))
               (tick w)).
  assert (H1 : StorageService.createBackup_with resp entity None w
               = (Returns (Some backupId), w1)).
  { unfold StorageService.createBackup_with, StorageService.server_branch,
      bind, gets, ret, throw, now, modify.
    rewrite Hc. cbn [negb World.config World.set_ticks World.isClient].
    rewrite Hu.
    rewrite (key_client _ entity) by exact Hc. fold key.
    cbn [World.localStorage World.set_ticks]. rewrite Hk, Ht.
    rewrite Eb. reflexivity. }
  assert (Hbk : backupId <> key).
  { rewrite Eb. intros K. apply (f_equal String.length) in K.
    rewrite !string_length_append in K. cbn in K. lia. }
  assert (Hbb : backupId <> key ++ "_backup").
  { rewrite Eb. intros K. apply (f_equal String.length) in K.
    rewrite !string_length_append in K. cbn in K. lia. }
  assert (Hc1 : World.isClient w1 = true) by exact Hc.
  assert (Hu1 : StorageConfig.useServerStorage (World.config w1) = false) by exact Hu.
  assert (Hb1 : backend w1 entity = ToLocal).
  { unfold backend. rewrite Hc1, Hu1. reflexivity. }
  set (w2 := snd (StorageService.write entity data w1)).
  destruct (write_preserves entity data w1) as (Hc2 & Hcfg2 & _).
  fold w2 in Hc2, Hcfg2.
  assert (Hl2 : World.localStorage w2 !! backupId = Some text).
  { unfold w2. rewrite write_backend, Hb1. cbn [snd].
    rewrite localStorage_started. fold key.
    rewrite write_local_lookup_other by assumption.
    rewrite localStorage_warned. unfold w1. cbn. apply lookup_insert_eq. }
  set (w3 := World.set_localStorage (<[key := text]> (World.localStorage w2)) w2).
  exists w1, w3. split; [exact H1|]. fold w2. split; [|split].
  - unfold StorageService.restoreFromBackup_with, StorageService.server_branch,
      bind, gets, ret, throw, modify.
    rewrite Hc2, Hc1. cbn [negb]. rewrite Hcfg2, Hu1, Hl2, Ht.
    rewrite (key_client _ entity) by (rewrite Hc2; exact Hc1). reflexivity.
  - unfold w3. cbn. apply lookup_insert_eq.
  - rewrite !stored_local; try assumption.
    + unfold held_locally. fold key.
      replace (World.localStorage w3 !! key) with (Some text)
        by (unfold w3; cbn [World.localStorage World.set_localStorage];
            symmetry; apply lookup_insert_eq).
      rewrite Hk. reflexivity.
    + change (World.isClient w2 = true). rewrite Hc2. exact Hc1.
    + change (StorageConfig.useServerStorage (World.config w2) = false).
      rewrite Hcfg2. exact Hu1.
Qed.

(** X10. [exists] answers [false] on the server side and, with fallback
    disabled, when the request is rejected.  With server storage off, or
    when the server's reply is not [ok], it answers from [localStorage],
    fallback enabled or not: a reply that is not [ok] is not an error
    here.  Its answer is whether the key is present, so a key that holds
    the empty text counts, while [read] takes such a key for missing. *)
Theorem exists_answers (resp : Outcome Response.t) (w : World.t)
    (entity : string) (filename : option string) :
  let present :=
    match World.localStorage w !! StorageService.getStorageKey w entity filename with
    | Some _ => true
    | None => false
    end in
  (World.isClient w = false ->
   StorageService.exists_with resp w entity filename = StorageService.Known false)
  /\ (World.isClient w = true ->
      StorageConfig.useServerStorage (World.config w) = false
      \/ (exists response, resp = Returns response /\ Response.ok response = false) ->
      StorageService.exists_with resp w entity filename = StorageService.Known present)
  /\ (World.isClient w = true ->
      StorageConfig.useServerStorage (World.config w) = true ->
      StorageConfig.fallbackToLocalStorage (World.config w) = false ->
      (exists e, resp = Throws e) ->
      StorageService.exists_with resp w entity filename = StorageService.Known false)
  /\ (World.isClient w = true ->
      StorageConfig.useServerStorage (World.config w) = false ->
      World.localStorage w !! StorageService.getStorageKey w entity filename
      = Some (RawText "") ->
      StorageService.exists_with resp w entity filename = StorageService.Known true
      /\ StorageService.read_with resp w entity filename
         = Returns (StorageService.getEmptyDataByEntityType entity)).
Proof.
  intros present. unfold StorageService.exists_with. repeat apply conj.
  - intros ->. reflexivity.
  - intros -> [Hu|(response & -> & Hok)]; cbn [negb].
    + rewrite Hu. reflexivity.
    + rewrite Hok. destruct (StorageConfig.useServerStorage _); reflexivity.
  - intros -> -> -> (e & ->). reflexivity.
  - intros Hc Hu Hk. split.
    + rewrite Hc, Hu, Hk. reflexivity.
    + unfold StorageService.read_with. rewrite Hc, Hu, Hk. reflexivity.
Qed.

(* ===================================================================== *)
(** * Further properties of TodoService *)
(* ===================================================================== *)

Lemma find_app_last {A} (f : A -> bool) (l : list A) (x : A) :
  (forall y, In y l -> f y = false) -> f x = true ->
  List.find f (l ++ [x]) = Some x.
Proof.
  intros Hl Hx. induction l as [|a r IH]; cbn.
  - rewrite Hx. reflexivity.
  - rewrite (Hl a) by (left; reflexivity). apply IH.
    intros y Hy. apply Hl. right. exact Hy.
Qed.

Lemma find_app_found {A} (f : A -> bool) (l l' : list A) (y : A) :
  List.find f l = Some y -> List.find f (l ++ l') = Some y.
Proof.
  induction l as [|a r IH]; [discriminate|].
  cbn. destruct (f a); [trivial|exact IH].
Qed.

Lemma filter_app_last {A} (f : A -> bool) (l : list A) (x : A) :
  (forall y, In y l -> f y = true) -> f x = false ->
  List.filter f (l ++ [x]) = l.
Proof.
  intros Hl Hx. rewrite List.filter_app. cbn. rewrite Hx.
  rewrite filter_all by exact Hl. apply app_nil_r.
Qed.

(** What a call of [createTodo] with valid data does when the write has a
    store to go to. *)
Lemma createTodo_ok (w : World.t) (todoData : TodoData.t) (todos : list Todo.t) :
  stored "todos" w = Returns (VTodos todos) ->
  backend w "todos" <> NoBackend ->
  data_valid w todoData = Returns tt ->
  exists w1,
    TodoService.createTodo todoData w = (Returns (created_todo w todoData), w1)
    /\ stored "todos" w1 = Returns (VTodos (todos ++ [created_todo w todoData]))
    /\ (forall e, backend w1 e = backend w e)
    /\ (forall e, e <> "todos" -> e <> "todos_backup" -> stored e w1 = stored e w).
Proof.
  intros Hs Hb Hv.
  unfold TodoService.createTodo.
  cbv [try_catch bind lift throw ret TodoService.validate gets generateId now].
  unfold data_valid in Hv. rewrite Hv. cbv beta iota zeta.
  rewrite getTodos_run, Hs. cbv beta iota zeta. cbn [as_todos].
  match goal with
  | |- context [StorageService.write "todos" ?v ?x] =>
      change v with (VTodos (todos ++ [created_todo w todoData])); set (w0 := x)
  end.
  assert (Hb0 : backend w0 "todos" <> NoBackend) by exact Hb.
  destruct (stored_write_same "todos"
              (VTodos (todos ++ [created_todo w todoData])) w0 Hb0) as [Hw Hr].
  rewrite Hw. eexists. split; [reflexivity|]. split; [exact Hr|]. split.
  - intros e. rewrite backend_write. reflexivity.
  - intros e H1 H2. rewrite stored_write_other by assumption. reflexivity.
Qed.

(** X11. After [createTodo] with valid data, the stored collection is the
    old one with the new todo at its end.  Provided [generateId] handed
    out an id that no stored todo has, [getTodoById] with that id resolves
    to the new todo, and [deleteTodo] with that id returns [true] and
    brings the stored collection back to what it was.  If a stored todo
    already has the id, [getTodoById] resolves to that older todo
    instead. *)
Theorem createTodo_then_lookup_and_delete (w : World.t) (todoData : TodoData.t)
    (todos : list Todo.t) :
  stored "todos" w = Returns (VTodos todos) ->
  backend w "todos" <> NoBackend ->
  data_valid w todoData = Returns tt ->
  let t := created_todo w todoData in
  exists w1,
    TodoService.createTodo todoData w = (Returns t, w1)
    /\ stored "todos" w1 = Returns (VTodos (todos ++ [t]))
    /\ (unused_id (Todo.id t) todos ->
        TodoService.getTodoById (Todo.id t) w1 = (Returns (Some t), w1)
        /\ exists w2,
             TodoService.deleteTodo (Todo.id t) w1 = (Returns true, w2)
             /\ stored "todos" w2 = Returns (VTodos todos))
    /\ (forall older, find_todo (Todo.id t) w = Some older ->
        TodoService.getTodoById (Todo.id t) w1 = (Returns (Some older), w1)).
Proof.
  intros Hs Hb Hv t.
  destruct (createTodo_ok w todoData todos Hs Hb Hv) as (w1 & Hc & Hs1 & Hb1 & _).
  fold t in Hc, Hs1.
  exists w1. split; [exact Hc|]. split; [exact Hs1|]. split.
  - intros Hfresh. split.
    + rewrite getTodoById_run. unfold find_todo. rewrite Hs1.
      f_equal. f_equal. apply find_app_last.
      * intros y Hy. apply String.eqb_neq. apply Hfresh. exact Hy.
      * apply String.eqb_refl.
    + assert (Hn : backend w1 "todos" <> NoBackend) by (rewrite Hb1; exact Hb).
      destruct (stored_write_same "todos" (VTodos todos) w1 Hn) as [Hw Hr].
      exists (snd (StorageService.write "todos" (VTodos todos) w1)).
      split; [|exact Hr].
      unfold TodoService.deleteTodo, try_catch, bind, lift, throw, ret.
      rewrite getTodos_run, Hs1. cbn [as_todos].
      rewrite filter_app_last.
      * rewrite length_app. cbn [length].
        destruct (Nat.eqb_spec (length todos) (length todos + 1)) as [K|_]; [lia|].
        rewrite Hw. reflexivity.
      * intros y Hy. apply negb_true_iff, String.eqb_neq. apply Hfresh. exact Hy.
      * rewrite String.eqb_refl. reflexivity.
  - intros older Ho. rewrite getTodoById_run. unfold find_todo in *.
    rewrite Hs in Ho. rewrite Hs1. f_equal. f_equal.
    apply find_app_found. exact Ho.
Qed.

(** X12. [createTodo] validates its argument before anything else: when
    [validateTodo] rejects it (a title that is empty or white space only,
    among others) the call throws that error and the state is exactly
    what it was: no identifier is drawn, the clock is not read, nothing is
    written. *)
Theorem createTodo_rejects_invalid_data (w : World.t) (todoData : TodoData.t) :
  (forall e, data_valid w todoData = Throws e ->
     TodoService.createTodo todoData w = (Throws e, w))
  /\ (is_blank (TodoData.title todoData) = true ->
      TodoService.createTodo todoData w
      = (Throws (Error "Todo title is required"), w))
  /\ (is_blank (TodoData.title todoData) = false ->
      (100 < String.length (TodoData.title todoData))%nat ->
      TodoService.createTodo todoData w
      = (Throws (Error "Todo title must be 100 characters or less"), w)).
Proof.
  assert (H : forall e, data_valid w todoData = Throws e ->
                TodoService.createTodo todoData w = (Throws e, w)).
  { intros e Hv. unfold TodoService.createTodo.
    cbv [try_catch bind lift throw ret TodoService.validate gets].
    unfold data_valid in Hv. rewrite Hv. reflexivity. }
  split; [exact H|]. split.
  - intros Hb. apply H. unfold data_valid, TodoService.validateTodo.
    rewrite Hb, orb_true_r. reflexivity.
  - intros Hb Hl. apply H. unfold data_valid, TodoService.validateTodo.
    rewrite Hb, orb_false_r.
    destruct (TodoData.title todoData) as [|c r] eqn:E; [discriminate Hb|].
    cbn [str_truthy negb]. unfold longer_than.
    destruct (Nat.ltb_spec 100 (String.length (String c r))) as [_|K]; [reflexivity|lia].
Qed.

Lemma filter_In_id {A} (ident : A -> string) (id : string) (l : list A) (x : A) :
  In x (List.filter (fun y => negb (String.eqb (ident y) id)) l)
  <-> In x l /\ ident x <> id.
Proof.
  rewrite List.filter_In, negb_true_iff, String.eqb_neq. reflexivity.
Qed.

Lemma filter_shorter {A} (ident : A -> string) (id : string) (l : list A) (x : A) :
  In x l -> ident x = id ->
  (length (List.filter (fun y => negb (String.eqb (ident y) id)) l) < length l)%nat.
Proof.
  intros Hx Hid. induction l as [|a r IH]; [destruct Hx|].
  cbn. destruct (String.eqb_spec (ident a) id) as [E|E]; cbn.
  - pose proof (List.filter_length_le
                  (fun y => negb (String.eqb (ident y) id)) r). lia.
  - destruct Hx as [->|Hx]; [contradiction|]. specialize (IH Hx). lia.
Qed.

(** X13. [deleteTodo] with an id that the stored collection holds returns
    [true]; the collection stored afterwards holds, in their order, the
    todos with another id, and none with that id.  Nothing else is
    touched: a project whose [todoIds] list the id still lists it. *)
Theorem deleteTodo_removes_the_todo (w : World.t) (id : string)
    (todos : list Todo.t) :
  stored "todos" w = Returns (VTodos todos) ->
  (exists t, In t todos /\ Todo.id t = id) ->
  let remaining :=
    List.filter (fun todo => negb (String.eqb (Todo.id todo) id)) todos in
  exists w',
    TodoService.deleteTodo id w = (Returns true, w')
    /\ stored "todos" w' = Returns (VTodos remaining)
    /\ (forall t, In t remaining <-> In t todos /\ Todo.id t <> id)
    /\ find_todo id w' = None
    /\ stored "projects" w' = stored "projects" w.
Proof.
  intros Hs (t & Ht & Hid) remaining.
  assert (Hb : backend w "todos" <> NoBackend).
  { apply (stored_nonempty_backend _ _ _ Hs). intros K. injection K as ->. destruct Ht. }
  destruct (stored_write_same "todos" (VTodos remaining) w Hb) as [Hw Hr].
  exists (snd (StorageService.write "todos" (VTodos remaining) w)).
  repeat apply conj.
  - unfold TodoService.deleteTodo, try_catch, bind, lift, throw, ret.
    rewrite getTodos_run, Hs. cbn [as_todos]. fold remaining.
    pose proof (filter_shorter Todo.id id todos t Ht Hid) as L. fold remaining in L.
    destruct (Nat.eqb_spec (length remaining) (length todos)) as [K|_]; [lia|].
    rewrite Hw. reflexivity.
  - exact Hr.
  - intros x. apply (filter_In_id Todo.id).
  - unfold find_todo. rewrite Hr.
    destruct (List.find _ remaining) as [x|] eqn:F; [|reflexivity].
    apply List.find_some in F. destruct F as [Hx Fx].
    apply (filter_In_id Todo.id) in Hx. apply String.eqb_eq in Fx. tauto.
  - apply stored_write_other; [discriminate|]. cbn. discriminate.
Qed.

(** X14. [getOverdueTodos] reads the clock once and resolves to the stored
    todos, in their order, that are not completed and whose due date is a
    non-empty string that parses to a time strictly before that reading;
    a completed todo, a todo without due date, one whose due date does
    not parse, and one due exactly at the reading are not overdue. *)
Theorem getOverdueTodos_spec (w : World.t) (todos : list Todo.t) :
  stored "todos" w = Returns (VTodos todos) ->
  let parseDate := Env.parseDate (World.env w) in
  exists overdue,
    TodoService.getOverdueTodos w = (Returns overdue, tick w)
    /\ overdue = List.filter (TodoService.overdue parseDate (next_timestamp w)) todos
    /\ forall t,
         In t overdue
         <-> In t todos
             /\ Todo.status t <> Completed
             /\ exists dueDate due reading,
                  Todo.dueDate t = Some dueDate /\ dueDate <> ""
                  /\ parseDate dueDate = Some due
                  /\ parseDate (next_timestamp w) = Some reading
                  /\ due < reading.
Proof.
  intros Hs parseDate. eexists. split; [|split; [reflexivity|]].
  - unfold TodoService.getOverdueTodos, try_catch, bind, lift, gets, ret, now.
    rewrite getTodos_run, Hs. reflexivity.
  - intros t. rewrite List.filter_In.
    unfold TodoService.overdue, TodoService.date_before. fold parseDate.
    split.
    + intros [Hin Ho]. split; [exact Hin|].
      destruct (Todo.dueDate t) as [[|c r]|] eqn:Ed; cbn in Ho; try discriminate.
      destruct (Todo.status t) eqn:Est; cbn in Ho; try discriminate;
        (split; [discriminate|]);
        destruct (parseDate (String c r)) as [due|] eqn:Ep; try discriminate;
        destruct (parseDate (next_timestamp w)) as [reading|] eqn:En; try discriminate;
        exists (String c r), due, reading;
        repeat apply conj; try reflexivity; try discriminate; try assumption;
        apply Z.ltb_lt; exact Ho.
    + intros (Hin & Hst & d & due & reading & Ed & Hd & Ep & En & Hlt).
      split; [exact Hin|]. rewrite Ed.
      destruct d as [|c r]; [contradiction|]. cbn.
      destruct (Todo.status t); try contradiction; cbn;
        rewrite Ep, En; apply Z.ltb_lt; exact Hlt.
Qed.

(* ===================================================================== *)
(** * Further properties of ProjectService *)
(* ===================================================================== *)

Lemma initial_milestones_run now l w :
  ProjectService.initial_milestones now l w
  = (Returns (milestones_from (World.env w) now (World.generated w) l),
     World.set_generated (length l + World.generated w) w).
Proof.
  revert w. induction l as [|m r IH]; intros w.
  - destruct w; reflexivity.
  - cbn [ProjectService.initial_milestones milestones_from length].
    unfold bind, generateId, ret. rewrite IH.
    destruct w as [ic cf on fs ls ts dt tk gn uu en]. cbn.
    replace (length r + S gn)%nat with (S (length r + gn))%nat by lia.
    reflexivity.
Qed.

Lemma milestones_from_length env now n l :
  length (milestones_from env now n l) = length l.
Proof. revert n. induction l as [|m r IH]; intros n; cbn; [|rewrite IH]; reflexivity. Qed.

Lemma milestones_from_fields env now n l m :
  In m (milestones_from env now n l) ->
  Milestone.completed m = false /\ Milestone.todoIds m = []
  /\ Milestone.createdAt m = now /\ Milestone.updatedAt m = now.
Proof.
  revert n. induction l as [|a r IH]; intros n; cbn; [intros []|].
  intros [<-|H]; [repeat split|apply (IH _ H)].
Qed.

Lemma milestones_from_ids env now n l i m :
  milestones_from env now n l !! i = Some m ->
  Milestone.id m = Env.generateId env (n + i).
Proof.
  revert n i. induction l as [|a r IH]; intros n i; cbn.
  - intros K. destruct i; discriminate.
  - destruct i as [|i]; cbn.
    + intros K. injection K as <-. cbn. f_equal. lia.
    + intros K. rewrite (IH _ _ K). f_equal. lia.
Qed.

(** What [createProject] does before it validates, and what it does with
    a valid draft when the write has a store to go to. *)
Lemma createProject_run (w : World.t) (projectData : ProjectData.t) :
  match project_valid w (drafted_project w projectData) with
  | Throws e => ProjectService.createProject projectData w = (Throws e, drawn 1 w)
  | Returns _ =>
      forall projects,
        stored "projects" w = Returns (VProjects projects) ->
        backend w "projects" <> NoBackend ->
        exists w',
          ProjectService.createProject projectData w
          = (Returns (created_project w projectData), w')
          /\ stored "projects" w'
             = Returns (VProjects (projects ++ [created_project w projectData]))
          /\ World.generated w'
             = (S (length (initial_list projectData)) + World.generated w)%nat
          /\ World.ticks w' = S (World.ticks w)
          /\ (forall e, e <> "projects" -> e <> "projects_backup" ->
                stored e w' = stored e w)
  end.
Proof.
  unfold ProjectService.createProject.
  cbv [try_catch bind throw ret ProjectService.validate gets generateId now lift].
  cbn [World.env World.set_ticks World.set_generated World.generated].
  fold (next_timestamp w).
  change (ProjectService.new_project (next_timestamp w)
            (Env.generateId (World.env w) (World.generated w)) projectData)
    with (drafted_project w projectData).
  change (ProjectService.validateProject (Env.parseDate (World.env w))
            (drafted_project w projectData))
    with (project_valid w (drafted_project w projectData)).
  destruct (project_valid w (drafted_project w projectData)) as [[]|e] eqn:Hv;
    [|reflexivity].
  intros projects Hs Hb.
  set (w2 := World.set_generated (S (World.generated w))
               (World.set_ticks (S (World.ticks w)) w)).
  assert (Hm : match ProjectData.initialMilestones projectData with
               | Some initialMilestones =>
                   ProjectService.initial_milestones (next_timestamp w) initialMilestones
               | None => fun w0 => (Returns [], w0)
               end w2
               = (Returns (milestones_from (World.env w) (next_timestamp w)
                             (S (World.generated w)) (initial_list projectData)),
                  World.set_generated
                    (length (initial_list projectData) + S (World.generated w)) w2)).
  { unfold initial_list. destruct (ProjectData.initialMilestones projectData) as [l|]; cbn.
    - apply initial_milestones_run.
    - destruct w; reflexivity. }
  rewrite Hm. cbv beta iota.
  set (w3 := World.set_generated _ w2).
  rewrite getProjects_run.
  change (stored "projects" w3) with (stored "projects" w). rewrite Hs.
  cbn [as_projects].
  change (ProjectService.with_milestones (drafted_project w projectData)
            (milestones_from (World.env w) (next_timestamp w) (S (World.generated w))
               (initial_list projectData)))
    with (created_project w projectData).
  assert (Hb3 : backend w3 "projects" <> NoBackend) by exact Hb.
  destruct (stored_write_same "projects"
              (VProjects (projects ++ [created_project w projectData])) w3 Hb3)
    as [Hw Hr].
  rewrite Hw. rewrite getProjects_run, Hr. cbn [as_projects].
  eexists. split; [reflexivity|]. split; [exact Hr|].
  destruct (write_preserves "projects"
              (VProjects (projects ++ [created_project w projectData])) w3)
    as (_ & _ & _ & _ & Ht & Hg & _).
  repeat apply conj.
  - rewrite Hg. unfold w3. cbn. lia.
  - rewrite Ht. reflexivity.
  - intros e H1 H2. rewrite stored_write_other by assumption. reflexivity.
Qed.

(** X15. [createProject] with data whose draft passes [validateProject]
    appends one project to the stored collection and returns it.  The
    project has the next identifier, the one reading of the clock as both
    [createdAt] and [updatedAt], no todos, progress 0, status "planning"
    unless one is given, and one open milestone for each element of
    [initialMilestones], each with an identifier of its own.  The keys
    [resources], [risks], [completedAt], [velocity] and [timeSpent] of the
    argument are not copied. *)
Theorem createProject_stores_a_fresh_project (w : World.t)
    (projectData : ProjectData.t) (projects : list Project.t) :
  stored "projects" w = Returns (VProjects projects) ->
  backend w "projects" <> NoBackend ->
  project_valid w (drafted_project w projectData) = Returns tt ->
  exists w' p,
    ProjectService.createProject projectData w = (Returns p, w')
    /\ stored "projects" w' = Returns (VProjects (projects ++ [p]))
    /\ Project.id p = Env.generateId (World.env w) (World.generated w)
    /\ Project.createdAt p = next_timestamp w
    /\ Project.updatedAt p = next_timestamp w
    /\ Project.todoIds p = []
    /\ Project.progress p = num_of_Z 0
    /\ Project.status p = default Planning (ProjectData.status projectData)
    /\ length (Project.milestones p) = length (initial_list projectData)
    /\ (forall m, In m (Project.milestones p) ->
          Milestone.completed m = false /\ Milestone.todoIds m = []
          /\ Milestone.createdAt m = next_timestamp w
          /\ Milestone.updatedAt m = next_timestamp w)
    /\ (forall i m, Project.milestones p !! i = Some m ->
          Milestone.id m
          = Env.generateId (World.env w) (S (World.generated w) + i))
    /\ Project.resources p = None /\ Project.risks p = None
    /\ Project.completedAt p = None /\ Project.velocity p = None
    /\ Project.timeSpent p = None
    /\ World.generated w'
       = (S (length (initial_list projectData)) + World.generated w)%nat.
Proof.
  intros Hs Hb Hv. pose proof (createProject_run w projectData) as H.
  rewrite Hv in H. destruct (H projects Hs Hb) as (w' & Hc & Hs' & Hg & _).
  exists w', (created_project w projectData).
  split; [exact Hc|]. split; [exact Hs'|].
  repeat apply conj; try reflexivity; try exact Hg.
  - cbn. apply milestones_from_length.
  - cbn. apply milestones_from_fields.
  - intros i m. apply milestones_from_ids.
Qed.

(** X16. [createProject] fills a missing start date with the current time
    before it validates, so data with a due date before the current time
    and no start date is rejected with "Start date must be before due
    date"; by then the clock has been read and an identifier drawn, and
    nothing is written. *)
Theorem createProject_rejects_a_past_due_date (w : World.t)
    (projectData : ProjectData.t) (dueDate : string) (due reading : Z) :
  is_blank (ProjectData.name projectData) = false ->
  (String.length (ProjectData.name projectData) <= 100)%nat ->
  (String.length (str_or (ProjectData.description projectData) "") <= 500)%nat ->
  opt_truthy (ProjectData.startDate projectData) = false ->
  ProjectData.dueDate projectData = Some dueDate ->
  dueDate <> "" ->
  next_timestamp w <> "" ->
  Env.parseDate (World.env w) dueDate = Some due ->
  Env.parseDate (World.env w) (next_timestamp w) = Some reading ->
  due < reading ->
  ProjectService.createProject projectData w
  = (Throws (Error "Start date must be before due date"), drawn 1 w)
  /\ stored "projects" (drawn 1 w) = stored "projects" w.
Proof.
  intros Hn Hl Hd Hst Hdue Hne Hnow Hpd Hpn Hlt.
  split; [|reflexivity].
  pose proof (createProject_run w projectData) as H.
  assert (Hv : project_valid w (drafted_project w projectData)
               = Throws (Error "Start date must be before due date")).
  { unfold project_valid, ProjectService.validateProject, drafted_project,
      ProjectService.new_project.
    cbn [Project.name Project.description Project.dueDate Project.startDate].
    rewrite Hn, orb_false_r.
    destruct (ProjectData.name projectData) as [|c r] eqn:En; [discriminate Hn|].
    cbn [str_truthy negb]. unfold longer_than.
    destruct (Nat.ltb_spec 100 (String.length (String c r))) as [K|_]; [lia|].
    destruct (Nat.ltb_spec 500 (String.length
                (str_or (ProjectData.description projectData) ""))) as [K|_]; [lia|].
    rewrite andb_false_r.
    rewrite Hdue. unfold ProjectService.when_truthy.
    destruct dueDate as [|dc dr]; [contradiction|]. cbn [str_truthy].
    assert (Es : str_or (ProjectData.startDate projectData) (next_timestamp w)
                 = next_timestamp w).
    { unfold str_or, opt_truthy in *.
      destruct (ProjectData.startDate projectData) as [s|]; [rewrite Hst|]; reflexivity. }
    rewrite Es. unfold invalid_date. rewrite Hpd, Hpn.
    destruct (next_timestamp w) as [|nc nr] eqn:Ets; [contradiction|].
    cbn [str_truthy andb]. unfold ProjectService.starts_after_due.
    rewrite Hpd, Hpn.
    destruct (Z.ltb_spec due reading) as [_|K]; [reflexivity|lia]. }
  rewrite Hv in H. exact H.
Qed.

(** X17. [deleteProject] with an id that the stored collection holds
    returns [true] and stores the projects with another id, in their
    order.  The todos are not touched: a todo whose [projectId] is the
    deleted project keeps it. *)
Theorem deleteProject_removes_the_project (w : World.t) (id : string)
    (projects : list Project.t) :
  stored "projects" w = Returns (VProjects projects) ->
  (exists p, In p projects /\ Project.id p = id) ->
  let remaining :=
    List.filter (fun project => negb (String.eqb (Project.id project) id)) projects in
  exists w',
    ProjectService.deleteProject id w = (Returns true, w')
    /\ stored "projects" w' = Returns (VProjects remaining)
    /\ (forall p, In p remaining <-> In p projects /\ Project.id p <> id)
    /\ find_project id w' = None
    /\ stored "todos" w' = stored "todos" w
    /\ linked_todos id w' = linked_todos id w.
Proof.
  intros Hs (p & Hp & Hid) remaining.
  assert (Hb : backend w "projects" <> NoBackend).
  { apply (stored_nonempty_backend _ _ _ Hs). intros K. injection K as ->. destruct Hp. }
  destruct (stored_write_same "projects" (VProjects remaining) w Hb) as [Hw Hr].
  assert (Ht : stored "todos" (snd (StorageService.write "projects" (VProjects remaining) w))
               = stored "todos" w).
  { apply stored_write_other; [discriminate|]. cbn. discriminate. }
  exists (snd (StorageService.write "projects" (VProjects remaining) w)).
  repeat apply conj.
  - unfold ProjectService.deleteProject, try_catch, bind, lift, throw, ret.
    rewrite getProjects_run, Hs. cbn [as_projects]. fold remaining.
    pose proof (filter_shorter Project.id id projects p Hp Hid) as L. fold remaining in L.
    destruct (Nat.eqb_spec (length remaining) (length projects)) as [K|_]; [lia|].
    rewrite Hw. reflexivity.
  - exact Hr.
  - intros x. apply (filter_In_id Project.id).
  - unfold find_project. rewrite Hr.
    destruct (List.find _ remaining) as [x|] eqn:F; [|reflexivity].
    apply List.find_some in F. destruct F as [Hx Fx].
    apply (filter_In_id Project.id) in Hx. apply String.eqb_eq in Fx. tauto.
  - exact Ht.
  - unfold linked_todos. rewrite Ht. reflexivity.
Qed.

(** X18. The milestone, resource and risk methods fail without touching
    the state: with "Project with id ... not found" when the project is
    missing, with "Milestone with id ... not found" when the project has
    no milestone with the id.  [deleteProjectResource] and
    [updateProjectRisk] report "Project with id ... not found or has no
    resources" (or risks) both for a missing project and for a stored
    project that has no such list. *)
Theorem milestone_resource_risk_errors (w : World.t) (projectId : string) :
  (find_project projectId w = None ->
   forall milestoneId milestoneData milestonePatch resourceData riskData riskPatch
          resourceId riskId,
     ProjectService.addMilestone projectId milestoneData w
     = (Throws (ProjectService.not_found projectId), w)
     /\ ProjectService.updateMilestone projectId milestoneId milestonePatch w
        = (Throws (ProjectService.not_found projectId), w)
     /\ ProjectService.deleteMilestone projectId milestoneId w
        = (Throws (ProjectService.not_found projectId), w)
     /\ ProjectService.addProjectResource projectId resourceData w
        = (Throws (ProjectService.not_found projectId), w)
     /\ ProjectService.addProjectRisk projectId riskData w
        = (Throws (ProjectService.not_found projectId), w)
     /\ ProjectService.deleteProjectResource projectId resourceId w
        = (Throws (ProjectService.no_resources projectId), w)
     /\ ProjectService.updateProjectRisk projectId riskId riskPatch w
        = (Throws (ProjectService.no_risks projectId), w))
  /\ (forall p milestoneId milestonePatch,
        find_project projectId w = Some p ->
        ~ (exists m, In m (Project.milestones p) /\ Milestone.id m = milestoneId) ->
        ProjectService.updateMilestone projectId milestoneId milestonePatch w
        = (Throws (ProjectService.milestone_not_found milestoneId), w)
        /\ ProjectService.deleteMilestone projectId milestoneId w
           = (Throws (ProjectService.milestone_not_found milestoneId), w))
  /\ (forall p resourceId,
        find_project projectId w = Some p -> Project.resources p = None ->
        ProjectService.deleteProjectResource projectId resourceId w
        = (Throws (ProjectService.no_resources projectId), w))
  /\ (forall p riskId riskPatch,
        find_project projectId w = Some p -> Project.risks p = None ->
        ProjectService.updateProjectRisk projectId riskId riskPatch w
        = (Throws (ProjectService.no_risks projectId), w)).
Proof.
  repeat apply conj.
  - intros Hf. intros. 
    unfold ProjectService.addMilestone, ProjectService.updateMilestone,
      ProjectService.deleteMilestone, ProjectService.addProjectResource,
      ProjectService.addProjectRisk, ProjectService.deleteProjectResource,
      ProjectService.updateProjectRisk, try_catch, bind, throw.
    rewrite getProjectById_run, Hf. repeat split.
  - intros p milestoneId milestonePatch Hf Hn. split.
    + unfold ProjectService.updateMilestone, try_catch, bind, throw.
      rewrite getProjectById_run, Hf.
      destruct (findIndex _ (Project.milestones p)) as [i|] eqn:Hi; [|reflexivity].
      exfalso. apply Hn. destruct (findIndex_Some _ _ _ Hi) as (m & Hm & Fm & _).
      exists m. split; [eapply list_elem_of_In, list_elem_of_lookup_2; exact Hm|].
      apply String.eqb_eq. exact Fm.
    + unfold ProjectService.deleteMilestone, try_catch, bind, throw.
      rewrite getProjectById_run, Hf.
      rewrite (filter_absent Milestone.id milestoneId _ Hn), Nat.eqb_refl. reflexivity.
  - intros p resourceId Hf Hr.
    unfold ProjectService.deleteProjectResource, try_catch, bind, throw.
    rewrite getProjectById_run, Hf, Hr. reflexivity.
  - intros p riskId riskPatch Hf Hr.
    unfold ProjectService.updateProjectRisk, try_catch, bind, throw.
    rewrite getProjectById_run, Hf, Hr. reflexivity.
Qed.

Lemma find_insert_false {A} (f : A -> bool) (l : list A) (i : nat) (x y : A) :
  l !! i = Some x -> f x = false -> f y = false ->
  List.find f (<[i := y]> l) = List.find f l.
Proof.
  revert i. induction l as [|a r IH]; intros i Hi Hx Hy; [reflexivity|].
  destruct i as [|i]; cbn in *.
  - injection Hi as ->. rewrite Hx, Hy. reflexivity.
  - destruct (f a); [reflexivity|]. apply (IH i); assumption.
Qed.

(** What a call of [updateProject] does for a stored project whose
    patched record is valid. *)
Lemma updateProject_found id patch w p :
  find_project id w = Some p ->
  let up := ProjectService.apply_patch p patch id (next_timestamp w) in
  project_valid w up = Returns tt ->
  exists w',
    ProjectService.updateProject id patch w = (Returns up, w')
    /\ find_project id w' = Some up
    /\ (forall other, other <> id -> find_project other w' = find_project other w)
    /\ (forall e, e <> "projects" -> e <> "projects_backup" -> stored e w' = stored e w)
    /\ World.env w' = World.env w
    /\ World.ticks w' = S (World.ticks w)
    /\ World.generated w' = World.generated w
    /\ (forall e, backend w' e = backend w e).
Proof.
  intros Hf up Hv.
  destruct (find_project_index _ _ _ Hf) as (projects & index & Hs & Hi & Hc & Hid).
  destruct (updateProject_ok id patch w projects index p Hs Hi Hc Hv)
    as (Hu & Hs' & Hf' & Ho & He & Ht & Hb).
  eexists. split; [exact Hu|]. repeat apply conj; try assumption.
  - intros other Hne. unfold find_project at 1. rewrite Hs'.
    unfold find_project. rewrite Hs.
    apply (find_insert_false _ _ _ p); [exact Hc| |].
    + apply String.eqb_neq. congruence.
    + apply String.eqb_neq. cbn. congruence.
  - destruct (write_preserves "projects"
                (VProjects (<[index := ProjectService.apply_patch p patch id
                                          (next_timestamp w)]> projects)) (tick w))
      as (_ & _ & _ & _ & _ & Hg & _). exact Hg.
Qed.

(** A patch that leaves the name, the description and the dates alone
    gives a record that validates as the project does. *)
Lemma patched_valid w w0 p patch id ts :
  World.env w0 = World.env w ->
  ProjectPatch.name patch = None -> ProjectPatch.description patch = None ->
  ProjectPatch.dueDate patch = None -> ProjectPatch.startDate patch = None ->
  project_valid w0 (ProjectService.apply_patch p patch id ts) = project_valid w p.
Proof.
  intros He H1 H2 H3 H4. unfold project_valid. rewrite He.
  apply validateProject_fields; cbn; rewrite ?H1, ?H2, ?H3, ?H4; reflexivity.
Qed.

(** X19. [addMilestone] on a stored, valid project appends a milestone
    with the next identifier, and [deleteMilestone] with that identifier
    then brings the list of milestones back to what it was, provided the
    identifier was not that of an earlier milestone.  Neither call
    changes the project's todos or progress. *)
Theorem addMilestone_then_deleteMilestone (w : World.t) (projectId : string)
    (milestoneData : MilestoneData.t) (p : Project.t) :
  find_project projectId w = Some p ->
  project_valid w p = Returns tt ->
  let id := Env.generateId (World.env w) (World.generated w) in
  (forall m, In m (Project.milestones p) -> Milestone.id m <> id) ->
  exists w1 w2 p1 p2 added,
    ProjectService.addMilestone projectId milestoneData w = (Returns p1, w1)
    /\ Project.milestones p1 = (Project.milestones p ++ [added])%list
    /\ Milestone.id added = id
    /\ Milestone.title added = MilestoneData.title milestoneData
    /\ find_project projectId w1 = Some p1
    /\ ProjectService.deleteMilestone projectId id w1 = (Returns p2, w2)
    /\ find_project projectId w2 = Some p2
    /\ Project.milestones p2 = Project.milestones p
    /\ Project.todoIds p1 = Project.todoIds p /\ Project.todoIds p2 = Project.todoIds p
    /\ Project.progress p1 = Project.progress p
    /\ Project.progress p2 = Project.progress p.
Proof.
  intros Hf Hv id Hfresh.
  unfold ProjectService.addMilestone, try_catch, bind, throw, ret, generateId, now.
  rewrite getProjectById_run, Hf.
  cbn [World.env World.set_ticks World.set_generated World.generated World.ticks].
  fold id.
  set (added := Milestone.mk id _ _ _ _ _ _ _ _).
  set (wg := World.set_ticks _ _).
  assert (Hfg : find_project projectId wg = Some p) by exact Hf.
  set (patch1 := ProjectPatch.of_milestones (Project.milestones p ++ [added])).
  assert (Hv1 : project_valid wg
                  (ProjectService.apply_patch p patch1 projectId (next_timestamp wg))
                = Returns tt).
  { rewrite <- Hv. apply patched_valid; reflexivity. }
  destruct (updateProject_found projectId patch1 wg p Hfg Hv1)
    as (w1 & Hu1 & Hf1 & _ & _ & He1 & _).
  rewrite Hu1.
  set (p1 := ProjectService.apply_patch p patch1 projectId (next_timestamp wg)) in *.
  assert (Hfil : List.filter (fun m => negb (String.eqb (Milestone.id m) id))
                   (Project.milestones p1) = Project.milestones p).
  { cbn. apply filter_app_last.
    - intros y Hy. apply negb_true_iff, String.eqb_neq. apply Hfresh. exact Hy.
    - cbn. rewrite String.eqb_refl. reflexivity. }
  set (patch2 := ProjectPatch.of_milestones (Project.milestones p)).
  assert (Hv2 : project_valid w1
                  (ProjectService.apply_patch p1 patch2 projectId (next_timestamp w1))
                = Returns tt).
  { rewrite (patched_valid wg w1 p1 patch2) by (try exact He1; reflexivity).
    exact Hv1. }
  destruct (updateProject_found projectId patch2 w1 p1 Hf1 Hv2)
    as (w2 & Hu2 & Hf2 & _).
  exists w1, w2, p1,
    (ProjectService.apply_patch p1 patch2 projectId (next_timestamp w1)), added.
  repeat apply conj; try reflexivity; try assumption.
  unfold ProjectService.deleteMilestone, try_catch, bind, throw.
  rewrite getProjectById_run, Hf1, Hfil.
  replace (length (Project.milestones p) =? length (Project.milestones p1))%nat
    with false.
  - fold patch2. rewrite Hu2. reflexivity.
  - symmetry. apply Nat.eqb_neq. cbn. rewrite length_app. cbn. lia.
Qed.

(** X20. [updateMilestone] on a stored, valid project rewrites the first
    milestone with the given id and no other: the list keeps its length,
    the milestone keeps its [id] and [createdAt] and gets the reading of
    the clock as [updatedAt]; the project's todos and progress and all
    other projects are as before. *)
Theorem updateMilestone_frame (w : World.t) (projectId milestoneId : string)
    (milestoneData : MilestonePatch.t) (p : Project.t) :
  find_project projectId w = Some p ->
  project_valid w p = Returns tt ->
  (exists m, In m (Project.milestones p) /\ Milestone.id m = milestoneId) ->
  exists w' p' index current,
    ProjectService.updateMilestone projectId milestoneId milestoneData w
    = (Returns p', w')
    /\ find_project projectId w' = Some p'
    /\ Project.milestones p !! index = Some current
    /\ Milestone.id current = milestoneId
    /\ Project.milestones p'
       = <[index := ProjectService.patch_milestone current milestoneData
                       (next_timestamp w)]> (Project.milestones p)
    /\ length (Project.milestones p') = length (Project.milestones p)
    /\ (forall i, i <> index ->
          Project.milestones p' !! i = Project.milestones p !! i)
    /\ (exists updated,
          Project.milestones p' !! index = Some updated
          /\ Milestone.id updated = Milestone.id current
          /\ Milestone.createdAt updated = Milestone.createdAt current
          /\ Milestone.updatedAt updated = next_timestamp w)
    /\ Project.todoIds p' = Project.todoIds p
    /\ Project.progress p' = Project.progress p
    /\ (forall other, other <> projectId ->
          find_project other w' = find_project other w).
Proof.
  intros Hf Hv (m & Hm & Hid).
  destruct (findIndex_exists (fun x => String.eqb (Milestone.id x) milestoneId)
              (Project.milestones p) m Hm) as [index Hi];
    [rewrite Hid; apply String.eqb_refl|].
  destruct (findIndex_Some _ _ _ Hi) as (current & Hc & Fc & _).
  apply String.eqb_eq in Fc.
  assert (Hlt : (index < length (Project.milestones p))%nat)
    by (eapply lookup_lt_Some; eauto).
  unfold ProjectService.updateMilestone, try_catch, bind, throw, ret, now.
  rewrite getProjectById_run, Hf, Hi, Hc.
  change (Env.clock (World.env w) (World.ticks w)) with (next_timestamp w).
  change (World.set_ticks (S (World.ticks w)) w) with (tick w).
  set (updated := ProjectService.patch_milestone current milestoneData (next_timestamp w)).
  set (patch := ProjectPatch.of_milestones (<[index := updated]> (Project.milestones p))).
  assert (Hft : find_project projectId (tick w) = Some p) by exact Hf.
  assert (Hvt : project_valid (tick w)
                  (ProjectService.apply_patch p patch projectId
                     (next_timestamp (tick w))) = Returns tt).
  { rewrite <- Hv. apply patched_valid; reflexivity. }
  destruct (updateProject_found projectId patch (tick w) p Hft Hvt)
    as (w' & Hu & Hf' & Hother & _).
  rewrite Hu.
  exists w', (ProjectService.apply_patch p patch projectId (next_timestamp (tick w))),
    index, current.
  repeat apply conj; try reflexivity; try assumption.
  - cbn. apply length_insert.
  - intros i Hne. cbn. apply list_lookup_insert_ne. congruence.
  - exists updated. split; [cbn; apply list_lookup_insert_eq; exact Hlt|].
    repeat split.
Qed.

Lemma includes_filter_out (l : list string) (x : string) :
  includes (List.filter (fun id => negb (String.eqb id x)) l) x = false.
Proof.
  unfold includes. induction l as [|a r IH]; [reflexivity|].
  cbn. destruct (String.eqb_spec a x) as [E|E]; cbn; [exact IH|].
  rewrite IH, orb_false_r. apply String.eqb_neq. congruence.
Qed.

(** X21. [removeTodoFromProject] on a stored, valid project that lists
    the todo removes every occurrence of the id from [todoIds] and keeps
    the other ids in their order.  The todo loses its [projectId] if it
    is stored and linked to this project; if it is not stored (a dangling
    id) or linked elsewhere, the todos are not written at all.  For a todo
    that the project does not list the call returns the project and
    changes nothing, whether the todo exists or not. *)
Theorem removeTodoFromProject_unlinks (w : World.t) (projectId todoId : string)
    (p : Project.t) :
  find_project projectId w = Some p ->
  (includes (Project.todoIds p) todoId = false ->
   ProjectService.removeTodoFromProject projectId todoId w = (Returns p, w))
  /\ (includes (Project.todoIds p) todoId = true ->
      project_valid w p = Returns tt ->
      (forall t, find_todo todoId w = Some t -> todo_valid w t = Returns tt) ->
      exists w' final,
        ProjectService.removeTodoFromProject projectId todoId w = (Returns final, w')
        /\ find_project projectId w' = Some final
        /\ Project.todoIds final
           = List.filter (fun id => negb (String.eqb id todoId)) (Project.todoIds p)
        /\ includes (Project.todoIds final) todoId = false
        /\ (linked_to projectId todoId w = true ->
            exists t', find_todo todoId w' = Some t' /\ Todo.projectId t' = None)
        /\ (linked_to projectId todoId w = false ->
            stored "todos" w' = stored "todos" w)).
Proof.
  intros Hp. split.
  - intros Hinc.
    unfold ProjectService.removeTodoFromProject, try_catch, bind, throw, ret.
    rewrite getProjectById_run, Hp, Hinc. reflexivity.
  - intros Hinc Hvp Hvt.
    unfold ProjectService.removeTodoFromProject, try_catch, bind, throw, ret.
    rewrite getProjectById_run, Hp, Hinc. cbn [negb].
    rewrite getTodoById_run.
    set (filtered := List.filter (fun id => negb (String.eqb id todoId))
                       (Project.todoIds p)).
    (* the state after the todo has been unlinked, if it is *)
    assert (Hun : exists wa,
               (match find_todo todoId w with
                | Some t =>
                    match Todo.projectId t with
                    | Some q =>
                        if String.eqb q projectId
                        then fun w0 =>
                               match TodoService.updateTodo todoId
                                       (ProjectService.link_patch None) w0 with
                               | (Returns _, w1) => (Returns tt, w1)
                               | (Throws e, w1) => (Throws e, w1)
                               end
                        else fun w0 => (Returns tt, w0)
                    | None => fun w0 => (Returns tt, w0)
                    end
                | None => fun w0 => (Returns tt, w0)
                end) w = (Returns tt, wa)
               /\ stored "projects" wa = stored "projects" w
               /\ World.env wa = World.env w
               /\ (linked_to projectId todoId w = true ->
                   exists t', find_todo todoId wa = Some t' /\ Todo.projectId t' = None)
               /\ (linked_to projectId todoId w = false ->
                   stored "todos" wa = stored "todos" w)).
    { unfold linked_to.
      destruct (find_todo todoId w) as [t|] eqn:Ht;
        [|exists w; repeat split; discriminate].
      destruct (Todo.projectId t) as [q|] eqn:Hq;
        [|exists w; repeat split; discriminate].
      destruct (String.eqb q projectId) eqn:Hqe;
        [|exists w; repeat split; discriminate].
      pose proof (updateTodo_found todoId (ProjectService.link_patch None) w t Ht) as Hu.
      cbv zeta in Hu.
      change (todo_valid w (TodoService.apply_patch t (ProjectService.link_patch None)
                              (next_timestamp w)))
        with (todo_valid w t) in Hu.
      rewrite (Hvt t eq_refl) in Hu.
      destruct Hu as (wa & Hu & Hfa & Hoa & Hea & _).
      exists wa. rewrite Hu. repeat apply conj.
      - reflexivity.
      - apply Hoa; apply not_equal_strings; reflexivity.
      - exact Hea.
      - intros _. eexists. split; [exact Hfa|reflexivity].
      - discriminate. }
    destruct Hun as (wa & Hrun & Hpa & Hea & Hlink & Hkeep).
    match goal with
    | |- context [match ?m w with _ => _ end] =>
        match type of Hrun with ?m' w = _ => change (m w) with (m' w) end
    end.
    rewrite Hrun. cbv beta iota.
    assert (Hfp : find_project projectId wa = Some p)
      by (rewrite (find_project_frame _ _ _ Hpa); exact Hp).
    assert (Hvp' : ProjectService.validateProject (Env.parseDate (World.env wa)) p
                   = Returns tt)
      by (unfold project_valid in Hvp; rewrite Hea; exact Hvp).
    destruct (updateProjectProgress_ok projectId wa p Hfp Hvp')
      as (wb & Hub & Hfb & Hob & Heb & _).
    rewrite Hub.
    match type of Hfb with _ = Some ?x => set (pb := x) in * end.
    assert (Hvb : project_valid wb
                    (ProjectService.apply_patch pb (ProjectPatch.of_todoIds filtered)
                       projectId (next_timestamp wb)) = Returns tt).
    { rewrite (patched_valid wa wb pb) by (try exact Heb; reflexivity).
      unfold pb. rewrite (patched_valid w wa p) by (try exact Hea; reflexivity).
      exact Hvp. }
    destruct (updateProject_found projectId (ProjectPatch.of_todoIds filtered) wb pb
                Hfb Hvb) as (w' & Hu' & Hf' & _ & Ho' & _).
    rewrite Hu'.
    assert (Htodos : stored "todos" w' = stored "todos" wa).
    { rewrite Ho' by (apply not_equal_strings; reflexivity).
      apply Hob; apply not_equal_strings; reflexivity. }
    eexists _, _. split; [reflexivity|]. split; [exact Hf'|].
    split; [reflexivity|]. split; [apply includes_filter_out|]. split.
    + intros Hl. destruct (Hlink Hl) as (t' & Ht' & Hn).
      exists t'. split; [|exact Hn].
      rewrite (find_todo_frame _ _ _ Htodos). exact Ht'.
    + intros Hl. rewrite Htodos. apply Hkeep. exact Hl.
Qed.

(* ===================================================================== *)
(** * Further properties of NotesService *)
(* ===================================================================== *)

Lemma find_note_index id w n :
  find_note id w = Some n ->
  exists notes index,
    stored "notes" w = Returns (VNotes notes)
    /\ findIndex (fun x => String.eqb (Note.id x) id) notes = Some index
    /\ notes !! index = Some n
    /\ Note.id n = id.
Proof.
  unfold find_note. destruct (stored "notes" w) as [[]|] eqn:Hs; try discriminate.
  rewrite find_findIndex.
  destruct (findIndex _ l) as [i|] eqn:Hi; [|discriminate].
  intros Hl. exists l, i. repeat apply conj; auto.
  destruct (findIndex_Some _ _ _ Hi) as (x & Hx & Fx & _).
  rewrite Hl in Hx. injection Hx as <-. apply String.eqb_eq. exact Fx.
Qed.

(** The common end of the methods that rewrite one note: the collection
    is stored with the note replaced at its index. *)
Lemma rewrite_note (w : World.t) (id : string) (notes : list Note.t) (index : nat)
    (current updated : Note.t) :
  stored "notes" w = Returns (VNotes notes) ->
  findIndex (fun x => String.eqb (Note.id x) id) notes = Some index ->
  notes !! index = Some current ->
  Note.id updated = id ->
  let w' := snd (StorageService.write "notes"
                   (VNotes (<[index := updated]> notes)) (tick w)) in
  StorageService.write "notes" (VNotes (<[index := updated]> notes)) (tick w)
  = (Returns tt, w')
  /\ stored "notes" w' = Returns (VNotes (<[index := updated]> notes))
  /\ find_note id w' = Some updated
  /\ (forall other, other <> id -> find_note other w' = find_note other w)
  /\ (forall e, e <> "notes" -> e <> "notes_backup" -> stored e w' = stored e w)
  /\ World.env w' = World.env w
  /\ World.ticks w' = S (World.ticks w)
  /\ World.uuids w' = World.uuids w
  /\ (forall e, backend w' e = backend w e).
Proof.
  intros Hs Hi Hc Hid w'. subst w'.
  assert (Hb : backend (tick w) "notes" <> NoBackend).
  { apply (stored_nonempty_backend "notes" w (VNotes notes) Hs).
    intros K. injection K as ->. discriminate. }
  destruct (stored_write_same "notes" (VNotes (<[index := updated]> notes)) (tick w) Hb)
    as [Hw Hr].
  destruct (findIndex_Some _ _ _ Hi) as (x & Hx & Fx & _).
  rewrite Hc in Hx. injection Hx as <-. apply String.eqb_eq in Fx.
  destruct (write_preserves "notes" (VNotes (<[index := updated]> notes)) (tick w))
    as (_ & _ & _ & He & Ht & _ & Hu).
  repeat apply conj; try assumption.
  - unfold find_note. rewrite Hr. rewrite find_findIndex.
    rewrite (findIndex_insert _ _ _ updated Hi) by (rewrite Hid; apply String.eqb_refl).
    apply list_lookup_insert_eq. eapply lookup_lt_Some; eauto.
  - intros other Hne. unfold find_note. rewrite Hr, Hs.
    apply (find_insert_false _ _ _ current); [exact Hc| |];
      apply String.eqb_neq; congruence.
  - intros e H1 H2. rewrite stored_write_other by assumption. reflexivity.
  - intros e. rewrite backend_write. reflexivity.
Qed.


Lemma removeTagFromNote_run (w : World.t) (noteId tag : string) (current : Note.t) :
  find_note noteId w = Some current ->
  let updated :=
    NotesService.with_tags current
      (List.filter (fun t => negb (String.eqb t tag)) (default [] (Note.tags current)))
      (next_timestamp w) in
  exists w',
    NotesService.removeTagFromNote noteId tag w = (Returns updated, w')
    /\ find_note noteId w' = Some updated.
Proof.
  intros Hf updated.
  destruct (find_note_index _ _ _ Hf) as (notes & index & Hs & Hi & Hc & Hid).
  destruct (rewrite_note w noteId notes index current updated Hs Hi Hc Hid)
    as (Hw & _ & Hf' & _).
  eexists. split; [|exact Hf'].
  unfold NotesService.removeTagFromNote, try_catch, bind, lift, throw, ret, now.
  rewrite getNotes_run, Hs. cbn [as_notes]. rewrite Hi, Hc.
  change (Env.clock (World.env w) (World.ticks w)) with (next_timestamp w).
  change (World.set_ticks (S (World.ticks w)) w) with (tick w).
  fold updated. rewrite Hw. reflexivity.
Qed.

Lemma unlinkNotes_run (w : World.t) (noteId relatedNoteId : string) (current : Note.t) :
  find_note noteId w = Some current ->
  let updated :=
    NotesService.with_relatedNotes current
      (List.filter (fun id => negb (String.eqb id relatedNoteId))
         (default [] (Note.relatedNotes current)))
      (next_timestamp w) in
  exists w',
    NotesService.unlinkNotes noteId relatedNoteId w = (Returns updated, w')
    /\ find_note noteId w' = Some updated.
Proof.
  intros Hf updated.
  destruct (find_note_index _ _ _ Hf) as (notes & index & Hs & Hi & Hc & Hid).
  destruct (rewrite_note w noteId notes index current updated Hs Hi Hc Hid)
    as (Hw & _ & Hf' & _).
  eexists. split; [|exact Hf'].
  unfold NotesService.unlinkNotes, try_catch, bind, lift, throw, ret, now.
  rewrite getNotes_run, Hs. cbn [as_notes]. rewrite Hi, Hc.
  change (Env.clock (World.env w) (World.ticks w)) with (next_timestamp w).
  change (World.set_ticks (S (World.ticks w)) w) with (tick w).
  fold updated. rewrite Hw. reflexivity.
Qed.

Lemma filter_out_appended (l : list string) (x : string) :
  includes l x = false ->
  List.filter (fun y => negb (String.eqb y x)) (l ++ [x]) = l.
Proof.
  intros Hinc. apply filter_app_last.
  - intros y Hy. apply negb_true_iff.
    destruct (String.eqb_spec y x) as [->|_]; [|reflexivity].
    exfalso. unfold includes in Hinc.
    assert (K : existsb (String.eqb x) l = true)
      by (apply existsb_exists; exists x; split; [exact Hy|apply String.eqb_refl]).
    congruence.
  - rewrite String.eqb_refl. reflexivity.
Qed.

(** X22. [addTagToNote] on a stored note appends the tag unless the note
    has it already: then it returns the note and writes nothing, so a
    second call with the same tag changes nothing.  When it writes, the
    note gets the tag after its tags and the reading of the clock as
    [updatedAt], and every other field of it stays ([id], [title],
    [content], [version], [lastEditedAt] among them); the version history
    and the other notes stay too.  Afterwards [getNotesByTag] finds the
    note, and [removeTagFromNote] brings its tags back to what they were
    (the empty list for a note that had no [tags]), again with every
    other field but [updatedAt] as it was. *)
Theorem addTagToNote_adds_once (w : World.t) (noteId tag : string)
    (current : Note.t) :
  find_note noteId w = Some current ->
  let tags := default [] (Note.tags current) in
  (includes tags tag = true ->
   NotesService.addTagToNote noteId tag w = (Returns current, w))
  /\ (includes tags tag = false ->
      exists w' updated,
        NotesService.addTagToNote noteId tag w = (Returns updated, w')
        /\ Note.tags updated = Some (tags ++ [tag])%list
        /\ Note.updatedAt updated = next_timestamp w
        /\ same_but_tags current updated
        /\ find_note noteId w' = Some updated
        /\ NotesService.addTagToNote noteId tag w' = (Returns updated, w')
        /\ stored (NotesService.versions_entity noteId) w'
           = stored (NotesService.versions_entity noteId) w
        /\ (forall other, other <> noteId ->
              find_note other w' = find_note other w)
        /\ (exists found,
              NotesService.getNotesByTag tag w' = (Returns found, w')
              /\ In updated found)
        /\ (exists w'' restored,
              NotesService.removeTagFromNote noteId tag w' = (Returns restored, w'')
              /\ find_note noteId w'' = Some restored
              /\ Note.tags restored = Some tags
              /\ Note.updatedAt restored = next_timestamp w'
              /\ same_but_tags current restored)).
Proof.
  intros Hf tags.
  destruct (find_note_index _ _ _ Hf) as (notes & index & Hs & Hi & Hc & Hid).
  assert (Hrun : forall w0 notes0 index0 current0,
             stored "notes" w0 = Returns (VNotes notes0) ->
             findIndex (fun x => String.eqb (Note.id x) noteId) notes0 = Some index0 ->
             notes0 !! index0 = Some current0 ->
             NotesService.addTagToNote noteId tag w0
             = if includes (default [] (Note.tags current0)) tag
               then (Returns current0, w0)
               else
                 let up := NotesService.with_tags current0
                             (default [] (Note.tags current0) ++ [tag])
                             (next_timestamp w0) in
                 match StorageService.write "notes"
                         (VNotes (<[index0 := up]> notes0)) (tick w0) with
                 | (Returns _, w1) => (Returns up, w1)
                 | (Throws _, w1) => (Throws (Error "Failed to add tag to note"), w1)
                 end).
  { intros w0 notes0 index0 current0 Hs0 Hi0 Hc0.
    unfold NotesService.addTagToNote, try_catch, bind, lift, throw, ret, now.
    rewrite getNotes_run, Hs0. cbn [as_notes]. rewrite Hi0, Hc0.
    destruct (includes _ tag); [reflexivity|].
    change (Env.clock (World.env w0) (World.ticks w0)) with (next_timestamp w0).
    change (World.set_ticks (S (World.ticks w0)) w0) with (tick w0).
    destruct (StorageService.write _ _ _) as [[|] ?]; reflexivity. }
  split.
  - intros Hinc. rewrite (Hrun w notes index current Hs Hi Hc).
    fold tags. rewrite Hinc. reflexivity.
  - intros Hinc.
    set (updated := NotesService.with_tags current (tags ++ [tag]) (next_timestamp w)).
    destruct (rewrite_note w noteId notes index current updated Hs Hi Hc Hid)
      as (Hw & Hs' & Hf' & Hother & Ho & _).
    set (w' := snd (StorageService.write "notes"
                      (VNotes (<[index := updated]> notes)) (tick w))) in *.
    assert (Hhas : includes (default [] (Note.tags updated)) tag = true).
    { cbn. unfold includes. rewrite existsb_app. cbn.
      rewrite String.eqb_refl. apply orb_true_r. }
    exists w', updated.
    unfold same_but_tags. repeat apply conj; try reflexivity; try assumption.
    + rewrite (Hrun w notes index current Hs Hi Hc). fold tags. rewrite Hinc.
      cbv zeta. fold updated. rewrite Hw. reflexivity.
    + destruct (find_note_index _ _ _ Hf') as (notes' & index' & Hs2 & Hi2 & Hc2 & _).
      rewrite (Hrun w' notes' index' updated Hs2 Hi2 Hc2), Hhas. reflexivity.
    + apply Ho; apply versions_not_notes.
    + eexists. split.
      * unfold NotesService.getNotesByTag, try_catch, bind, lift, ret.
        rewrite getNotes_run, Hs'. reflexivity.
      * apply List.filter_In. split; [|exact Hhas].
        apply list_elem_of_In. eapply list_elem_of_lookup_2.
        apply list_lookup_insert_eq. eapply lookup_lt_Some; eauto.
    + destruct (removeTagFromNote_run w' noteId tag updated Hf') as (w'' & Hrm & Hf'').
      eexists _, _. split; [exact Hrm|]. split; [exact Hf''|].
      split; [|repeat apply conj; reflexivity].
      cbn. f_equal. apply filter_out_appended. exact Hinc.
Qed.

Lemma toggleFavorite_run (w : World.t) (noteId : string) (current : Note.t) :
  find_note noteId w = Some current ->
  let updated :=
    NotesService.with_isFavorite current (negb (favorite current)) (next_timestamp w) in
  exists w',
    NotesService.toggleFavorite noteId w = (Returns updated, w')
    /\ find_note noteId w' = Some updated
    /\ (forall other, other <> noteId -> find_note other w' = find_note other w)
    /\ (forall e, e <> "notes" -> e <> "notes_backup" -> stored e w' = stored e w).
Proof.
  intros Hf updated.
  destruct (find_note_index _ _ _ Hf) as (notes & index & Hs & Hi & Hc & Hid).
  destruct (rewrite_note w noteId notes index current updated Hs Hi Hc Hid)
    as (Hw & _ & Hf' & Hother & Ho & _).
  eexists. split; [|split; [exact Hf'|split; [exact Hother|exact Ho]]].
  unfold NotesService.toggleFavorite, try_catch, bind, lift, throw, ret, now.
  rewrite getNotes_run, Hs. cbn [as_notes]. rewrite Hi, Hc.
  change (Env.clock (World.env w) (World.ticks w)) with (next_timestamp w).
  change (World.set_ticks (S (World.ticks w)) w) with (tick w).
  change (NotesService.with_isFavorite current (NotesService.not_favorite current)
            (next_timestamp w)) with updated.
  rewrite Hw. reflexivity.
Qed.

(** X23. [toggleFavorite] stores the note with [isFavorite] negated (a
    missing [isFavorite] counts as [false]) and a new [updatedAt], and
    nothing else changed.  Two calls in a row give the note its first
    favourite status back; a note that had no [isFavorite] then has
    [false]. *)
Theorem toggleFavorite_twice (w : World.t) (noteId : string) (current : Note.t) :
  find_note noteId w = Some current ->
  exists w1 w2 once twice,
    NotesService.toggleFavorite noteId w = (Returns once, w1)
    /\ once = NotesService.with_isFavorite current (negb (favorite current))
                (next_timestamp w)
    /\ NotesService.toggleFavorite noteId w1 = (Returns twice, w2)
    /\ twice = NotesService.with_isFavorite current (favorite current)
                 (next_timestamp w1)
    /\ find_note noteId w2 = Some twice
    /\ Note.isFavorite twice = Some (favorite current)
    /\ Note.version twice = Note.version current
    /\ Note.lastEditedAt twice = Note.lastEditedAt current
    /\ stored (NotesService.versions_entity noteId) w2
       = stored (NotesService.versions_entity noteId) w.
Proof.
  intros Hf.
  destruct (toggleFavorite_run w noteId current Hf) as (w1 & H1 & Hf1 & _ & Ho1).
  destruct (toggleFavorite_run w1 noteId _ Hf1) as (w2 & H2 & Hf2 & _ & Ho2).
  assert (E : NotesService.with_isFavorite
                (NotesService.with_isFavorite current (negb (favorite current))
                   (next_timestamp w))
                (negb (favorite
                         (NotesService.with_isFavorite current (negb (favorite current))
                            (next_timestamp w))))
                (next_timestamp w1)
              = NotesService.with_isFavorite current (favorite current)
                  (next_timestamp w1)).
  { unfold NotesService.with_isFavorite, favorite. cbn.
    rewrite negb_involutive. reflexivity. }
  rewrite E in H2, Hf2.
  eexists w1, w2, _, _.
  split; [exact H1|]. split; [reflexivity|]. split; [exact H2|].
  split; [reflexivity|]. split; [exact Hf2|].
  repeat apply conj; try reflexivity.
  rewrite Ho2, Ho1 by apply versions_not_notes. reflexivity.
Qed.

Lemma existsb_id_find (id : string) (notes : list Note.t) :
  existsb (fun n => String.eqb (Note.id n) id) notes
  = match List.find (fun n => String.eqb (Note.id n) id) notes with
    | Some _ => true
    | None => false
    end.
Proof.
  induction notes as [|a r IH]; [reflexivity|].
  cbn. destruct (String.eqb (Note.id a) id); [reflexivity|exact IH].
Qed.

(** X24. [linkNotes] throws (its generic "Failed to link notes") and
    writes nothing when the related note is not stored.  Otherwise it
    appends the related id to [relatedNotes] of the first note unless it
    is there already.  The link has one direction: the related note
    itself is not changed.  A note can be linked to itself.
    [unlinkNotes] then brings [relatedNotes] back to what it was. *)
Theorem linkNotes_one_direction (w : World.t) (noteId relatedNoteId : string)
    (current : Note.t) :
  find_note noteId w = Some current ->
  let relatedNotes := default [] (Note.relatedNotes current) in
  (find_note relatedNoteId w = None ->
   NotesService.linkNotes noteId relatedNoteId w
   = (Throws (Error "Failed to link notes"), w))
  /\ (forall related, find_note relatedNoteId w = Some related ->
      (includes relatedNotes relatedNoteId = true ->
       NotesService.linkNotes noteId relatedNoteId w = (Returns current, w))
      /\ (includes relatedNotes relatedNoteId = false ->
          let updated :=
            NotesService.with_relatedNotes current (relatedNotes ++ [relatedNoteId])
              (next_timestamp w) in
          exists w',
            NotesService.linkNotes noteId relatedNoteId w = (Returns updated, w')
            /\ find_note noteId w' = Some updated
            /\ (relatedNoteId <> noteId -> find_note relatedNoteId w' = Some related)
            /\ (relatedNoteId = noteId ->
                includes (default [] (Note.relatedNotes updated)) noteId = true)
            /\ (exists w'' restored,
                  NotesService.unlinkNotes noteId relatedNoteId w'
                  = (Returns restored, w'')
                  /\ find_note noteId w'' = Some restored
                  /\ Note.relatedNotes restored = Some relatedNotes))).
Proof.
  intros Hf relatedNotes.
  destruct (find_note_index _ _ _ Hf) as (notes & index & Hs & Hi & Hc & Hid).
  assert (Hsome : existsb (fun n => String.eqb (Note.id n) relatedNoteId) notes
                  = match find_note relatedNoteId w with
                    | Some _ => true
                    | None => false
                    end).
  { unfold find_note. rewrite Hs. apply existsb_id_find. }
  split.
  - intros Hr. unfold NotesService.linkNotes, try_catch, bind, lift, throw, ret.
    rewrite getNotes_run, Hs. cbn [as_notes]. rewrite Hi, Hsome, Hr. reflexivity.
  - intros related Hr. split.
    + intros Hinc. unfold NotesService.linkNotes, try_catch, bind, lift, throw, ret.
      rewrite getNotes_run, Hs. cbn [as_notes]. rewrite Hi, Hsome, Hr, Hc.
      fold relatedNotes. rewrite Hinc. reflexivity.
    + intros Hinc updated.
      destruct (rewrite_note w noteId notes index current updated Hs Hi Hc Hid)
        as (Hw & _ & Hf' & Hother & _).
      eexists. repeat apply conj.
      * unfold NotesService.linkNotes, try_catch, bind, lift, throw, ret, now.
        rewrite getNotes_run, Hs. cbn [as_notes]. rewrite Hi, Hsome, Hr, Hc.
        fold relatedNotes. rewrite Hinc. cbn [negb].
        change (Env.clock (World.env w) (World.ticks w)) with (next_timestamp w).
        change (World.set_ticks (S (World.ticks w)) w) with (tick w).
        fold updated. rewrite Hw. reflexivity.
      * exact Hf'.
      * intros Hne. rewrite Hother by exact Hne. exact Hr.
      * intros ->. cbn. unfold includes. rewrite existsb_app. cbn.
        rewrite String.eqb_refl. apply orb_true_r.
      * destruct (unlinkNotes_run _ noteId relatedNoteId updated Hf')
          as (w'' & Hun & Hf'').
        eexists _, _. split; [exact Hun|]. split; [exact Hf''|].
        cbn. f_equal. apply filter_out_appended. exact Hinc.
Qed.

(** X25. [deleteNote] with the id of a stored note stores the notes with
    another id, in their order, and resets the version history of the
    note to the empty list, which [getNoteVersions] then resolves to
    (the history is written before the notes are). *)
Theorem deleteNote_clears_history (w : World.t) (id : string)
    (notes : list Note.t) :
  stored "notes" w = Returns (VNotes notes) ->
  (exists n, In n notes /\ Note.id n = id) ->
  backend w (NotesService.versions_entity id) <> NoBackend ->
  let remaining :=
    List.filter (fun note => negb (String.eqb (Note.id note) id)) notes in
  exists w',
    NotesService.deleteNote id w = (Returns tt, w')
    /\ stored "notes" w' = Returns (VNotes remaining)
    /\ find_note id w' = None
    /\ NotesService.getNoteVersions id w' = (Returns (VNoteVersions []), w').
Proof.
  intros Hs (n & Hn & Hid) Hbv remaining.
  assert (Hb : backend w "notes" <> NoBackend).
  { apply (stored_nonempty_backend _ _ _ Hs). intros K. injection K as ->. destruct Hn. }
  set (ve := NotesService.versions_entity id) in *.
  destruct (stored_write_same ve (VNoteVersions []) w Hbv) as [Hw1 Hr1].
  set (w1 := snd (StorageService.write ve (VNoteVersions []) w)) in *.
  assert (Hb1 : backend w1 "notes" <> NoBackend).
  { unfold w1. rewrite backend_write. exact Hb. }
  destruct (stored_write_same "notes" (VNotes remaining) w1 Hb1) as [Hw2 Hr2].
  set (w2 := snd (StorageService.write "notes" (VNotes remaining) w1)) in *.
  destruct (versions_not_notes id) as (V1 & V2 & V3 & V4). fold ve in V1, V2, V3, V4.
  exists w2. repeat apply conj.
  - unfold NotesService.deleteNote, NotesService.deleteAllNoteVersions,
      try_catch, bind, lift, throw, ret.
    rewrite getNotes_run, Hs. cbn [as_notes]. fold remaining.
    pose proof (filter_shorter Note.id id notes n Hn Hid) as L. fold remaining in L.
    destruct (Nat.eqb_spec (length notes) (length remaining)) as [K|_]; [lia|].
    fold ve. rewrite Hw1. fold w1. rewrite Hw2. reflexivity.
  - exact Hr2.
  - unfold find_note. rewrite Hr2.
    destruct (List.find _ remaining) as [x|] eqn:F; [|reflexivity].
    apply List.find_some in F. destruct F as [Hx Fx].
    apply (filter_In_id Note.id) in Hx. apply String.eqb_eq in Fx. tauto.
  - rewrite getNoteVersions_run. fold ve. f_equal.
    unfold w2. rewrite stored_write_other by assumption. exact Hr1.
Qed.

Lemma lower_char_idempotent c : lower_char (lower_char c) = lower_char c.
Proof. destruct c as [[] [] [] [] [] [] [] []]; reflexivity. Qed.

Lemma toLowerCase_idempotent s : toLowerCase (toLowerCase s) = toLowerCase s.
Proof.
  induction s as [|c r IH]; [reflexivity|].
  cbn. rewrite lower_char_idempotent, IH. reflexivity.
Qed.

Lemma str_includes_empty s : str_includes s "" = true.
Proof. destruct s; reflexivity. Qed.

(** X26. [searchNotes] compares in lower case: the query and its
    lower-case form find the same notes, in stored order; a note whose
    title contains the query in any letter case is among them; the empty
    query finds every note. *)
Theorem searchNotes_ignores_case (w : World.t) (notes : list Note.t) :
  stored "notes" w = Returns (VNotes notes) ->
  NotesService.searchNotes "" w = (Returns notes, w)
  /\ (forall query,
        NotesService.searchNotes (toLowerCase query) w
        = NotesService.searchNotes query w)
  /\ (forall query note,
        In note notes ->
        str_includes (toLowerCase (Note.title note)) (toLowerCase query) = true ->
        exists found,
          NotesService.searchNotes query w = (Returns found, w) /\ In note found).
Proof.
  intros Hs.
  assert (Hrun : forall query,
             NotesService.searchNotes query w
             = (Returns (List.filter (NotesService.matches (toLowerCase query)) notes), w)).
  { intros query. unfold NotesService.searchNotes, try_catch, bind, lift, ret.
    rewrite getNotes_run, Hs. reflexivity. }
  repeat apply conj.
  - rewrite Hrun. f_equal. f_equal. apply filter_all.
    intros x _. unfold NotesService.matches. cbn [toLowerCase].
    rewrite str_includes_empty. reflexivity.
  - intros query. rewrite !Hrun, toLowerCase_idempotent. reflexivity.
  - intros query note Hin Hm. eexists. split; [apply Hrun|].
    apply List.filter_In. split; [exact Hin|].
    unfold NotesService.matches. rewrite Hm. reflexivity.
Qed.

(* ===================================================================== *)
(** * Further properties of NotificationService *)
(* ===================================================================== *)

Lemma map_as_read_idempotent (l : list NotificationData.t) :
  List.map NotificationService.as_read (List.map NotificationService.as_read l)
  = List.map NotificationService.as_read l.
Proof. rewrite List.map_map. reflexivity. Qed.

Lemma markAllAsRead_run (w : World.t) (l : list NotificationData.t) :
  stored "notifications" w = Returns (VNotifications l) ->
  backend w "notifications" <> NoBackend ->
  exists w',
    NotificationService.markAllAsRead w = (Returns tt, w')
    /\ stored "notifications" w'
       = Returns (VNotifications (List.map NotificationService.as_read l))
    /\ (forall e, backend w' e = backend w e).
Proof.
  intros Hs Hb.
  destruct (stored_write_same "notifications"
              (VNotifications (List.map NotificationService.as_read l)) w Hb)
    as [Hw Hr].
  eexists. split; [|split; [exact Hr|]].
  - unfold NotificationService.markAllAsRead, try_catch, bind, lift, throw.
    rewrite getNotifications_run, Hs. cbn [as_notifications]. rewrite Hw. reflexivity.
  - intros e. rewrite backend_write. reflexivity.
Qed.

(** X27. [markAllAsRead] stores the notifications, in their order and
    with all their other fields, with [read] set; afterwards every stored
    notification is read, and a second call stores the same collection. *)
Theorem markAllAsRead_marks_all (w : World.t) (l : list NotificationData.t) :
  stored "notifications" w = Returns (VNotifications l) ->
  backend w "notifications" <> NoBackend ->
  exists w' w'' marked,
    NotificationService.markAllAsRead w = (Returns tt, w')
    /\ stored "notifications" w' = Returns (VNotifications marked)
    /\ marked = List.map NotificationService.as_read l
    /\ (forall n, In n marked -> NotificationData.read n = true)
    /\ List.map NotificationData.id marked = List.map NotificationData.id l
    /\ NotificationService.markAllAsRead w' = (Returns tt, w'')
    /\ stored "notifications" w'' = Returns (VNotifications marked).
Proof.
  intros Hs Hb.
  destruct (markAllAsRead_run w l Hs Hb) as (w' & H1 & Hs' & Hb').
  assert (Hb1 : backend w' "notifications" <> NoBackend) by (rewrite Hb'; exact Hb).
  destruct (markAllAsRead_run w' _ Hs' Hb1) as (w'' & H2 & Hs'' & _).
  rewrite map_as_read_idempotent in Hs''.
  exists w', w'', (List.map NotificationService.as_read l).
  repeat apply conj; try assumption; try reflexivity.
  - intros n Hn. apply List.in_map_iff in Hn. destruct Hn as (x & <- & _). reflexivity.
  - rewrite List.map_map. reflexivity.
Qed.

(** X28. [getPreferences] resolves to what [read] gives for the
    preferences and leaves the state as it is: since [read] never throws,
    the handler that would store the defaults never runs.  When nothing is
    stored the defaults are returned and still nothing is stored. *)
Theorem getPreferences_never_writes (w : World.t) :
  exists v,
    NotificationService.getPreferences w = (Returns v, w)
    /\ stored "notification_preferences" w = Returns v
    /\ (World.files w !! "notification_preferences" = None ->
        World.localStorage w !! "taskflow_data_notification_preferences" = None ->
        v = VPreferences NotificationService.getDefaultPreferences).
Proof.
  pose proof (stored_backend "notification_preferences" w) as Hs.
  eexists. split; [|split; [exact Hs|]].
  - unfold NotificationService.getPreferences, try_catch.
    rewrite read_eq, Hs. reflexivity.
  - intros Hf Hl. unfold server_value, local_value.
    change ("taskflow_data_" ++ "notification_preferences")
      with "taskflow_data_notification_preferences".
    rewrite Hf, Hl. destruct (backend w _); reflexivity.
Qed.

(** X29. The check before a browser notification reads the preferences
    from [localStorage] alone.  Preferences that the gateway has written
    to the server are what [getPreferences] resolves to, but the check
    does not see them: it decides as before the write, so quiet hours
    stored on the server do not silence it.  Preferences that the gateway
    has written to [localStorage] are the ones the check uses. *)
Theorem preferences_on_the_server_are_not_checked (w : World.t)
    (preferences : NotificationPreference.t)
    (this : NotificationService.Service) (localNow : NotificationService.LocalTime)
    (notification : NotificationData.t) :
  let w' := snd (StorageService.write "notification_preferences"
                   (VPreferences preferences) w) in
  (backend w "notification_preferences" = ToServer ->
   NotificationService.getPreferences w' = (Returns (VPreferences preferences), w')
   /\ NotificationService.getPreferencesSync w' = NotificationService.getPreferencesSync w
   /\ NotificationService.triggerBrowserNotification this localNow w' notification
      = NotificationService.triggerBrowserNotification this localNow w notification)
  /\ (backend w "notification_preferences" = ToLocal ->
      NotificationService.getPreferences w' = (Returns (VPreferences preferences), w')
      /\ NotificationService.getPreferencesSync w' = VPreferences preferences).
Proof.
  intros w'.
  assert (Hget : backend w "notification_preferences" <> NoBackend ->
                 NotificationService.getPreferences w'
                 = (Returns (VPreferences preferences), w')).
  { intros Hb.
    destruct (stored_write_same "notification_preferences"
                (VPreferences preferences) w Hb) as [_ Hr].
    unfold NotificationService.getPreferences, try_catch.
    rewrite read_eq. fold w' in Hr. rewrite Hr. reflexivity. }
  split.
  - intros Hb. split; [apply Hget; rewrite Hb; discriminate|].
    assert (Hsync : NotificationService.getPreferencesSync w'
                    = NotificationService.getPreferencesSync w).
    { unfold w'. rewrite write_backend, Hb. cbn [snd].
      unfold started. cbn [negb String.eqb Ascii.eqb Bool.eqb].
      unfold NotificationService.getPreferencesSync. reflexivity. }
    split; [exact Hsync|].
    unfold NotificationService.triggerBrowserNotification. rewrite Hsync. reflexivity.
  - intros Hb. split; [apply Hget; rewrite Hb; discriminate|].
    assert (Hc : World.isClient w = true).
    { unfold backend in Hb. destruct (World.isClient w); [reflexivity|discriminate]. }
    destruct (write_preserves "notification_preferences" (VPreferences preferences) w)
      as (Hc' & _).
    unfold NotificationService.getPreferencesSync. fold w' in Hc'. rewrite Hc', Hc.
    cbn [negb].
    replace (World.localStorage w' !! "taskflow_data_notification_preferences")
      with (Some (JsonText (VPreferences preferences))); [reflexivity|].
    symmetry. unfold w'. rewrite write_backend, Hb. cbn [snd].
    rewrite localStorage_started. apply write_local_lookup_same.
Qed.

Lemma findIndex_app_last {A} (f : A -> bool) (l : list A) (x : A) :
  (forall y, In y l -> f y = false) -> f x = true ->
  findIndex f (l ++ [x]) = Some (length l).
Proof.
  intros Hl Hx. induction l as [|a r IH]; cbn.
  - rewrite Hx. reflexivity.
  - rewrite (Hl a) by (left; reflexivity).
    rewrite IH; [reflexivity|]. intros y Hy. apply Hl. right. exact Hy.
Qed.

(** X30. [createNotification] appends to the stored collection an unread
    notification with the next uuid and the reading of the clock as its
    timestamp, and returns it, whether or not a browser notification is
    shown: none is shown unless the browser supports notifications and
    permission is granted.  [markAsRead] with the new id then stores that
    notification as read, provided the uuid was not in use. *)
Theorem createNotification_then_markAsRead (w : World.t)
    (this : NotificationService.Service) (localNow : NotificationService.LocalTime)
    (notification : NotificationInput.t) (l : list NotificationData.t) :
  stored "notifications" w = Returns (VNotifications l) ->
  backend w "notifications" <> NoBackend ->
  let n := created_notification w notification in
  exists w' w'' shown,
    NotificationService.createNotification this localNow notification w
    = (Returns (n, shown), w')
    /\ stored "notifications" w' = Returns (VNotifications (l ++ [n]))
    /\ NotificationData.read n = false
    /\ shown = NotificationService.triggerBrowserNotification this localNow w' n
    /\ (NotificationService.areBrowserNotificationsAllowed this = false ->
        shown = None)
    /\ ((forall x, In x l -> NotificationData.id x <> NotificationData.id n) ->
        NotificationService.markAsRead (NotificationData.id n) w'
        = (Returns (NotificationService.as_read n), w'')
        /\ stored "notifications" w''
           = Returns (VNotifications (l ++ [NotificationService.as_read n]))).
Proof.
  intros Hs Hb n.
  set (w0 := World.set_ticks (S (World.ticks w))
               (World.set_uuids (S (World.uuids w)) w)).
  assert (Hb0 : backend w0 "notifications" <> NoBackend) by exact Hb.
  destruct (stored_write_same "notifications" (VNotifications (l ++ [n])) w0 Hb0)
    as [Hw Hr].
  set (w' := snd (StorageService.write "notifications"
                    (VNotifications (l ++ [n])) w0)) in *.
  assert (Hb1 : backend w' "notifications" <> NoBackend).
  { unfold w'. rewrite backend_write. exact Hb0. }
  set (marked := <[length l := NotificationService.as_read n]> (l ++ [n])%list).
  destruct (stored_write_same "notifications" (VNotifications marked) w' Hb1)
    as [Hw2 Hr2].
  exists w', (snd (StorageService.write "notifications" (VNotifications marked) w')),
    (NotificationService.triggerBrowserNotification this localNow w' n).
  repeat apply conj; try reflexivity.
  - unfold NotificationService.createNotification, try_catch, bind, lift, throw, ret,
      gets, uuidv4, now.
    rewrite getNotifications_run, Hs.
    cbn [World.env World.set_uuids World.ticks World.uuids as_notifications].
    change (NotificationData.mk (Env.uuidv4 (World.env w) (World.uuids w)) _ _ _ _ _
              _ _ _ _ _ _ _ _) with n.
    fold w0. rewrite Hw. reflexivity.
  - exact Hr.
  - intros Ha. unfold NotificationService.triggerBrowserNotification.
    rewrite Ha. reflexivity.
  - intros H. split.
    2:{ rewrite Hr2. f_equal. f_equal. unfold marked.
        clear. induction l as [|a r IH]; cbn; [reflexivity|]. f_equal. exact IH. }
    unfold NotificationService.markAsRead, try_catch, bind, lift, throw, ret.
    rewrite getNotifications_run, Hr. cbn [as_notifications].
    assert (Hi : findIndex (fun x => String.eqb (NotificationData.id x)
                                       (NotificationData.id n)) (l ++ [n])
                 = Some (length l)).
    { apply findIndex_app_last; [|apply String.eqb_refl].
      intros y Hy. apply String.eqb_neq. apply H. exact Hy. }
    rewrite Hi.
    replace ((l ++ [n])%list !! length l) with (Some n)
      by (symmetry; apply list_lookup_middle; reflexivity).
    fold marked. rewrite Hw2. reflexivity.
Qed.

(* ===================================================================== *)
(** * The further properties at sample states *)
(* ===================================================================== *)


(** [read_falls_back_to_localStorage] for a rejected request. *)
Lemma read_falls_back_witness :
  server_read_failed (Throws StorageService.fetch_failed)
  /\ StorageService.read_with (Throws StorageService.fetch_failed) offline_local_world
       "todos" None = Returns (VTodos two_todos).
Proof.
  assert (H : server_read_failed (Throws StorageService.fetch_failed)) by exact I.
  split; [exact H|].
  exact (read_falls_back_to_localStorage (Throws StorageService.fetch_failed)
           offline_local_world "todos" None eq_refl eq_refl eq_refl H).
Defined.

(** [write_fails_without_fallback] for a reply with status 500. *)
Lemma write_fails_without_fallback_witness :
  server_write_failed (Returns (Response.mk 500 None))
  /\ StorageService.write_with (Returns (Response.mk 500 None)) strict_offline_world
       "todos" (VTodos two_todos) None
     = (Throws (Error "Failed to save todos data"),
        World.add_toast StorageService.storage_warning strict_offline_world).
Proof.
  assert (H : server_write_failed (Returns (Response.mk 500 None))) by reflexivity.
  split; [exact H|].
  exact (write_fails_without_fallback (Returns (Response.mk 500 None))
           strict_offline_world "todos" (VTodos two_todos) None
           eq_refl eq_refl eq_refl H).
Defined.

(** [write_leaves_other_entities]: a write of the projects and the todos. *)
Lemma write_leaves_other_entities_witness :
  "todos" <> "projects"
  /\ "todos" <> "projects" ++ "_backup"
  /\ stored "todos"
       (snd (StorageService.write "projects" (VProjects []) two_todos_world))
     = Returns (VTodos two_todos)
  /\ stored "todos"
       (settled (snd (StorageService.write "projects" (VProjects []) two_todos_world)))
     = Returns (VTodos two_todos).
Proof.
  assert (H1 : "todos" <> "projects") by discriminate.
  assert (H2 : "todos" <> "projects" ++ "_backup") by discriminate.
  split; [exact H1|]. split; [exact H2|].
  destruct (write_leaves_other_entities two_todos_world "projects" "todos"
              (VProjects []) H1 H2) as [Ha Hb].
  split.
  - rewrite Ha. vm_compute. reflexivity.
  - rewrite Hb; [vm_compute; reflexivity|discriminate|discriminate].
Defined.

(** [local_write_keeps_previous_value] for a second write of the todos. *)
Lemma local_write_keeps_previous_value_witness :
  backend local_world "todos" = ToLocal
  /\ World.localStorage local_world !! "taskflow_data_todos"
     = Some (JsonText (VTodos two_todos))
  /\ World.localStorage
       (snd (StorageService.write "todos" (VTodos []) local_world))
       !! "taskflow_data_todos_backup"
     = Some (JsonText (VTodos two_todos)).
Proof.
  assert (H1 : backend local_world "todos" = ToLocal) by (vm_compute; reflexivity).
  assert (H2 : World.localStorage local_world !! ("taskflow_data_" ++ "todos")
               = Some (JsonText (VTodos two_todos))) by (vm_compute; reflexivity).
  split; [exact H1|]. split; [exact H2|].
  exact (proj1 (proj2 (local_write_keeps_previous_value local_world "todos" (VTodos [])
                         (JsonText (VTodos two_todos)) H1 H2 eq_refl))).
Defined.


(** [updateMetadata_records_lastSync] on a state without metadata. *)
Lemma updateMetadata_records_lastSync_witness :
  stored "metadata" empty_world = Returns (VObject [])
  /\ backend empty_world "metadata" <> NoBackend
  /\ exists w',
       StorageService.updateMetadata empty_world = (Returns tt, w')
       /\ exists fields',
            stored "metadata" w' = Returns (VObject fields')
            /\ field "lastSync" (VObject fields') = Some "2025-01-01T00:00:00.000Z".
Proof.
  assert (H1 : stored "metadata" empty_world = Returns (VObject []))
    by (vm_compute; reflexivity).
  assert (H2 : backend empty_world "metadata" <> NoBackend) by (vm_compute; discriminate).
  split; [exact H1|]. split; [exact H2|].
  destruct (updateMetadata_records_lastSync empty_world) as (w' & Hu & _ & Hf).
  exists w'. split; [exact Hu|].
  destruct (Hf [] H1 H2) as (fields' & Hs & Hl & _).
  exists fields'. split; [exact Hs|exact Hl].
Defined.

(** [local_mode_bypasses_the_server] on a client whose server holds two
    todos. *)
Lemma local_mode_bypasses_the_server_witness :
  World.isClient two_todos_world = true
  /\ stored "todos" two_todos_world = Returns (VTodos two_todos)
  /\ stored "todos" (snd (StorageService.setUseServerStorage false two_todos_world))
     = Returns (VTodos [])
  /\ World.files
       (snd (StorageService.write "todos" (VTodos [])
               (snd (StorageService.setUseServerStorage false two_todos_world))))
     = World.files two_todos_world.
Proof.
  split; [reflexivity|]. split; [vm_compute; reflexivity|].
  destruct (local_mode_bypasses_the_server two_todos_world "todos" (VTodos []) eq_refl)
    as (H1 & _ & H3 & _).
  split; [rewrite H1; vm_compute; reflexivity|exact H3].
Defined.

(** [backup_then_restore] for the todos kept in [localStorage]. *)
Lemma backup_then_restore_witness :
  World.localStorage local_world !! "taskflow_data_todos"
  = Some (JsonText (VTodos two_todos))
  /\ exists w1 w3,
       StorageService.createBackup_with (Throws StorageService.fetch_failed)
         "todos" None local_world
       = (Returns (Some "taskflow_data_todos_2025-01-01T00-00-00.000Z_backup"), w1)
       /\ StorageService.restoreFromBackup_with (Throws StorageService.fetch_failed)
            "todos" "taskflow_data_todos_2025-01-01T00-00-00.000Z_backup"
            (snd (StorageService.write "todos" (VTodos []) w1)) = (Returns tt, w3)
       /\ stored "todos" w3 = Returns (VTodos two_todos).
Proof.
  assert (H : World.localStorage local_world !! ("taskflow_data_" ++ "todos")
              = Some (JsonText (VTodos two_todos))) by (vm_compute; reflexivity).
  split; [exact H|].
  destruct (backup_then_restore (Throws StorageService.fetch_failed)
              (Throws StorageService.fetch_failed) local_world "todos" (VTodos [])
              (JsonText (VTodos two_todos)) eq_refl eq_refl H eq_refl)
    as (w1 & w3 & H1 & H3 & _ & Hs).
  exists w1, w3. split; [exact H1|]. split; [exact H3|].
  rewrite Hs. vm_compute. reflexivity.
Defined.

(** [exists_answers] on the server side, and for an empty text in
    [localStorage]. *)
Lemma exists_answers_witness :
  StorageService.exists_with (Throws StorageService.fetch_failed) server_side_world
    "todos" None = StorageService.Known false
  /\ StorageService.exists_with (Throws StorageService.fetch_failed) empty_text_world
       "todos" None = StorageService.Known true
  /\ StorageService.read_with (Throws StorageService.fetch_failed) empty_text_world
       "todos" None = Returns (VTodos []).
Proof.
  destruct (exists_answers (Throws StorageService.fetch_failed) server_side_world
              "todos" None) as (H1 & _).
  destruct (exists_answers (Throws StorageService.fetch_failed) empty_text_world
              "todos" None) as (_ & _ & _ & H4).
  split; [exact (H1 eq_refl)|].
  exact (H4 eq_refl eq_refl eq_refl).
Defined.

(** [createTodo_then_lookup_and_delete] on a collection of two todos. *)
Lemma createTodo_then_lookup_and_delete_witness :
  stored "todos" two_todos_world = Returns (VTodos two_todos)
  /\ backend two_todos_world "todos" <> NoBackend
  /\ data_valid two_todos_world sample_todo_data = Returns tt
  /\ unused_id "id-0" two_todos
  /\ exists w1 w2,
       TodoService.createTodo sample_todo_data two_todos_world
       = (Returns (created_todo two_todos_world sample_todo_data), w1)
       /\ TodoService.getTodoById "id-0" w1
          = (Returns (Some (created_todo two_todos_world sample_todo_data)), w1)
       /\ TodoService.deleteTodo "id-0" w1 = (Returns true, w2)
       /\ stored "todos" w2 = Returns (VTodos two_todos).
Proof.
  assert (H1 : stored "todos" two_todos_world = Returns (VTodos two_todos))
    by (vm_compute; reflexivity).
  assert (H2 : backend two_todos_world "todos" <> NoBackend)
    by (vm_compute; discriminate).
  assert (H3 : data_valid two_todos_world sample_todo_data = Returns tt)
    by (vm_compute; reflexivity).
  assert (H4 : unused_id "id-0" two_todos)
    by (intros x [<-|[<-|[]]]; discriminate).
  split; [exact H1|]. split; [exact H2|]. split; [exact H3|]. split; [exact H4|].
  destruct (createTodo_then_lookup_and_delete two_todos_world sample_todo_data
              two_todos H1 H2 H3) as (w1 & Hc & _ & Hfresh & _).
  destruct (Hfresh H4) as (Hg & w2 & Hd & Hs).
  exists w1, w2. repeat split; assumption.
Defined.

(** [createTodo_rejects_invalid_data] for a title of three spaces. *)
Lemma createTodo_rejects_invalid_data_witness :
  is_blank (TodoData.title blank_todo_data) = true
  /\ TodoService.createTodo blank_todo_data two_todos_world
     = (Throws (Error "Todo title is required"), two_todos_world).
Proof.
  split; [reflexivity|].
  exact (proj1 (proj2 (createTodo_rejects_invalid_data two_todos_world
                         blank_todo_data)) eq_refl).
Defined.

(** [deleteTodo_removes_the_todo] for the first of two todos. *)
Lemma deleteTodo_removes_the_todo_witness :
  stored "todos" two_todos_world = Returns (VTodos two_todos)
  /\ (exists t, In t two_todos /\ Todo.id t = "t1")
  /\ exists w',
       TodoService.deleteTodo "t1" two_todos_world = (Returns true, w')
       /\ stored "todos" w' = Returns (VTodos [sample_todo "t2" Pending None]).
Proof.
  assert (H1 : stored "todos" two_todos_world = Returns (VTodos two_todos))
    by (vm_compute; reflexivity).
  assert (H2 : exists t, In t two_todos /\ Todo.id t = "t1")
    by (exists (sample_todo "t1" Pending None); split; [left|]; reflexivity).
  split; [exact H1|]. split; [exact H2|].
  destruct (deleteTodo_removes_the_todo two_todos_world "t1" two_todos H1 H2)
    as (w' & Hd & Hs & _).
  exists w'. split; [exact Hd|exact Hs].
Defined.

(** [getOverdueTodos_spec] in 2025: of the three todos with a due date,
    only the open one that was due in 2024 is overdue. *)
Lemma getOverdueTodos_spec_witness :
  stored "todos" due_world = Returns (VTodos due_todos)
  /\ TodoService.getOverdueTodos due_world
     = (Returns [due_todo "t1" Pending "2024-06-30"], tick due_world).
Proof.
  assert (H1 : stored "todos" due_world = Returns (VTodos due_todos))
    by (vm_compute; reflexivity).
  split; [exact H1|].
  destruct (getOverdueTodos_spec due_world due_todos H1) as (overdue & Hg & -> & _).
  exact Hg.
Defined.

(** [createProject_stores_a_fresh_project] with two initial milestones. *)
Lemma createProject_stores_a_fresh_project_witness :
  let projectData :=
    sample_project_data None
      (Some [InitialMilestone.mk "Alpha" None None;
             InitialMilestone.mk "Beta" None (Some "2025-03-01")]) in
  stored "projects" empty_world = Returns (VProjects [])
  /\ backend empty_world "projects" <> NoBackend
  /\ project_valid empty_world (drafted_project empty_world projectData) = Returns tt
  /\ exists w' p,
       ProjectService.createProject projectData empty_world = (Returns p, w')
       /\ stored "projects" w' = Returns (VProjects [p])
       /\ Project.id p = "id-0"
       /\ List.map Milestone.id (Project.milestones p) = ["id-1"; "id-2"]
       /\ World.generated w' = 3%nat.
Proof.
  intros projectData.
  assert (H1 : stored "projects" empty_world = Returns (VProjects []))
    by (vm_compute; reflexivity).
  assert (H2 : backend empty_world "projects" <> NoBackend)
    by (vm_compute; discriminate).
  assert (H3 : project_valid empty_world (drafted_project empty_world projectData)
               = Returns tt) by (vm_compute; reflexivity).
  split; [exact H1|]. split; [exact H2|]. split; [exact H3|].
  destruct (createProject_stores_a_fresh_project empty_world projectData [] H1 H2 H3)
    as (w' & p & Hc & Hs & Hid & _ & _ & _ & _ & _ & Hlen & _ & Hids & Hrest).
  exists w', p. split; [exact Hc|]. split; [exact Hs|]. split; [exact Hid|].
  split.
  - destruct (Project.milestones p) as [|m1 [|m2 [|m3 r]]] eqn:E; try discriminate Hlen.
    cbn. rewrite (Hids 0%nat m1 eq_refl), (Hids 1%nat m2 eq_refl). reflexivity.
  - destruct Hrest as (_ & _ & _ & _ & _ & Hg). exact Hg.
Defined.

(** [createProject_rejects_a_past_due_date] in 2025 for a project that
    was due in 2024. *)
Lemma createProject_rejects_a_past_due_date_witness :
  let projectData := sample_project_data (Some "2024-06-30") None in
  Env.parseDate dated_env "2024-06-30" = Some 2024
  /\ Env.parseDate dated_env (next_timestamp (dated empty_world)) = Some 2025
  /\ ProjectService.createProject projectData (dated empty_world)
     = (Throws (Error "Start date must be before due date"), drawn 1 (dated empty_world)).
Proof.
  intros projectData.
  assert (H1 : Env.parseDate (World.env (dated empty_world)) "2024-06-30" = Some 2024)
    by reflexivity.
  assert (H2 : Env.parseDate (World.env (dated empty_world))
                 (next_timestamp (dated empty_world)) = Some 2025)
    by (vm_compute; reflexivity).
  split; [exact H1|]. split; [exact H2|].
  refine (proj1 (createProject_rejects_a_past_due_date (dated empty_world) projectData
                   "2024-06-30" 2024 2025 eq_refl _ _ eq_refl eq_refl _ _ H1 H2 _)).
  - cbn. lia.
  - cbn. lia.
  - discriminate.
  - vm_compute. discriminate.
  - lia.
Defined.

(** [deleteProject_removes_the_project] for a project with two linked
    todos. *)
Lemma deleteProject_removes_the_project_witness :
  stored "projects" half_done_world
  = Returns (VProjects [sample_project "p1" ["t1"; "t2"] (num_of_Z 50)])
  /\ exists w',
       ProjectService.deleteProject "p1" half_done_world = (Returns true, w')
       /\ stored "projects" w' = Returns (VProjects [])
       /\ length (linked_todos "p1" w') = 2%nat.
Proof.
  assert (H1 : stored "projects" half_done_world
               = Returns (VProjects [sample_project "p1" ["t1"; "t2"] (num_of_Z 50)]))
    by (vm_compute; reflexivity).
  split; [exact H1|].
  assert (H2 : exists p, In p [sample_project "p1" ["t1"; "t2"] (num_of_Z 50)]
                         /\ Project.id p = "p1")
    by (eexists; split; [left|]; reflexivity).
  destruct (deleteProject_removes_the_project half_done_world "p1" _ H1 H2)
    as (w' & Hd & Hs & _ & _ & _ & Hl).
  exists w'. split; [exact Hd|]. split; [exact Hs|].
  rewrite Hl. vm_compute. reflexivity.
Defined.

(** [milestone_resource_risk_errors] for a missing project, an unknown
    milestone and a project without resources. *)
Lemma milestone_resource_risk_errors_witness :
  find_project "p9" milestone_world = None
  /\ find_project "p1" milestone_world = Some milestone_project
  /\ ProjectService.addMilestone "p9" sample_milestone_data milestone_world
     = (Throws (not_found_error "Project" "p9"), milestone_world)
  /\ ProjectService.deleteMilestone "p1" "m9" milestone_world
     = (Throws (not_found_error "Milestone" "m9"), milestone_world)
  /\ ProjectService.deleteProjectResource "p1" "r1" milestone_world
     = (Throws (Error "Project with id p1 not found or has no resources"),
        milestone_world).
Proof.
  assert (H9 : find_project "p9" milestone_world = None) by (vm_compute; reflexivity).
  assert (H1 : find_project "p1" milestone_world = Some milestone_project)
    by (vm_compute; reflexivity).
  split; [exact H9|]. split; [exact H1|].
  destruct (milestone_resource_risk_errors milestone_world "p9") as (Ha & _).
  destruct (milestone_resource_risk_errors milestone_world "p1") as (_ & Hb & Hc & _).
  split; [|split].
  - exact (proj1 (Ha H9 "m1" sample_milestone_data MilestonePatch.empty
                    (ResourceData.mk "Plan" ResLink "https://example.org")
                    (RiskData.mk "Delay" None Low Low Identified) RiskPatch.empty
                    "r1" "k1")).
  - refine (proj2 (Hb milestone_project "m9" MilestonePatch.empty H1 _)).
    intros (m & [<-|[]] & K). discriminate.
  - exact (Hc milestone_project "r1" H1 eq_refl).
Defined.

(** [addMilestone_then_deleteMilestone] on the project with one
    milestone. *)
Lemma addMilestone_then_deleteMilestone_witness :
  find_project "p1" milestone_world = Some milestone_project
  /\ project_valid milestone_world milestone_project = Returns tt
  /\ exists w1 w2 p1 p2,
       ProjectService.addMilestone "p1" sample_milestone_data milestone_world
       = (Returns p1, w1)
       /\ List.map Milestone.id (Project.milestones p1) = ["m1"; "id-0"]
       /\ ProjectService.deleteMilestone "p1" "id-0" w1 = (Returns p2, w2)
       /\ Project.milestones p2 = [sample_milestone "m1"].
Proof.
  assert (H1 : find_project "p1" milestone_world = Some milestone_project)
    by (vm_compute; reflexivity).
  assert (H2 : project_valid milestone_world milestone_project = Returns tt)
    by (vm_compute; reflexivity).
  split; [exact H1|]. split; [exact H2|].
  assert (H3 : forall m, In m (Project.milestones milestone_project) ->
                 Milestone.id m
                 <> Env.generateId (World.env milestone_world)
                      (World.generated milestone_world))
    by (intros m [<-|[]]; discriminate).
  destruct (addMilestone_then_deleteMilestone milestone_world "p1"
              sample_milestone_data milestone_project H1 H2 H3)
    as (w1 & w2 & p1 & p2 & added & Ha & Hm & Hid & _ & _ & Hd & _ & Hm2 & _).
  exists w1, w2, p1, p2. split; [exact Ha|]. split; [|split; [exact Hd|exact Hm2]].
  rewrite Hm, List.map_app. cbn. rewrite Hid. reflexivity.
Defined.

(** [updateMilestone_frame] for the completion of the milestone "m1". *)
Lemma updateMilestone_frame_witness :
  find_project "p1" milestone_world = Some milestone_project
  /\ project_valid milestone_world milestone_project = Returns tt
  /\ exists w' p',
       ProjectService.updateMilestone "p1" "m1"
         (MilestonePatch.mk None None None (Some true) None None None) milestone_world
       = (Returns p', w')
       /\ length (Project.milestones p') = 1%nat
       /\ Project.todoIds p' = [].
Proof.
  assert (H1 : find_project "p1" milestone_world = Some milestone_project)
    by (vm_compute; reflexivity).
  assert (H2 : project_valid milestone_world milestone_project = Returns tt)
    by (vm_compute; reflexivity).
  split; [exact H1|]. split; [exact H2|].
  assert (H3 : exists m, In m (Project.milestones milestone_project)
                         /\ Milestone.id m = "m1")
    by (exists (sample_milestone "m1"); split; [left|]; reflexivity).
  destruct (updateMilestone_frame milestone_world "p1" "m1"
              (MilestonePatch.mk None None None (Some true) None None None)
              milestone_project H1 H2 H3)
    as (w' & p' & index & current & Hu & _ & _ & _ & _ & Hl & _ & _ & Ht & _).
  exists w', p'. split; [exact Hu|]. split; [exact Hl|exact Ht].
Defined.

(** [removeTodoFromProject_unlinks] for the second todo of a project. *)
Lemma removeTodoFromProject_unlinks_witness :
  find_project "p1" half_done_world
  = Some (sample_project "p1" ["t1"; "t2"] (num_of_Z 50))
  /\ linked_to "p1" "t2" half_done_world = true
  /\ exists w' final t',
       ProjectService.removeTodoFromProject "p1" "t2" half_done_world
       = (Returns final, w')
       /\ Project.todoIds final = ["t1"]
       /\ find_todo "t2" w' = Some t'
       /\ Todo.projectId t' = None.
Proof.
  assert (H1 : find_project "p1" half_done_world
               = Some (sample_project "p1" ["t1"; "t2"] (num_of_Z 50)))
    by (vm_compute; reflexivity).
  assert (H2 : linked_to "p1" "t2" half_done_world = true) by (vm_compute; reflexivity).
  split; [exact H1|]. split; [exact H2|].
  destruct (removeTodoFromProject_unlinks half_done_world "p1" "t2" _ H1) as (_ & H).
  assert (Hv : forall t, find_todo "t2" half_done_world = Some t ->
                 todo_valid half_done_world t = Returns tt).
  { intros t Ht. vm_compute in Ht. injection Ht as <-. vm_compute. reflexivity. }
  destruct (H eq_refl eq_refl Hv) as (w' & final & Hr & _ & Hids & _ & Hl & _).
  destruct (Hl H2) as (t' & Ht' & Hp).
  exists w', final, t'. repeat split; assumption.
Defined.

(** [addTagToNote_adds_once] for a first tag on the note "n1". *)
Lemma addTagToNote_adds_once_witness :
  find_note "n1" two_notes_world = Some (sample_note "n1" "first draft")
  /\ includes (default [] (Note.tags (sample_note "n1" "first draft"))) "urgent" = false
  /\ exists w' w'' updated restored,
       NotesService.addTagToNote "n1" "urgent" two_notes_world = (Returns updated, w')
       /\ Note.tags updated = Some ["urgent"]
       /\ Note.updatedAt updated = next_timestamp two_notes_world
       /\ Note.id updated = "n1"
       /\ Note.title updated = "Minutes"
       /\ Note.content updated = "first draft"
       /\ Note.version updated = Some (num_of_Z 1)
       /\ Note.lastEditedAt updated = "2024-12-01T09:00:00.000Z"
       /\ NotesService.addTagToNote "n1" "urgent" w' = (Returns updated, w')
       /\ NotesService.removeTagFromNote "n1" "urgent" w' = (Returns restored, w'')
       /\ Note.tags restored = Some []
       /\ Note.title restored = "Minutes"
       /\ Note.content restored = "first draft".
Proof.
  assert (H1 : find_note "n1" two_notes_world = Some (sample_note "n1" "first draft"))
    by (vm_compute; reflexivity).
  split; [exact H1|]. split; [reflexivity|].
  destruct (addTagToNote_adds_once two_notes_world "n1" "urgent" _ H1) as (_ & H).
  destruct (H eq_refl)
    as (w' & updated & Ha & Htags & Hat & Hsame & _ & Hagain & _ & _ & _
        & w'' & restored & Hr & _ & Ht & _ & Hsame').
  destruct Hsame as (Hid & Htitle & Hcontent & _ & _ & _ & _ & _ & _ & Hedited
                     & _ & _ & _ & Hversion & _).
  destruct Hsame' as (_ & Htitle' & Hcontent' & _).
  exists w', w'', updated, restored.
  repeat apply conj; assumption.
Defined.

(** [toggleFavorite_twice] for a note without [isFavorite]. *)
Lemma toggleFavorite_twice_witness :
  find_note "n2" two_notes_world = Some (sample_note "n2" "Agenda")
  /\ exists w1 w2 once twice,
       NotesService.toggleFavorite "n2" two_notes_world = (Returns once, w1)
       /\ Note.isFavorite once = Some true
       /\ NotesService.toggleFavorite "n2" w1 = (Returns twice, w2)
       /\ Note.isFavorite twice = Some false.
Proof.
  assert (H1 : find_note "n2" two_notes_world = Some (sample_note "n2" "Agenda"))
    by (vm_compute; reflexivity).
  split; [exact H1|].
  destruct (toggleFavorite_twice two_notes_world "n2" _ H1)
    as (w1 & w2 & once & twice & Ha & -> & Hb & _ & _ & Hf & _).
  eexists w1, w2, _, twice. split; [exact Ha|]. split; [reflexivity|].
  split; [exact Hb|exact Hf].
Defined.

(** [linkNotes_one_direction] for two stored notes, and for a related
    note that is not stored. *)
Lemma linkNotes_one_direction_witness :
  find_note "n1" two_notes_world = Some (sample_note "n1" "first draft")
  /\ find_note "n2" two_notes_world = Some (sample_note "n2" "Agenda")
  /\ find_note "n9" two_notes_world = None
  /\ NotesService.linkNotes "n1" "n9" two_notes_world
     = (Throws (Error "Failed to link notes"), two_notes_world)
  /\ exists w' updated,
       NotesService.linkNotes "n1" "n2" two_notes_world = (Returns updated, w')
       /\ Note.relatedNotes updated = Some ["n2"]
       /\ find_note "n2" w' = Some (sample_note "n2" "Agenda").
Proof.
  assert (H1 : find_note "n1" two_notes_world = Some (sample_note "n1" "first draft"))
    by (vm_compute; reflexivity).
  assert (H2 : find_note "n2" two_notes_world = Some (sample_note "n2" "Agenda"))
    by (vm_compute; reflexivity).
  assert (H9 : find_note "n9" two_notes_world = None) by (vm_compute; reflexivity).
  split; [exact H1|]. split; [exact H2|]. split; [exact H9|].
  split.
  - exact (proj1 (linkNotes_one_direction two_notes_world "n1" "n9" _ H1) H9).
  - destruct (linkNotes_one_direction two_notes_world "n1" "n2" _ H1) as (_ & H).
    destruct (H _ H2) as (_ & Hlink).
    destruct (Hlink eq_refl) as (w' & Hl & _ & Hrel & _).
    eexists w', _. split; [exact Hl|]. split; [reflexivity|].
    apply Hrel. discriminate.
Defined.

(** [deleteNote_clears_history] for the note "n1". *)
Lemma deleteNote_clears_history_witness :
  stored "notes" two_notes_world = Returns (VNotes two_notes)
  /\ backend two_notes_world (NotesService.versions_entity "n1") <> NoBackend
  /\ exists w',
       NotesService.deleteNote "n1" two_notes_world = (Returns tt, w')
       /\ stored "notes" w' = Returns (VNotes [sample_note "n2" "Agenda"])
       /\ NotesService.getNoteVersions "n1" w' = (Returns (VNoteVersions []), w').
Proof.
  assert (H1 : stored "notes" two_notes_world = Returns (VNotes two_notes))
    by (vm_compute; reflexivity).
  assert (H2 : backend two_notes_world (NotesService.versions_entity "n1") <> NoBackend)
    by (vm_compute; discriminate).
  split; [exact H1|]. split; [exact H2|].
  assert (H3 : exists n, In n two_notes /\ Note.id n = "n1")
    by (eexists; split; [left|]; reflexivity).
  destruct (deleteNote_clears_history two_notes_world "n1" two_notes H1 H3 H2)
    as (w' & Hd & Hs & _ & Hv).
  exists w'. split; [exact Hd|]. split; [exact Hs|exact Hv].
Defined.

(** [searchNotes_ignores_case] for a query in capital letters. *)
Lemma searchNotes_ignores_case_witness :
  stored "notes" two_notes_world = Returns (VNotes two_notes)
  /\ NotesService.searchNotes "" two_notes_world = (Returns two_notes, two_notes_world)
  /\ NotesService.searchNotes "MINUTES" two_notes_world
     = NotesService.searchNotes "minutes" two_notes_world
  /\ exists found,
       NotesService.searchNotes "MINUTES" two_notes_world
       = (Returns found, two_notes_world)
       /\ In (sample_note "n2" "Agenda") found.
Proof.
  assert (H1 : stored "notes" two_notes_world = Returns (VNotes two_notes))
    by (vm_compute; reflexivity).
  split; [exact H1|].
  destruct (searchNotes_ignores_case two_notes_world two_notes H1) as (Ha & Hb & Hc).
  split; [exact Ha|]. split; [symmetry; exact (Hb "MINUTES")|].
  apply (Hc "MINUTES" (sample_note "n2" "Agenda"));
    [right; left; reflexivity|vm_compute; reflexivity].
Defined.

(** [markAllAsRead_marks_all] for one unread and one read notification. *)
Lemma markAllAsRead_marks_all_witness :
  stored "notifications" notifications_world
  = Returns (VNotifications two_notifications)
  /\ backend notifications_world "notifications" <> NoBackend
  /\ exists w',
       NotificationService.markAllAsRead notifications_world = (Returns tt, w')
       /\ stored "notifications" w'
          = Returns (VNotifications [sample_notification "a1" true;
                                     sample_notification "a2" true]).
Proof.
  assert (H1 : stored "notifications" notifications_world
               = Returns (VNotifications two_notifications))
    by (vm_compute; reflexivity).
  assert (H2 : backend notifications_world "notifications" <> NoBackend)
    by (vm_compute; discriminate).
  split; [exact H1|]. split; [exact H2|].
  destruct (markAllAsRead_marks_all notifications_world two_notifications H1 H2)
    as (w' & w'' & marked & Hm & Hs & -> & _).
  exists w'. split; [exact Hm|exact Hs].
Defined.

(** [getPreferences_never_writes] on a state without preferences. *)
Lemma getPreferences_never_writes_witness :
  World.files empty_world !! "notification_preferences" = None
  /\ World.localStorage empty_world !! "taskflow_data_notification_preferences" = None
  /\ NotificationService.getPreferences empty_world
     = (Returns (VPreferences NotificationService.getDefaultPreferences), empty_world).
Proof.
  assert (H1 : World.files empty_world !! "notification_preferences" = None)
    by reflexivity.
  assert (H2 : World.localStorage empty_world
                 !! "taskflow_data_notification_preferences" = None) by reflexivity.
  split; [exact H1|]. split; [exact H2|].
  destruct (getPreferences_never_writes empty_world) as (v & Hg & _ & Hd).
  rewrite <- (Hd H1 H2). exact Hg.
Defined.

(** [preferences_on_the_server_are_not_checked]: quiet hours from 22:00
    to 06:00 are stored on the server, and a notification is still
    triggered at 23:30. *)
Lemma preferences_on_the_server_are_not_checked_witness :
  let w' := snd (StorageService.write "notification_preferences"
                   (VPreferences quiet_preferences) empty_world) in
  backend empty_world "notification_preferences" = ToServer
  /\ NotificationService.isInQuietHours (at_time 23 30) quiet_preferences = true
  /\ NotificationService.getPreferences w' = (Returns (VPreferences quiet_preferences), w')
  /\ NotificationService.triggerBrowserNotification granted (at_time 23 30) w'
       (sample_notification "a1" false)
     = Some (NotificationService.mkBrowserNotification "Due soon"
               "The report is due tomorrow" "/favicon.ico" "a1").
Proof.
  intros w'.
  assert (H1 : backend empty_world "notification_preferences" = ToServer)
    by (vm_compute; reflexivity).
  split; [exact H1|]. split; [vm_compute; reflexivity|].
  destruct (preferences_on_the_server_are_not_checked empty_world quiet_preferences
              granted (at_time 23 30) (sample_notification "a1" false)) as (H & _).
  destruct (H H1) as (Hg & _ & Ht).
  split; [exact Hg|].
  unfold w'. rewrite Ht. vm_compute. reflexivity.
Defined.

(** [createNotification_then_markAsRead] on a collection of two
    notifications. *)
Lemma createNotification_then_markAsRead_witness :
  stored "notifications" notifications_world
  = Returns (VNotifications two_notifications)
  /\ backend notifications_world "notifications" <> NoBackend
  /\ exists w' w'' n shown,
       NotificationService.createNotification granted (at_time 12 0)
         sample_notification_input notifications_world = (Returns (n, shown), w')
       /\ NotificationData.id n = "uuid-0"
       /\ NotificationData.read n = false
       /\ NotificationService.markAsRead "uuid-0" w'
          = (Returns (NotificationService.as_read n), w'')
       /\ stored "notifications" w''
          = Returns (VNotifications
                       (two_notifications ++ [NotificationService.as_read n])).
Proof.
  assert (H1 : stored "notifications" notifications_world
               = Returns (VNotifications two_notifications))
    by (vm_compute; reflexivity).
  assert (H2 : backend notifications_world "notifications" <> NoBackend)
    by (vm_compute; discriminate).
  split; [exact H1|]. split; [exact H2|].
  destruct (createNotification_then_markAsRead notifications_world granted
              (at_time 12 0) sample_notification_input two_notifications H1 H2)
    as (w' & w'' & shown & Hc & _ & Hr & _ & _ & Hm).
  destruct Hm as (Hm & Hs).
  { intros x [<-|[<-|[]]]; discriminate. }
  eexists w', w'', _, shown. split; [exact Hc|]. split; [reflexivity|].
  split; [exact Hr|]. split; [exact Hm|exact Hs].
Defined.
